(** * Flow-Gard: the integrated water-meter firmware

    A shallow embedding of [IntegratedWaterMeterIoTSystem/src/main.c]:
    the Modbus-RTU frame codec, the receive loop, the register decoder,
    the connectivity event handlers and retry loops, and the telemetry
    publisher, with the properties the specification states about them.

    Bytes and machine integers are [Z] with the C wrap-around written
    out; buffers are [list Z] accessed with checked lookups and stores,
    so an access outside an array is an explicit failure ([None]) of the
    model and its absence is a theorem. *)

From Stdlib Require Import ZArith List Lia Bool String Ascii.
From stdpp Require Import base tactics option list strings relations.

Local Open Scope Z_scope.

(** ** Machine integers *)

Module CInt.

Definition u8 (z : Z) : Z := z mod 256.
Definition u16 (z : Z) : Z := z mod 65536.
Definition u32 (z : Z) : Z := z mod 4294967296.

Definition is_u8 (z : Z) : Prop := 0 <= z < 256.
Definition is_u16 (z : Z) : Prop := 0 <= z < 65536.
Definition is_u32 (z : Z) : Prop := 0 <= z < 4294967296.

(** [buf[i] = v] on a [uint8_t] array: the value is truncated to a byte,
    and a store outside the array is a fault. *)
Definition store (buf : list Z) (i : Z) (v : Z) : option (list Z) :=
  if decide (0 <= i < Z.of_nat (length buf))
  then Some (<[Z.to_nat i := u8 v]> buf)
  else None.

(** [buf[i]] as an rvalue: a load outside the array is a fault. *)
Definition load (buf : list Z) (i : Z) : option Z :=
  if decide (0 <= i) then buf !! Z.to_nat i else None.

End CInt.

Import CInt.

(** ** Frame codec *)

Module Modbus.

(** One pass of the inner [for (j = 0; j < 8; j++)] loop body:
    [crc = (crc & 0x0001) ? ((crc >> 1) ^ 0xA001) : (crc >> 1)]. *)
Definition crc_shift (crc : Z) : Z :=
  u16 (if Z.eqb (Z.land crc 1) 0
       then Z.shiftr crc 1
       else Z.lxor (Z.shiftr crc 1) 0xA001).

(** The outer loop body: [crc ^= data[i]] followed by the eight shifts. *)
Definition crc_byte (crc b : Z) : Z :=
  Nat.iter 8 crc_shift (u16 (Z.lxor crc b)).

(** The outer loop [for (i = ...; i < length; i++)] from index [i],
    with [n] iterations left. *)
Fixpoint crc_loop (data : list Z) (i : Z) (n : nat) (crc : Z) : option Z :=
  match n with
  | O => Some crc
  | S n' => b ← load data i; crc_loop data (i + 1) n' (crc_byte crc b)
  end.

(** [uint16_t modbus_crc16(const uint8_t *data, uint16_t length)] *)
Definition modbus_crc16 (data : list Z) (length : Z) : option Z :=
  crc_loop data 0 (Z.to_nat length) 0xFFFF.

(** The CRC of a byte sequence taken as a value (no pointer, no length). *)
Definition crc16 (bytes : list Z) : Z := fold_left crc_byte bytes 0xFFFF.

(** The CRC as the specification words it: register preset to 0xFFFF,
    then one iteration per input bit, least significant bit of each byte
    first; the bit is combined with the low bit of the register, the
    register is shifted right, and the reflected polynomial 0xA001 is
    folded in when the combined bit is set. *)
Definition crc16_spec_bit (crc : Z) (bit : bool) : Z :=
  let fb := xorb (Z.testbit crc 0) bit in
  let sh := Z.shiftr crc 1 in
  if fb then Z.lxor sh 0xA001 else sh.

Definition byte_bits (b : Z) : list bool :=
  map (fun k => Z.testbit b (Z.of_nat k)) (seq 0 8).

Definition crc16_spec (bytes : list Z) : Z :=
  fold_left crc16_spec_bit (concat (map byte_bits bytes)) 0xFFFF.

(** [void build_read_cmd(uint8_t *buf, uint8_t id)] *)
Definition build_read_cmd (buf : list Z) (id : Z) : option (list Z) :=
  buf ← store buf 0 id;
  buf ← store buf 1 0x03;
  buf ← store buf 2 0x00;
  buf ← store buf 3 0x01;
  buf ← store buf 4 0x00;
  buf ← store buf 5 0x26;
  crc ← modbus_crc16 buf 6;
  buf ← store buf 6 (Z.land crc 0xFF);
  store buf 7 (Z.land (Z.shiftr crc 8) 0xFF).

(** [uint32_t read_u32(const uint8_t *d, int offset)]: the bytes are
    promoted to [int] before the shifts, the results converted to
    [uint32_t]. *)
Definition read_u32 (d : list Z) (offset : Z) : option Z :=
  b0 ← load d offset;
  b1 ← load d (offset + 1);
  b2 ← load d (offset + 2);
  b3 ← load d (offset + 3);
  let low := u32 (Z.lor (Z.shiftl b0 8) b1) in
  let high := u32 (Z.lor (Z.shiftl b2 8) b3) in
  Some (u32 (Z.lor (Z.shiftl high 16) low)).

(** A 16-bit register read written inline in the source:
    [(d[i] << 8) | d[i + 1]] assigned to a [uint16_t]. *)
Definition read_u16 (d : list Z) (i : Z) : option Z :=
  b0 ← load d i;
  b1 ← load d (i + 1);
  Some (u16 (Z.lor (Z.shiftl b0 8) b1)).

(** The serial number is assembled inline from four bytes:
    [(d[i] << 24) | (d[i+1] << 16) | (d[i+2] << 8) | d[i+3]],
    each byte cast to [uint32_t] first. *)
Definition read_be32 (d : list Z) (i : Z) : option Z :=
  b0 ← load d i;
  b1 ← load d (i + 1);
  b2 ← load d (i + 2);
  b3 ← load d (i + 3);
  Some (u32 (Z.lor (Z.lor (Z.lor (u32 (Z.shiftl b0 24)) (u32 (Z.shiftl b1 16)))
                          (u32 (Z.shiftl b2 8))) b3)).

End Modbus.

Import Modbus.


(** ** Platform constants

    [errno.h] and the socket headers are not part of the repository; the
    firmware only negates the error numbers and tests return values
    against zero, so the constants are taken as an interface. *)

Class Platform := {
  ENODEV : Z;
  ETIMEDOUT : Z;
  EINVAL : Z;
  ECONNREFUSED : Z;
  ENOTCONN : Z;
  EAGAIN : Z;
  ZSOCK_POLLIN : Z;
  errno_positive :
    0 < ENODEV /\ 0 < ETIMEDOUT /\ 0 < EINVAL /\
    0 < ECONNREFUSED /\ 0 < ENOTCONN /\ 0 < EAGAIN
}.

(** ** Configuration *)

Definition MODBUS_SLAVE_ID : Z := 1.
Definition MODBUS_READ_INTERVAL_SEC : Z := 30.
Definition MODBUS_RX_BUFFER : Z := 256.
Definition TELEMETRY_TOPIC : string := "v1/devices/me/telemetry".
Definition ATTRIBUTES_TOPIC : string := "v1/devices/me/attributes".

(** ** Global data *)

(** [meter_data_t] *)
Record meter_data_t := {
  flow_rate : Z;
  forward_total : Z;
  reverse_total : Z;
  pressure : Z;
  temperature : Z;
  status : Z;
  serial_number : Z;
  modbus_id : Z;
  baud_code : Z;
  valid : bool
}.

Definition set_valid (v : bool) (m : meter_data_t) : meter_data_t :=
  {| flow_rate := flow_rate m; forward_total := forward_total m;
     reverse_total := reverse_total m; pressure := pressure m;
     temperature := temperature m; status := status m;
     serial_number := serial_number m; modbus_id := modbus_id m;
     baud_code := baud_code m; valid := v |}.

(** The file-scope variables of [main.c] that the modelled functions
    touch, together with the two variables of [main] that live across
    loop iterations ([loop_count], and the function-static [attrs_sent]).
    The semaphores are their counts; [mqtt_sock] is
    [client.transport.tcp.sock]. *)
Record state := {
  mqtt_connected : bool;
  wifi_connected : Z;
  ipv4_obtained : Z;
  mqtt_sock : Z;
  meter_data : meter_data_t;
  attrs_sent : bool;
  loop_count : Z
}.

Definition set_mqtt_connected (b : bool) (s : state) : state :=
  {| mqtt_connected := b; wifi_connected := wifi_connected s;
     ipv4_obtained := ipv4_obtained s; mqtt_sock := mqtt_sock s;
     meter_data := meter_data s; attrs_sent := attrs_sent s;
     loop_count := loop_count s |}.
Definition set_wifi_connected (c : Z) (s : state) : state :=
  {| mqtt_connected := mqtt_connected s; wifi_connected := c;
     ipv4_obtained := ipv4_obtained s; mqtt_sock := mqtt_sock s;
     meter_data := meter_data s; attrs_sent := attrs_sent s;
     loop_count := loop_count s |}.
Definition set_ipv4_obtained (c : Z) (s : state) : state :=
  {| mqtt_connected := mqtt_connected s; wifi_connected := wifi_connected s;
     ipv4_obtained := c; mqtt_sock := mqtt_sock s;
     meter_data := meter_data s; attrs_sent := attrs_sent s;
     loop_count := loop_count s |}.
Definition set_mqtt_sock (c : Z) (s : state) : state :=
  {| mqtt_connected := mqtt_connected s; wifi_connected := wifi_connected s;
     ipv4_obtained := ipv4_obtained s; mqtt_sock := c;
     meter_data := meter_data s; attrs_sent := attrs_sent s;
     loop_count := loop_count s |}.
Definition set_meter_data (m : meter_data_t) (s : state) : state :=
  {| mqtt_connected := mqtt_connected s; wifi_connected := wifi_connected s;
     ipv4_obtained := ipv4_obtained s; mqtt_sock := mqtt_sock s;
     meter_data := m; attrs_sent := attrs_sent s;
     loop_count := loop_count s |}.
Definition set_attrs_sent (b : bool) (s : state) : state :=
  {| mqtt_connected := mqtt_connected s; wifi_connected := wifi_connected s;
     ipv4_obtained := ipv4_obtained s; mqtt_sock := mqtt_sock s;
     meter_data := meter_data s; attrs_sent := b;
     loop_count := loop_count s |}.
Definition set_loop_count (c : Z) (s : state) : state :=
  {| mqtt_connected := mqtt_connected s; wifi_connected := wifi_connected s;
     ipv4_obtained := ipv4_obtained s; mqtt_sock := mqtt_sock s;
     meter_data := meter_data s; attrs_sent := attrs_sent s;
     loop_count := c |}.

(** [static meter_data_t meter_data = {0}] and the other initialisers. *)
Definition meter_data_init : meter_data_t :=
  {| flow_rate := 0; forward_total := 0; reverse_total := 0; pressure := 0;
     temperature := 0; status := 0; serial_number := 0; modbus_id := 0;
     baud_code := 0; valid := false |}.

Definition state_init : state :=
  {| mqtt_connected := false; wifi_connected := 0; ipv4_obtained := 0;
     mqtt_sock := 0; meter_data := meter_data_init; attrs_sent := false;
     loop_count := 0 |}.

(** ** Notifications and their handlers *)

Inductive wifi_mgmt_event :=
| NET_EVENT_WIFI_CONNECT_RESULT (status : Z)
| NET_EVENT_WIFI_DISCONNECT_RESULT
| NET_EVENT_WIFI_OTHER.

Inductive ipv4_mgmt_event :=
| NET_EVENT_IPV4_ADDR_ADD
| NET_EVENT_IPV4_OTHER.

Inductive mqtt_evt :=
| MQTT_EVT_CONNACK (result : Z)
| MQTT_EVT_DISCONNECT
| MQTT_EVT_PUBACK (message_id : Z)
| MQTT_EVT_OTHER.

(** A callback invocation: which handler runs, and on what. *)
Inductive event :=
| WifiEvt (e : wifi_mgmt_event)
| Ipv4Evt (e : ipv4_mgmt_event)
| MqttEvt (e : mqtt_evt).

(** [k_sem_give] on a semaphore defined with limit 1, [k_sem_reset]. *)
Definition k_sem_give (count : Z) : Z := if count <? 1 then count + 1 else count.
Definition k_sem_reset (count : Z) : Z := 0.

(** [wifi_event_handler] *)
Definition wifi_event_handler (e : wifi_mgmt_event) (s : state) : state :=
  match e with
  | NET_EVENT_WIFI_CONNECT_RESULT status =>
      if status =? 0
      then set_wifi_connected (k_sem_give (wifi_connected s)) s
      else s
  | NET_EVENT_WIFI_DISCONNECT_RESULT =>
      let s := set_mqtt_connected false s in
      let s := set_wifi_connected (k_sem_reset (wifi_connected s)) s in
      set_ipv4_obtained (k_sem_reset (ipv4_obtained s)) s
  | NET_EVENT_WIFI_OTHER => s
  end.

(** [ipv4_event_handler] *)
Definition ipv4_event_handler (e : ipv4_mgmt_event) (s : state) : state :=
  match e with
  | NET_EVENT_IPV4_ADDR_ADD =>
      set_ipv4_obtained (k_sem_give (ipv4_obtained s)) s
  | NET_EVENT_IPV4_OTHER => s
  end.

(** [mqtt_evt_handler] *)
Definition mqtt_evt_handler (e : mqtt_evt) (s : state) : state :=
  match e with
  | MQTT_EVT_CONNACK result =>
      if negb (result =? 0)
      then set_mqtt_connected false s
      else set_mqtt_connected true s
  | MQTT_EVT_DISCONNECT => set_mqtt_connected false s
  | MQTT_EVT_PUBACK _ => s
  | MQTT_EVT_OTHER => s
  end.

(** The step of the event-handler transition system. *)
Definition handle (e : event) (s : state) : state :=
  match e with
  | WifiEvt e => wifi_event_handler e s
  | Ipv4Evt e => ipv4_event_handler e s
  | MqttEvt e => mqtt_evt_handler e s
  end.

Definition deliver (evs : list event) (s : state) : state :=
  fold_left (fun s e => handle e s) evs s.

(** ** The firmware's surroundings

    Every call that leaves [main.c] (kernel, drivers, network stack, MQTT
    library) is an [action] recorded in a trace.  What the call returns,
    what it writes through its out-parameter, which callbacks run while
    it is in progress and how long it takes are not decided by the
    firmware; an oracle supplies them, one [ext] per call, depending on
    how many calls were made before and on what is asked. *)

Inductive uart_mode := ModbusCfg | OriginalCfg.
Inductive sem_id := SemWifi | SemIpv4.
Inductive log_arg := LZ (z : Z) | LS (s : string).

Inductive action :=
| DeviceIsReady
| UartConfigGet
| UartConfigure (m : uart_mode)
| UartPollOut (b : Z)
| UartPollIn
| KSleep (ms : Z)
| KSemTake (x : sem_id) (timeout_ms : Z)
| NetIfGetFirstWifi
| NetMgmtAddCallbacks
| NetMgmtWifiConnect
| Getaddrinfo
| SysRand32
| MqttClientInit
| MqttConnect
| MqttDisconnect
| MqttInput
| MqttLive
| ZsockPoll (timeout_ms : Z)
| MqttPublish (topic payload : string) (message_id : Z)
| Log (fmt : string) (args : list log_arg).

Record ext := {
  x_ret : Z;
  x_out : Z;
  x_evs : list event;
  x_dt : Z
}.

Definition oracle : Type := nat -> action -> ext.

Record world := {
  globals : state;
  now : Z;
  pos : nat;
  trace : list action
}.

Inductive err := MemFault | OutOfFuel.

(** A run ends with a value, or stops at a fault of the model; either
    way the world reached is kept. *)
Inductive result (A : Type) :=
| Ok (a : A) (w : world)
| Err (e : err) (w : world).
Arguments Ok {A} a w.
Arguments Err {A} e w.

Definition prog (A : Type) : Type := oracle -> world -> result A.

#[global] Instance prog_ret : MRet prog := fun A a _ w => Ok a w.
#[global] Instance prog_bind : MBind prog := fun A B k m env w =>
  match m env w with
  | Ok a w' => k a env w'
  | Err e w' => Err e w'
  end.

Definition get_state : prog state := fun _ w => Ok (globals w) w.

Definition modify (f : state -> state) : prog unit := fun _ w =>
  Ok tt {| globals := f (globals w); now := now w;
           pos := pos w; trace := trace w |}.

Definition emit (a : action) : prog unit := fun _ w =>
  Ok tt {| globals := globals w; now := now w;
           pos := pos w; trace := trace w ++ [a] |}.

Definition fault {A} : prog A := fun _ w => Err MemFault w.
Definition out_of_fuel {A} : prog A := fun _ w => Err OutOfFuel w.

(** A checked memory access inside a program. *)
Definition mem {A} (o : option A) : prog A :=
  match o with
  | Some a => mret a
  | None => fault
  end.

(** The effect of an outside call that lasts at least [least] ms: the
    callbacks of the oracle entry run, the clock advances. *)
Definition outside (a : action) (least : Z) : prog (Z * Z) := fun env w =>
  let e := env (pos w) a in
  Ok (x_ret e, x_out e)
     {| globals := deliver (x_evs e) (globals w);
        now := now w + least + x_dt e;
        pos := S (pos w); trace := trace w ++ [a] |}.

Definition call (a : action) : prog (Z * Z) := outside a 0.
Definition call_ret (a : action) : prog Z := '(r, _) ← call a; mret r.

Definition log (fmt : string) (args : list log_arg) : prog unit :=
  emit (Log fmt args).

(** [k_msleep(ms)], [k_sleep(K_MSEC(ms))], [k_sleep(K_SECONDS(ms/1000))]:
    the kernel suspends the caller for no less than the duration. *)
Definition k_msleep (ms : Z) : prog unit := outside (KSleep ms) ms;; mret tt.

(** [k_uptime_get_32()]: the low 32 bits of the uptime in ms. *)
Definition k_uptime_get_32 : prog Z := fun _ w => Ok (u32 (now w)) w.

(** Semaphores. *)
Definition sem_count (x : sem_id) (s : state) : Z :=
  match x with
  | SemWifi => wifi_connected s
  | SemIpv4 => ipv4_obtained s
  end.

Definition set_sem_count (x : sem_id) (c : Z) (s : state) : state :=
  match x with
  | SemWifi => set_wifi_connected c s
  | SemIpv4 => set_ipv4_obtained c s
  end.

Definition sem_try_take (x : sem_id) (s : state) : option state :=
  if 0 <? sem_count x s
  then Some (set_sem_count x (sem_count x s - 1) s)
  else None.

(** Callbacks running while a thread is blocked on semaphore [x]: the
    first one that leaves the semaphore available hands it to the
    blocked thread. *)
Fixpoint deliver_waiting (x : sem_id) (taken : bool) (evs : list event)
    (s : state) : bool * state :=
  match evs with
  | [] => (taken, s)
  | e :: evs' =>
      let s1 := handle e s in
      if taken then deliver_waiting x true evs' s1
      else match sem_try_take x s1 with
           | Some s2 => deliver_waiting x true evs' s2
           | None => deliver_waiting x false evs' s1
           end
  end.

(** [k_sem_take(&sem, K_MSEC(timeout))]: 0 when the semaphore was
    obtained, [-EAGAIN] when the wait timed out. *)
Definition k_sem_take `{Platform} (x : sem_id) (timeout : Z) : prog Z :=
  fun env w =>
  match sem_try_take x (globals w) with
  | Some s' =>
      Ok 0 {| globals := s'; now := now w; pos := pos w;
              trace := trace w ++ [KSemTake x timeout] |}
  | None =>
      let e := env (pos w) (KSemTake x timeout) in
      let '(taken, s') := deliver_waiting x false (x_evs e) (globals w) in
      Ok (if taken then 0 else - EAGAIN)
         {| globals := s'; now := now w + x_dt e;
            pos := S (pos w); trace := trace w ++ [KSemTake x timeout] |}
  end.

(** ** Meter reading source *)

(** [switch_to_modbus]: 2400 baud, even parity, 1 stop bit, 8 data bits,
    no flow control; the result of [uart_configure] is discarded. *)
Definition switch_to_modbus : prog unit :=
  call (UartConfigure ModbusCfg);; mret tt.

(** [switch_to_console] *)
Definition switch_to_console : prog unit :=
  call (UartConfigure OriginalCfg);; k_msleep 10.

(** [for (int i = 0; i < 8; i++) uart_poll_out(uart_dev, tx_buf[i]);] *)
Fixpoint uart_send (tx_buf : list Z) (i : Z) (n : nat) : prog unit :=
  match n with
  | O => mret tt
  | S n' =>
      b ← mem (load tx_buf i);
      call (UartPollOut b);;
      uart_send tx_buf (i + 1) n'
  end.

(** The locals of [read_meter_data] that the receive loop updates. *)
Record rx_locals := {
  rx_buf : list Z;
  rx_len : Z;
  last_byte : Z
}.

(** The receive loop of [read_meter_data]:
    [while ((k_uptime_get_32() - start) < 2000) { ... k_msleep(5); }].
    [fuel] bounds the number of iterations of the model. *)
Fixpoint rx_loop (fuel : nat) (start : Z) (l : rx_locals) : prog rx_locals :=
  t ← k_uptime_get_32;
  if u32 (t - start) <? 2000 then
    match fuel with
    | O => out_of_fuel
    | S fuel' =>
        let idle_check (l1 : rx_locals) : prog rx_locals :=
          t2 ← k_uptime_get_32;
          if (3 <? rx_len l1) && (150 <? u32 (t2 - last_byte l1))
          then mret l1
          else k_msleep 5;; rx_loop fuel' start l1 in
        '(r, c) ← call UartPollIn;
        if r =? 0 then
          buf ← mem (store (rx_buf l) (rx_len l) c);
          t1 ← k_uptime_get_32;
          let l1 := {| rx_buf := buf; rx_len := rx_len l + 1;
                       last_byte := t1 |} in
          if MODBUS_RX_BUFFER <=? u32 (rx_len l1)
          then mret l1
          else idle_check l1
        else idle_check l
    end
  else mret l.

Definition invalidate : prog unit :=
  modify (fun s => set_meter_data (set_valid false (meter_data s)) s).

(** The second half of [read_meter_data]: validation of the received
    bytes and the register decoder. *)
Definition parse_response (rx_buf : list Z) (rx_len : Z) : prog Z :=
  if rx_len <? 70 then
    log "Incomplete response (%d bytes)" [LZ rx_len];;
    invalidate;; mret (-1)
  else
    lo ← mem (load rx_buf (rx_len - 2));
    hi ← mem (load rx_buf (rx_len - 1));
    let recv_crc := u16 (Z.lor lo (Z.shiftl hi 8)) in
    calc_crc ← mem (modbus_crc16 rx_buf (u16 (rx_len - 2)));
    if negb (recv_crc =? calc_crc) then
      log "CRC error (recv: 0x%04X, calc: 0x%04X)" [LZ recv_crc; LZ calc_crc];;
      invalidate;; mret (-1)
    else
      b0 ← mem (load rx_buf 0);
      hdr_bad ← (if negb (b0 =? MODBUS_SLAVE_ID) then mret true
                 else b1 ← mem (load rx_buf 1); mret (negb (b1 =? 0x03)));
      if hdr_bad : bool then
        log "Invalid response header" [];;
        invalidate;; mret (-1)
      else
        let d := drop 3 rx_buf in
        flow ← mem (read_u32 d 0);
        fwd ← mem (read_u32 d 12);
        rev ← mem (read_u32 d 18);
        pres ← mem (read_u16 d 36);
        temp ← mem (read_u16 d 58);
        stat ← mem (read_u16 d 38);
        serial ← mem (read_be32 d 64);
        id ← mem (load d 69);
        baud ← mem (read_u16 d 72);
        modify (set_meter_data
                  {| flow_rate := flow; forward_total := fwd;
                     reverse_total := rev; pressure := pres;
                     temperature := temp; status := stat;
                     serial_number := serial; modbus_id := u8 id;
                     baud_code := baud; valid := true |});;
        log "Meter data read successfully" [];;
        mret 0.

(** [read_meter_data].  [tx_stack] and [rx_stack] are what the
    uninitialised arrays [tx_buf[8]] and [rx_buf[256]] hold on entry. *)
Definition read_meter_data (fuel : nat) (tx_stack rx_stack : list Z) : prog Z :=
  switch_to_modbus;;
  tx_buf ← mem (build_read_cmd tx_stack MODBUS_SLAVE_ID);
  uart_send tx_buf 0 8;;
  k_msleep 100;;
  start ← k_uptime_get_32;
  l ← rx_loop fuel start
        {| rx_buf := rx_stack; rx_len := 0; last_byte := start |};
  switch_to_console;;
  parse_response (rx_buf l) (rx_len l).

(** ** Connectivity supervisor *)

Section Connectivity.
Context `{Platform}.

(** The retry loop of [wifi_connect]:
    [while (retry < max_retries) { ... }] with [max_retries = 10]. *)
Definition wifi_max_retries : Z := 10.

Fixpoint wifi_connect_loop (fuel : nat) (retry : Z) : prog Z :=
  if retry <? wifi_max_retries then
    match fuel with
    | O => out_of_fuel
    | S fuel' =>
        log "WiFi connection attempt %d/%d..." [LZ (retry + 1); LZ wifi_max_retries];;
        modify (fun s => set_wifi_connected (k_sem_reset (wifi_connected s)) s);;
        modify (fun s => set_ipv4_obtained (k_sem_reset (ipv4_obtained s)) s);;
        ret ← call_ret NetMgmtWifiConnect;
        if negb (ret =? 0) then
          log "WiFi connection request failed: %d" [LZ ret];;
          k_msleep 5000;;
          wifi_connect_loop fuel' (retry + 1)
        else
          r1 ← k_sem_take SemWifi 30000;
          if negb (r1 =? 0) then
            log "WiFi connection timeout (attempt %d/%d)"
                [LZ (retry + 1); LZ wifi_max_retries];;
            k_msleep 5000;;
            wifi_connect_loop fuel' (retry + 1)
          else
            r2 ← k_sem_take SemIpv4 30000;
            if negb (r2 =? 0) then
              log "IPv4 acquisition timeout (attempt %d/%d)"
                  [LZ (retry + 1); LZ wifi_max_retries];;
              k_msleep 5000;;
              wifi_connect_loop fuel' (retry + 1)
            else
              log "WiFi connected successfully on attempt %d" [LZ (retry + 1)];;
              mret 0
    end
  else
    log "WiFi connection failed after %d attempts" [LZ wifi_max_retries];;
    mret (- ETIMEDOUT).

(** [wifi_connect]; [net_if_get_first_wifi] yields the interface pointer
    through the out-value, 0 for [NULL]. *)
Definition wifi_connect : prog Z :=
  log "Initializing WiFi connection..." [];;
  '(_, iface) ← call NetIfGetFirstWifi;
  if iface =? 0 then
    log "No WiFi interface found" [];;
    mret (- ENODEV)
  else
    call NetMgmtAddCallbacks;;
    wifi_connect_loop (Z.to_nat wifi_max_retries) 0.

(** [broker_init]; the out-value is the [result] pointer. *)
Definition broker_init : prog Z :=
  '(ret, res) ← call Getaddrinfo;
  if negb (ret =? 0) || (res =? 0) then
    log "DNS resolution failed" [];;
    mret (- EINVAL)
  else
    log "Broker resolved successfully" [];;
    mret 0.

(** [prepare_mqtt_client]; the library decides what the socket field
    holds afterwards. *)
Definition prepare_mqtt_client : prog unit :=
  call SysRand32;;
  '(_, sock) ← call MqttClientInit;
  modify (set_mqtt_sock sock).

(** The inner loop of [thingsboard_connect]:
    [while (timeout > 0) { zsock_poll(fds, 1, 500); ... timeout -= 500; }];
    [true] when [mqtt_connected] was seen set. *)
Fixpoint tb_poll_loop (fuel : nat) (timeout : Z) : prog bool :=
  if 0 <? timeout then
    match fuel with
    | O => out_of_fuel
    | S fuel' =>
        '(poll_ret, revents) ← call (ZsockPoll 500);
        (if (0 <? poll_ret) && negb (Z.land revents ZSOCK_POLLIN =? 0)
         then call MqttInput;; mret tt
         else mret tt);;
        s ← get_state;
        if mqtt_connected s then
          log "ThingsBoard connected successfully" [];;
          mret true
        else
          k_msleep 500;;
          tb_poll_loop fuel' (timeout - 500)
    end
  else mret false.

(** The outer loop of [thingsboard_connect]: [while (retry < 5) { ... }],
    with the [cleanup:] block reached by [goto] or by falling out of the
    inner loop. *)
Fixpoint tb_connect_loop (fuel : nat) (retry : Z) : prog Z :=
  if retry <? 5 then
    match fuel with
    | O => out_of_fuel
    | S fuel' =>
        let cleanup : prog Z :=
          s ← get_state;
          (if 0 <=? mqtt_sock s
           then '(_, sock) ← call MqttDisconnect; modify (set_mqtt_sock sock)
           else mret tt);;
          log "Connection attempt %d failed, retrying..." [LZ (retry + 1)];;
          k_msleep 2000;;
          tb_connect_loop fuel' (retry + 1) in
        '(ret, sock) ← call MqttConnect;
        modify (set_mqtt_sock sock);;
        if negb (ret =? 0) then
          log "mqtt_connect failed: %d" [LZ ret];;
          cleanup
        else
          connected ← tb_poll_loop 10 5000;
          if connected : bool then mret 0 else cleanup
    end
  else
    log "Failed to connect after 5 attempts" [];;
    mret (- ECONNREFUSED).

(** [thingsboard_connect] *)
Definition thingsboard_connect : prog Z :=
  log "Connecting to ThingsBoard..." [];;
  prepare_mqtt_client;;
  tb_connect_loop 5 0.

(** [mqtt_maintenance] *)
Definition mqtt_maintenance : prog unit :=
  s ← get_state;
  if mqtt_connected s then
    call MqttInput;;
    call MqttLive;;
    mret tt
  else mret tt.

End Connectivity.

(** ** Telemetry publisher *)

(** [printf] conversions used by the payloads.  A 32-bit value has at
    most ten decimal digits. *)
Definition dec_digit (d : Z) : ascii := ascii_of_nat (48 + Z.to_nat d).

Fixpoint dec_digits (fuel : nat) (z : Z) (acc : string) : string :=
  match fuel with
  | O => acc
  | S fuel' =>
      let acc' := String (dec_digit (z mod 10)) acc in
      if z / 10 =? 0 then acc' else dec_digits fuel' (z / 10) acc'
  end.

(** [%u] of an [unsigned int]. *)
Definition fmt_u (z : Z) : string := dec_digits 10 (u32 z) "".

(** [%d] of an [int]. *)
Definition fmt_d (z : Z) : string :=
  if z <? 0 then "-" +:+ dec_digits 10 (- z) "" else dec_digits 10 z "".

Definition hex_digit (n : Z) : ascii :=
  nth (Z.to_nat n) (list_ascii_of_string "0123456789ABCDEF") "0"%char.

Definition fmt_08X (z : Z) : string :=
  string_of_list_ascii
    (map (fun k => hex_digit (Z.land (Z.shiftr (u32 z) (4 * k)) 15))
         [7; 6; 5; 4; 3; 2; 1; 0]).

(** [snprintf(buf, size, ...)] keeps at most [size - 1] characters. *)
Definition snprintf (size : nat) (s : string) : string :=
  String.substring 0 (size - 1) s.

(** The double-quote character of the JSON text. *)
Definition dq : string := String (ascii_of_nat 34) EmptyString.

(** A JSON member name followed by the colon. *)
Definition key (name : string) : string := dq +:+ name +:+ dq +:+ ":".

(** [(x & mask) ? 1 : 0] *)
Definition flag (x mask : Z) : Z := if Z.land x mask =? 0 then 0 else 1.

(** The format string of [send_telemetry] filled in. *)
Definition telemetry_payload (m : meter_data_t) : string :=
  snprintf 512
    ("{" +:+ key "flowRate" +:+ fmt_u (flow_rate m) +:+ ","
         +:+ key "forwardTotal" +:+ fmt_u (forward_total m) +:+ ","
         +:+ key "reverseTotal" +:+ fmt_u (reverse_total m) +:+ ","
         +:+ key "pressure" +:+ fmt_u (pressure m) +:+ ","
         +:+ key "temperature" +:+ fmt_u (temperature m) +:+ ","
         +:+ key "status" +:+ fmt_u (status m) +:+ ","
         +:+ key "leak" +:+ fmt_d (flag (status m) 0x0004) +:+ ","
         +:+ key "empty" +:+ fmt_d (flag (status m) 0x0004) +:+ ","
         +:+ key "lowBattery" +:+ fmt_d (flag (status m) 0x0020)
         +:+ "}").

(** The [switch] of [send_attributes]. *)
Definition baud_str (baud_code : Z) : string :=
  if baud_code =? 0 then "9600"
  else if baud_code =? 1 then "2400"
  else if baud_code =? 2 then "4800"
  else if baud_code =? 3 then "1200"
  else "unknown".

(** The format string of [send_attributes] filled in. *)
Definition attributes_payload (m : meter_data_t) : string :=
  snprintf 256
    ("{" +:+ key "firmwareVersion" +:+ dq +:+ "2.0.0" +:+ dq +:+ ","
         +:+ key "deviceModel" +:+ dq +:+ "BOVE-Modbus-Meter" +:+ dq +:+ ","
         +:+ key "serialNumber" +:+ dq +:+ fmt_08X (serial_number m) +:+ dq +:+ ","
         +:+ key "modbusId" +:+ fmt_u (modbus_id m) +:+ ","
         +:+ key "baudRate" +:+ dq +:+ baud_str (baud_code m) +:+ dq
         +:+ "}").

Section Publisher.
Context `{Platform}.

(** [mqtt_publish] with [pub.message_id = sys_rand32_get()]; the message
    id field is 16 bits wide. *)
Definition publish (topic payload : string) : prog Z :=
  '(r, _) ← call SysRand32;
  call_ret (MqttPublish topic payload (u16 r)).

(** [send_telemetry] *)
Definition send_telemetry : prog Z :=
  s ← get_state;
  if negb (mqtt_connected s) then
    log "MQTT not connected, skipping telemetry" [];;
    mret (- ENOTCONN)
  else
    s ← get_state;
    if negb (valid (meter_data s)) then
      log "Meter data invalid, skipping telemetry" [];;
      mret (- EINVAL)
    else
      let payload := telemetry_payload (meter_data s) in
      log "Telemetry: %s" [LS payload];;
      rc ← publish TELEMETRY_TOPIC payload;
      (if negb (rc =? 0)
       then log "MQTT publish failed: %d" [LZ rc]
       else log "Telemetry published successfully" []);;
      mret rc.

(** [send_attributes] *)
Definition send_attributes : prog Z :=
  s ← get_state;
  if negb (mqtt_connected s) then mret (- ENOTCONN)
  else
    s ← get_state;
    let payload := attributes_payload (meter_data s) in
    log "Attributes: %s" [LS payload];;
    publish ATTRIBUTES_TOPIC payload.

End Publisher.

(** ** Poll loop *)

(** The status summary printed by [main]. *)
Definition status_summary (status : Z) : string :=
  if status =? 0 then "(Normal)"
  else if negb (Z.land status 0x0004 =? 0) then "(Empty!)"
  else if negb (Z.land status 0x0020 =? 0) then "(Low Battery!)"
  else "".

Section PollLoop.
Context `{Platform}.

Definition max_wifi_retries : Z := 3.

(** The start-up loop of [main]:
    [while (wifi_retry_count < max_wifi_retries) { ret = wifi_connect(); ... }].
    [ret] is the value of the last assignment. *)
Fixpoint main_wifi_loop (fuel : nat) (wifi_retry_count ret : Z) : prog Z :=
  if wifi_retry_count <? max_wifi_retries then
    match fuel with
    | O => out_of_fuel
    | S fuel' =>
        ret ← wifi_connect;
        if ret =? 0 then mret ret
        else
          let wifi_retry_count := wifi_retry_count + 1 in
          (if wifi_retry_count <? max_wifi_retries then
             log "WiFi connection failed, waiting 10 seconds before retry %d/%d..."
                 [LZ (wifi_retry_count + 1); LZ max_wifi_retries];;
             k_msleep 10000
           else mret tt);;
          main_wifi_loop fuel' wifi_retry_count ret
    end
  else mret ret.

(** [main] up to the data loop: [Some r] when [main] returns [r], [None]
    when control reaches the loop. *)
Definition main_startup : prog (option Z) :=
  k_msleep 2000;;
  ready ← call_ret DeviceIsReady;
  if ready =? 0 then
    log "UART device not ready" [];;
    mret (Some (-1))
  else
    call UartConfigGet;;
    ret ← main_wifi_loop (Z.to_nat max_wifi_retries) 0 0;
    (if negb (ret =? 0) then
       log "Failed to connect to WiFi after %d attempts" [LZ max_wifi_retries];;
       log "Continuing without WiFi connection - Modbus only mode" []
     else
       k_msleep 1000;;
       ret ← broker_init;
       if negb (ret =? 0) then log "Broker initialization failed" []
       else
         k_msleep 1000;;
         ret ← thingsboard_connect;
         if negb (ret =? 0) then log "ThingsBoard connection failed" []
         else mret tt);;
    log "System operational - Starting data loop" [];;
    mret None.

(** The health check at the head of the loop body. *)
Definition reconnect_if_needed : prog unit :=
  s ← get_state;
  if Z.rem (loop_count s) 10 =? 0 then
    if negb (mqtt_connected s) then
      log "MQTT disconnected, attempting reconnection..." [];;
      ret ← wifi_connect;
      if ret =? 0 then
        k_msleep 1000;;
        ret ← broker_init;
        if ret =? 0 then
          k_msleep 1000;;
          thingsboard_connect;; mret tt
        else mret tt
      else mret tt
    else mret tt
  else mret tt.

(** One pass through the body of [while (1)] in [main]. *)
Definition main_iter (fuel : nat) (tx_stack rx_stack : list Z) : prog unit :=
  modify (fun s => set_loop_count (loop_count s + 1) s);;
  reconnect_if_needed;;
  log "Reading meter data..." [];;
  ret ← read_meter_data fuel tx_stack rx_stack;
  s ← get_state;
  (if (ret =? 0) && valid (meter_data s) then
     log "  Status      : 0x%04X %s"
         [LZ (status (meter_data s)); LS (status_summary (status (meter_data s)))];;
     s ← get_state;
     (if negb (attrs_sent s) && mqtt_connected s then
        send_attributes;;
        modify (set_attrs_sent true)
      else mret tt);;
     s ← get_state;
     if mqtt_connected s then
       rc ← send_telemetry;
       if negb (rc =? 0)
       then log "Telemetry transmission failed, will retry on next cycle" []
       else mret tt
     else log "MQTT not connected - data logged locally only" []
   else log "Failed to read meter data" []);;
  s ← get_state;
  (if mqtt_connected s then mqtt_maintenance else mret tt);;
  log "Waiting %d seconds..." [LZ MODBUS_READ_INTERVAL_SEC];;
  k_msleep (MODBUS_READ_INTERVAL_SEC * 1000).

(** What one pass needs from outside the program text. *)
Record iter_in := {
  it_fuel : nat;
  it_tx_stack : list Z;
  it_rx_stack : list Z
}.

(** Any number of passes through the data loop. *)
Fixpoint main_loop (its : list iter_in) : prog unit :=
  match its with
  | [] => mret tt
  | it :: its' =>
      main_iter (it_fuel it) (it_tx_stack it) (it_rx_stack it);;
      main_loop its'
  end.

(** [main], cut after the passes given. *)
Definition main (its : list iter_in) : prog (option Z) :=
  r ← main_startup;
  match r with
  | Some v => mret (Some v)
  | None => main_loop its;; mret None
  end.

End PollLoop.

(** ** Vocabulary of the properties *)

(** Outcome predicate of a run: [Q] on normal return, [E] at a fault of
    the model. *)
Definition wp {A} (env : oracle) (m : prog A)
    (Q : A -> world -> Prop) (E : err -> world -> Prop) (w : world) : Prop :=
  match m env w with
  | Ok a w' => Q a w'
  | Err e w' => E e w'
  end.

(** The run returns; nothing is said about where it stops otherwise. *)
Definition returns {A} (env : oracle) (m : prog A)
    (Q : A -> world -> Prop) (w : world) : Prop :=
  wp env m Q (fun _ _ => False) w.

(** The world right after an outside call. *)
Definition after (env : oracle) (a : action) (least : Z) (w : world) : world :=
  {| globals := deliver (x_evs (env (pos w) a)) (globals w);
     now := now w + least + x_dt (env (pos w) a);
     pos := S (pos w); trace := trace w ++ [a] |}.

(** Why the receive loop stopped, read off its locals and the clock. *)
Definition rx_exit_reason (now0 : Z) (l : rx_locals) (w : world) : Prop :=
  2000 <= now w - now0 \/
  rx_len l = MODBUS_RX_BUFFER \/
  (3 < rx_len l /\ 150 < u32 (u32 (now w) - last_byte l)).

(** What the code outside [main]'s attribute block does to the globals:
    callbacks fed by the oracle run, the semaphores and the socket field
    are written, the pass counter is bumped and, where [md] allows it,
    the meter reading is written. *)
Inductive touch (md : bool) (env : oracle) : state -> state -> Prop :=
| touch_handle n a e s :
    In e (x_evs (env n a)) -> touch md env s (handle e s)
| touch_sem x c s : touch md env s (set_sem_count x c s)
| touch_sock c s : touch md env s (set_mqtt_sock c s)
| touch_count c s : touch md env s (set_loop_count c s)
| touch_meter m s : md = true -> touch md env s (set_meter_data m s).

(** Footprint of a run: the globals moved by [touch] steps only, and
    every action added to the trace satisfies [P]. *)
Definition footprint (md : bool) (env : oracle) (P : action -> Prop)
    (w w' : world) : Prop :=
  rtc (touch md env) (globals w) (globals w') /\
  exists added, trace w' = trace w ++ added /\ Forall P added.

Definition is_publish (a : action) : bool :=
  match a with
  | MqttPublish _ _ _ => true
  | _ => false
  end.

Definition is_attr_publish (a : action) : bool :=
  match a with
  | MqttPublish topic _ _ => String.eqb topic ATTRIBUTES_TOPIC
  | _ => false
  end.

Definition is_uart (a : action) : bool :=
  match a with
  | UartConfigure _ | UartPollOut _ | UartPollIn | UartConfigGet => true
  | _ => false
  end.

Definition is_uart_out (a : action) : bool :=
  match a with
  | UartPollOut _ => true
  | _ => false
  end.

(** Actions of the connectivity code: neither a publish nor serial I/O. *)
Definition background (a : action) : Prop :=
  is_publish a = false /\ is_uart a = false.

(** Actions that neither publish nor write to the serial line. *)
Definition quiet (a : action) : Prop :=
  is_publish a = false /\ is_uart_out a = false.

(** The oracle never delivers a successful link result, resp. a
    successful session acknowledgment. *)
Definition link_up (e : event) : bool :=
  match e with
  | WifiEvt (NET_EVENT_WIFI_CONNECT_RESULT status) => status =? 0
  | _ => false
  end.

Definition session_ack (e : event) : bool :=
  match e with
  | MqttEvt (MQTT_EVT_CONNACK result) => result =? 0
  | _ => false
  end.

Definition never (p : event -> bool) (env : oracle) : Prop :=
  forall n a e, In e (x_evs (env n a)) -> p e = false.

(** Every outside call takes between 0 and [D] ms on top of the time it
    is bound to take. *)
Definition timely (D : Z) (env : oracle) : Prop :=
  forall n a, 0 <= x_dt (env n a) <= D.

(** *** Response validation, as a function of the received bytes *)

Inductive verdict :=
| Incomplete
| CrcError
| InvalidHeader
| Accepted.

(** The trailing two bytes of a frame read low byte first. *)
Definition trailer (frame : list Z) : Z :=
  let n := length frame in
  (frame !!! (n - 2)%nat) + 256 * (frame !!! (n - 1)%nat).

(** The checks in the order the code makes them, each reached only when
    the ones before it passed. *)
Definition validate (frame : list Z) : verdict :=
  if Z.of_nat (length frame) <? 70 then Incomplete
  else if negb (trailer frame =? crc16 (take (length frame - 2) frame))
  then CrcError
  else if negb (frame !!! 0%nat =? MODBUS_SLAVE_ID)
          || negb (frame !!! 1%nat =? 0x03)
  then InvalidHeader
  else Accepted.

(** The log line of each rejection. *)
Definition verdict_log (v : verdict) (frame : list Z) : list action :=
  match v with
  | Incomplete =>
      [Log "Incomplete response (%d bytes)" [LZ (Z.of_nat (length frame))]]
  | CrcError =>
      [Log "CRC error (recv: 0x%04X, calc: 0x%04X)"
           [LZ (trailer frame); LZ (crc16 (take (length frame - 2) frame))]]
  | InvalidHeader => [Log "Invalid response header" []]
  | Accepted => [Log "Meter data read successfully" []]
  end.

(** *** Register decoding, as a function of the buffer *)

(** A 16-bit register: two bytes, high byte first. *)
Definition be16 (d : list Z) (i : nat) : Z :=
  256 * (d !!! i) + d !!! (i + 1)%nat.

(** A register pair whose first register holds the low 16 bits. *)
Definition pair_low_first (d : list Z) (i : nat) : Z :=
  65536 * be16 d (i + 2) + be16 d i.

(** A register pair whose first register holds the high 16 bits. *)
Definition pair_high_first (d : list Z) (i : nat) : Z :=
  65536 * be16 d i + be16 d (i + 2).

(** The reading decoded from the payload [d] (the buffer from byte 3). *)
Definition decode (d : list Z) : meter_data_t :=
  {| flow_rate := pair_low_first d 0;
     forward_total := pair_low_first d 12;
     reverse_total := pair_low_first d 18;
     pressure := be16 d 36;
     temperature := be16 d 58;
     status := be16 d 38;
     serial_number := pair_high_first d 64;
     modbus_id := d !!! 69%nat;
     baud_code := be16 d 72;
     valid := true |}.

(** *** Message contents *)

Inductive jval := JInt (z : Z) | JStr (s : string).

(** A value written in front of the text [tail]. *)
Definition json_value (v : jval) (tail : string) : string :=
  match v with
  | JInt z => fmt_u z +:+ tail
  | JStr s => dq +:+ s +:+ dq +:+ tail
  end.

(** The members, comma separated, written in front of [tail]. *)
Fixpoint json_members (fields : list (string * jval)) (tail : string) : string :=
  match fields with
  | [] => tail
  | [(k, v)] => key k +:+ json_value v tail
  | (k, v) :: rest =>
      key k +:+ json_value v ("," +:+ json_members rest tail)
  end.

(** A flat JSON object with the members in the order given. *)
Definition json_object (fields : list (string * jval)) : string :=
  "{" +:+ json_members fields "}".

Definition bit (x : Z) (n : Z) : Z := if Z.testbit x n then 1 else 0.

Definition telemetry_fields (m : meter_data_t) : list (string * jval) :=
  [("flowRate", JInt (flow_rate m));
   ("forwardTotal", JInt (forward_total m));
   ("reverseTotal", JInt (reverse_total m));
   ("pressure", JInt (pressure m));
   ("temperature", JInt (temperature m));
   ("status", JInt (status m));
   ("leak", JInt (bit (status m) 2));
   ("empty", JInt (bit (status m) 2));
   ("lowBattery", JInt (bit (status m) 5))].

Definition baud_name (code : Z) : string :=
  match code with
  | 0 => "9600"
  | 1 => "2400"
  | 2 => "4800"
  | 3 => "1200"
  | _ => "unknown"
  end.

Definition attributes_fields (m : meter_data_t) : list (string * jval) :=
  [("firmwareVersion", JStr "2.0.0");
   ("deviceModel", JStr "BOVE-Modbus-Meter");
   ("serialNumber", JStr (fmt_08X (serial_number m)));
   ("modbusId", JInt (modbus_id m));
   ("baudRate", JStr (baud_name (baud_code m)))].

(** The log line, if any, that a run ends with. *)
Definition last_log {A} (r : result A) : option string :=
  match r with
  | Ok _ w | Err _ w =>
      match last (trace w) with
      | Some (Log fmt _) => Some fmt
      | _ => None
      end
  end.

(** ** Sample surroundings and frames *)

Definition no_answer : ext :=
  {| x_ret := 0; x_out := 0; x_evs := []; x_dt := 0 |}.

(** Nothing ever answers: the device is ready and the interface exists,
    but no byte arrives on the serial line, no link result and no session
    acknowledgment are delivered. *)
Definition env_silent : oracle := fun _ a =>
  match a with
  | UartPollIn => {| x_ret := -1; x_out := 0; x_evs := []; x_dt := 0 |}
  | DeviceIsReady => {| x_ret := 1; x_out := 0; x_evs := []; x_dt := 0 |}
  | NetIfGetFirstWifi => {| x_ret := 0; x_out := 1; x_evs := []; x_dt := 0 |}
  | _ => no_answer
  end.

Definition world_init : world :=
  {| globals := state_init; now := 0; pos := 0; trace := [] |}.

(** Some positive error numbers. *)
Definition sample_platform : Platform :=
  {| ENODEV := 19; ETIMEDOUT := 116; EINVAL := 22; ECONNREFUSED := 111;
     ENOTCONN := 128; EAGAIN := 11; ZSOCK_POLLIN := 1;
     errno_positive :=
       conj eq_refl (conj eq_refl (conj eq_refl
         (conj eq_refl (conj eq_refl eq_refl)))) |}.

(** A full reply of 81 bytes with a good CRC whose first register pair
    is the words 0x0001, 0x0000, in a 256-byte buffer. *)
Definition reply_low_word_one : list Z :=
  [1; 3; 76] ++ [0; 1; 0; 0] ++ repeat 0 72 ++ [150; 13] ++ repeat 0 175.

(** A reading as a successful poll may have left it. *)
Definition sample_reading : meter_data_t :=
  {| flow_rate := 1250; forward_total := 1234567; reverse_total := 89;
     pressure := 160; temperature := 2150; status := 0;
     serial_number := 0x12345678; modbus_id := 1; baud_code := 1;
     valid := true |}.

Definition world_with (m : meter_data_t) (connected : bool) : world :=
  {| globals := set_mqtt_connected connected (set_meter_data m state_init);
     now := 0; pos := 0; trace := [] |}.

(** * Properties *)

(** ** Machine integers and buffers *)

Section BufferFacts.

Lemma lxor_bound (k a b : Z) :
  0 <= k -> 0 <= a < 2 ^ k -> 0 <= b < 2 ^ k -> 0 <= Z.lxor a b < 2 ^ k.
Proof.
  intros Hk [Ha0 Ha] [Hb0 Hb].
  assert (H0 : 0 <= Z.lxor a b) by (apply Z.lxor_nonneg; tauto).
  split; [exact H0|].
  apply (Z.bounded_iff_bits_nonneg k); [lia..|].
  intros l Hl. rewrite Z.lxor_spec.
  rewrite (proj1 (Z.bounded_iff_bits_nonneg k a Hk Ha0) Ha l Hl).
  rewrite (proj1 (Z.bounded_iff_bits_nonneg k b Hk Hb0) Hb l Hl).
  reflexivity.
Qed.

Lemma lor_bound (k a b : Z) :
  0 <= k -> 0 <= a < 2 ^ k -> 0 <= b < 2 ^ k -> 0 <= Z.lor a b < 2 ^ k.
Proof.
  intros Hk [Ha0 Ha] [Hb0 Hb].
  assert (H0 : 0 <= Z.lor a b) by (apply Z.lor_nonneg; tauto).
  split; [exact H0|].
  apply (Z.bounded_iff_bits_nonneg k); [lia..|].
  intros l Hl. rewrite Z.lor_spec.
  rewrite (proj1 (Z.bounded_iff_bits_nonneg k a Hk Ha0) Ha l Hl).
  rewrite (proj1 (Z.bounded_iff_bits_nonneg k b Hk Hb0) Hb l Hl).
  reflexivity.
Qed.

Lemma u8_id (z : Z) : is_u8 z -> u8 z = z.
Proof. unfold is_u8, u8. intros. apply Z.mod_small. lia. Qed.

Lemma u16_id (z : Z) : is_u16 z -> u16 z = z.
Proof. unfold is_u16, u16. intros. apply Z.mod_small. lia. Qed.

Lemma u32_id (z : Z) : is_u32 z -> u32 z = z.
Proof. unfold is_u32, u32. intros. apply Z.mod_small. lia. Qed.

Lemma u8_range (z : Z) : is_u8 (u8 z).
Proof. unfold is_u8, u8. apply Z.mod_pos_bound. lia. Qed.

Lemma u16_range (z : Z) : is_u16 (u16 z).
Proof. unfold is_u16, u16. apply Z.mod_pos_bound. lia. Qed.

Lemma u32_range (z : Z) : is_u32 (u32 z).
Proof. unfold is_u32, u32. apply Z.mod_pos_bound. lia. Qed.

Lemma land_255 (z : Z) : Z.land z 0xFF = z mod 256.
Proof. change 0xFF with (Z.ones 8). rewrite Z.land_ones by lia. reflexivity. Qed.

Lemma load_lookup (buf : list Z) (i : nat) :
  load buf (Z.of_nat i) = buf !! i.
Proof.
  unfold load. destruct (decide (0 <= Z.of_nat i)); [|lia].
  rewrite Nat2Z.id. reflexivity.
Qed.

Lemma load_in_range (buf : list Z) (i : Z) :
  0 <= i < Z.of_nat (length buf) -> exists b, load buf i = Some b.
Proof.
  intros Hi. unfold load. destruct (decide (0 <= i)); [|lia].
  destruct (lookup_lt_is_Some_2 buf (Z.to_nat i)) as [b Hb]; [lia|].
  exists b. exact Hb.
Qed.

Lemma store_in_range (buf : list Z) (i v : Z) :
  0 <= i < Z.of_nat (length buf) ->
  store buf i v = Some (<[Z.to_nat i := u8 v]> buf).
Proof. intros Hi. unfold store. destruct (decide _); [reflexivity|lia]. Qed.

Lemma store_length (buf buf' : list Z) (i v : Z) :
  store buf i v = Some buf' -> length buf' = length buf.
Proof.
  unfold store. destruct (decide _); [|discriminate].
  intros [= <-]. apply length_insert.
Qed.

Lemma store_Some_range (buf buf' : list Z) (i v : Z) :
  store buf i v = Some buf' -> 0 <= i < Z.of_nat (length buf).
Proof. unfold store. destruct (decide _); [tauto|discriminate]. Qed.

End BufferFacts.

(** ** Frame codec *)

Section Crc.

Lemma crc_shift_range (crc : Z) : is_u16 (crc_shift crc).
Proof. apply u16_range. Qed.

Lemma shiftr1_u16 (crc : Z) : is_u16 crc -> 0 <= Z.shiftr crc 1 < 2 ^ 16.
Proof.
  unfold is_u16. intros Hc. rewrite Z.shiftr_div_pow2 by lia.
  change (2 ^ 1) with 2. change (2 ^ 16) with 65536.
  split; [apply Z.div_pos; lia|].
  apply Z.div_lt_upper_bound; lia.
Qed.

Lemma land1_testbit (crc : Z) :
  (Z.land crc 1 =? 0) = negb (Z.testbit crc 0).
Proof.
  change 1 with (Z.ones 1) at 1. rewrite Z.land_ones by lia.
  change (2 ^ 1) with 2. rewrite <- Z.bit0_mod.
  destruct (Z.testbit crc 0); reflexivity.
Qed.

(** On a 16-bit register the truncation of the loop body is idle, and
    the body is the bit iteration of the specification at input bit 0. *)
Lemma crc_shift_spec (crc : Z) :
  is_u16 crc -> crc_shift crc = crc16_spec_bit crc false.
Proof.
  intros Hc. unfold crc_shift, crc16_spec_bit.
  rewrite land1_testbit, xorb_false_r.
  pose proof (shiftr1_u16 crc Hc) as Hs.
  destruct (Z.testbit crc 0); simpl.
  - apply u16_id. unfold is_u16. change 65536 with (2 ^ 16).
    apply lxor_bound; [lia|exact Hs|lia].
  - apply u16_id. unfold is_u16. change 65536 with (2 ^ 16). exact Hs.
Qed.

Lemma crc16_spec_bit_lxor (crc b k : Z) :
  0 <= k ->
  crc16_spec_bit (Z.lxor crc (Z.shiftr b k)) false =
  Z.lxor (crc16_spec_bit crc (Z.testbit b k)) (Z.shiftr b (k + 1)).
Proof.
  intros Hk. unfold crc16_spec_bit.
  rewrite xorb_false_r, Z.lxor_spec, Z.shiftr_spec by lia.
  replace (0 + k) with k by lia.
  rewrite Z.shiftr_lxor, Z.shiftr_shiftr by lia.
  destruct (xorb (Z.testbit crc 0) (Z.testbit b k)); [|reflexivity].
  rewrite !Z.lxor_assoc. f_equal. apply Z.lxor_comm.
Qed.

Lemma crc_iter_spec (n : nat) (k : nat) (crc b : Z) :
  Nat.iter n (fun c => crc16_spec_bit c false)
           (Z.lxor crc (Z.shiftr b (Z.of_nat k))) =
  Z.lxor (fold_left crc16_spec_bit
            (map (fun j => Z.testbit b (Z.of_nat j)) (seq k n)) crc)
         (Z.shiftr b (Z.of_nat (k + n))).
Proof.
  revert k crc. induction n as [|n IH]; intros k crc.
  - simpl. rewrite Nat.add_0_r. reflexivity.
  - rewrite Nat.iter_succ_r, crc16_spec_bit_lxor by lia.
    replace (Z.of_nat k + 1) with (Z.of_nat (S k)) by lia.
    rewrite IH. simpl. f_equal. f_equal. lia.
Qed.

Lemma crc_iter_shift (n : nat) (x : Z) :
  is_u16 x ->
  Nat.iter n crc_shift x = Nat.iter n (fun c => crc16_spec_bit c false) x
  /\ is_u16 (Nat.iter n crc_shift x).
Proof.
  intros Hx. induction n as [|n [IH1 IH2]]; [split; [reflexivity|exact Hx]|].
  simpl. split; [|apply crc_shift_range].
  rewrite <- IH1. apply crc_shift_spec. exact IH2.
Qed.

Lemma crc_byte_range (crc b : Z) : is_u16 crc -> is_u8 b -> is_u16 (crc_byte crc b).
Proof. intros. unfold crc_byte. apply crc_iter_shift, u16_range. Qed.

Lemma crc_byte_spec (crc b : Z) :
  is_u16 crc -> is_u8 b ->
  crc_byte crc b = fold_left crc16_spec_bit (byte_bits b) crc.
Proof.
  intros Hc Hb. unfold crc_byte, byte_bits.
  assert (Hx : is_u16 (Z.lxor crc b)).
  { unfold is_u16, is_u8 in *. change 65536 with (2 ^ 16).
    apply lxor_bound; lia. }
  rewrite (u16_id _ Hx).
  rewrite (proj1 (crc_iter_shift 8 _ Hx)).
  pose proof (crc_iter_spec 8 0 crc b) as E.
  change (Z.shiftr b (Z.of_nat 0)) with (Z.shiftr b 0) in E.
  rewrite Z.shiftr_0_r in E. rewrite E.
  replace (Z.shiftr b (Z.of_nat (0 + 8))) with 0; [apply Z.lxor_0_r|].
  symmetry. change (Z.of_nat (0 + 8)) with 8.
  rewrite Z.shiftr_div_pow2 by lia. apply Z.div_small.
  unfold is_u8 in Hb. change (2 ^ 8) with 256. lia.
Qed.

Lemma crc_fold_spec (bytes : list Z) (crc : Z) :
  is_u16 crc -> Forall is_u8 bytes ->
  fold_left crc_byte bytes crc =
  fold_left crc16_spec_bit (concat (map byte_bits bytes)) crc
  /\ is_u16 (fold_left crc_byte bytes crc).
Proof.
  intros Hc Hb. revert crc Hc.
  induction Hb as [|b bytes Hb _ IH]; intros crc Hc; [split; [reflexivity|exact Hc]|].
  change (concat (map byte_bits (b :: bytes)))
    with (byte_bits b ++ concat (map byte_bits bytes)).
  change (fold_left crc_byte (b :: bytes) crc)
    with (fold_left crc_byte bytes (crc_byte crc b)).
  rewrite fold_left_app, <- crc_byte_spec by assumption.
  apply IH, crc_byte_range; assumption.
Qed.

Lemma crc16_range (bytes : list Z) : Forall is_u8 bytes -> is_u16 (crc16 bytes).
Proof. intros Hb. apply crc_fold_spec; [unfold is_u16; lia|exact Hb]. Qed.

Lemma crc16_refines_spec (bytes : list Z) :
  Forall is_u8 bytes -> crc16 bytes = crc16_spec bytes.
Proof. intros Hb. apply crc_fold_spec; [unfold is_u16; lia|exact Hb]. Qed.

Lemma crc_loop_fold (data : list Z) (n i : nat) (crc : Z) :
  (i + n <= length data)%nat ->
  crc_loop data (Z.of_nat i) n crc =
  Some (fold_left crc_byte (take n (drop i data)) crc).
Proof.
  revert i crc. induction n as [|n IH]; intros i crc Hn; [reflexivity|].
  simpl crc_loop. rewrite load_lookup.
  destruct (lookup_lt_is_Some_2 data i) as [b Hb]; [lia|].
  rewrite Hb. simpl.
  replace (Z.of_nat i + 1) with (Z.of_nat (S i)) by lia.
  rewrite IH by lia.
  rewrite (drop_S data b i Hb). reflexivity.
Qed.

Lemma modbus_crc16_fold (data : list Z) (len : Z) :
  0 <= len <= Z.of_nat (length data) ->
  modbus_crc16 data len = Some (crc16 (take (Z.to_nat len) data)).
Proof.
  intros Hl. unfold modbus_crc16, crc16.
  apply (crc_loop_fold data (Z.to_nat len) 0). lia.
Qed.

End Crc.
Lemma opt_bind_some {A B} (x : A) (f : A -> option B) : Some x ≫= f = f x.
Proof. reflexivity. Qed.

(** Stores into an eight-byte array, slot by slot. *)
Lemma store8 (a0 a1 a2 a3 a4 a5 a6 a7 v : Z) :
  let buf := [a0; a1; a2; a3; a4; a5; a6; a7] in
  store buf 0 v = Some [u8 v; a1; a2; a3; a4; a5; a6; a7] /\
  store buf 1 v = Some [a0; u8 v; a2; a3; a4; a5; a6; a7] /\
  store buf 2 v = Some [a0; a1; u8 v; a3; a4; a5; a6; a7] /\
  store buf 3 v = Some [a0; a1; a2; u8 v; a4; a5; a6; a7] /\
  store buf 4 v = Some [a0; a1; a2; a3; u8 v; a5; a6; a7] /\
  store buf 5 v = Some [a0; a1; a2; a3; a4; u8 v; a6; a7] /\
  store buf 6 v = Some [a0; a1; a2; a3; a4; a5; u8 v; a7] /\
  store buf 7 v = Some [a0; a1; a2; a3; a4; a5; a6; u8 v].
Proof. repeat split; reflexivity. Qed.

(** The request frame, whatever the buffer held before. *)
Lemma build_read_cmd_run (tx_stack : list Z) (id : Z) :
  length tx_stack = 8%nat -> is_u8 id ->
  build_read_cmd tx_stack id =
    Some [id; 0x03; 0x00; 0x01; 0x00; 0x26;
          crc16 [id; 0x03; 0x00; 0x01; 0x00; 0x26] mod 256;
          crc16 [id; 0x03; 0x00; 0x01; 0x00; 0x26] / 256].
Proof.
  intros Hlen Hid.
  assert (Hhdr : Forall is_u8 [id; 0x03; 0x00; 0x01; 0x00; 0x26]).
  { repeat constructor; unfold is_u8 in *; lia. }
  pose proof (crc16_range _ Hhdr) as Hr.
  remember (crc16 [id; 3; 0; 1; 0; 38]) as crc eqn:Ecrc.
  do 9 (destruct tx_stack as [|? tx_stack]; try discriminate). clear Hlen.
  unfold build_read_cmd.
  rewrite (proj1 (store8 _ _ _ _ _ _ _ _ _)), opt_bind_some.
  rewrite (proj1 (proj2 (store8 _ _ _ _ _ _ _ _ _))), opt_bind_some.
  rewrite (proj1 (proj2 (proj2 (store8 _ _ _ _ _ _ _ _ _)))), opt_bind_some.
  rewrite (proj1 (proj2 (proj2 (proj2 (store8 _ _ _ _ _ _ _ _ _))))), opt_bind_some.
  rewrite (proj1 (proj2 (proj2 (proj2 (proj2 (store8 _ _ _ _ _ _ _ _ _)))))),
    opt_bind_some.
  rewrite (proj1 (proj2 (proj2 (proj2 (proj2 (proj2 (store8 _ _ _ _ _ _ _ _ _))))))),
    opt_bind_some.
  rewrite (u8_id id Hid).
  change (u8 3) with 3. change (u8 0) with 0. change (u8 1) with 1.
  change (u8 38) with 38.
  rewrite modbus_crc16_fold by (cbn [length]; lia).
  change (take (Z.to_nat 6) [id; 3; 0; 1; 0; 38; z5; z6]) with [id; 3; 0; 1; 0; 38].
  rewrite <- Ecrc, opt_bind_some. clear Ecrc.
  rewrite (proj1 (proj2 (proj2 (proj2 (proj2 (proj2 (proj2
             (store8 _ _ _ _ _ _ _ _ _)))))))), opt_bind_some.
  rewrite (proj2 (proj2 (proj2 (proj2 (proj2 (proj2 (proj2
             (store8 _ _ _ _ _ _ _ _ _)))))))).
  rewrite !land_255. unfold u8. rewrite !Z.mod_mod by lia.
  rewrite Z.shiftr_div_pow2 by lia. change (2 ^ 8) with 256.
  rewrite (Z.mod_small (crc / 256)); [reflexivity|].
  unfold is_u16 in Hr. split; [apply Z.div_pos; lia|].
  apply Z.div_lt_upper_bound; lia.
Qed.

(** The frame [read_meter_data] sends to device 1. *)
Lemma request_frame (tx_stack : list Z) :
  length tx_stack = 8%nat ->
  build_read_cmd tx_stack MODBUS_SLAVE_ID = Some [1; 3; 0; 1; 0; 38; 0x95; 0xD0].
Proof.
  intros Hlen. rewrite build_read_cmd_run; [|exact Hlen|].
  - vm_compute. reflexivity.
  - unfold is_u8, MODBUS_SLAVE_ID. lia.
Qed.

(** ** Register decoder and response validation *)

Section Decoder.

Lemma lor_shiftl_add (k hi lo : Z) :
  0 <= k -> 0 <= hi -> 0 <= lo < 2 ^ k ->
  Z.lor (Z.shiftl hi k) lo = 2 ^ k * hi + lo.
Proof.
  intros Hk Hhi Hlo.
  assert (Hd : Z.land (Z.shiftl hi k) lo = 0).
  { apply Z.bits_inj'. intros n Hn. rewrite Z.land_spec, Z.bits_0.
    destruct (Z.lt_ge_cases n k) as [Hlt|Hge].
    - rewrite Z.shiftl_spec_low by lia. reflexivity.
    - rewrite (proj1 (Z.bounded_iff_bits_nonneg k lo Hk (proj1 Hlo)) (proj2 Hlo) n Hge).
      apply andb_false_r. }
  rewrite <- Z.lxor_lor by exact Hd.
  rewrite <- Z.add_nocarry_lxor by exact Hd.
  rewrite Z.shiftl_mul_pow2 by lia. lia.
Qed.

Lemma lookup_total_of_load (d : list Z) (i : nat) (b : Z) :
  load d (Z.of_nat i) = Some b -> d !!! i = b.
Proof. rewrite load_lookup. apply list_lookup_total_correct. Qed.

Lemma load_total (d : list Z) (i : nat) :
  (i < length d)%nat -> load d (Z.of_nat i) = Some (d !!! i).
Proof.
  intros Hi. rewrite load_lookup.
  destruct (lookup_lt_is_Some_2 d i Hi) as [b Hb].
  rewrite Hb. f_equal. symmetry. apply list_lookup_total_correct, Hb.
Qed.

Lemma total_is_u8 (d : list Z) (i : nat) :
  Forall is_u8 d -> (i < length d)%nat -> is_u8 (d !!! i).
Proof.
  intros Hd Hi. destruct (lookup_lt_is_Some_2 d i Hi) as [b Hb].
  rewrite (list_lookup_total_correct _ _ _ Hb).
  exact (proj1 (Forall_lookup _ _) Hd i b Hb).
Qed.

Lemma be16_range (d : list Z) (i : nat) :
  Forall is_u8 d -> (i + 1 < length d)%nat -> is_u16 (be16 d i).
Proof.
  intros Hd Hi. unfold be16, is_u16.
  pose proof (total_is_u8 d i Hd ltac:(lia)) as H0.
  pose proof (total_is_u8 d (i + 1) Hd Hi) as H1.
  unfold is_u8 in *. lia.
Qed.

Lemma word_of_bytes (b0 b1 : Z) :
  is_u8 b0 -> is_u8 b1 -> Z.lor (Z.shiftl b0 8) b1 = 256 * b0 + b1.
Proof.
  unfold is_u8. intros H0 H1.
  rewrite (lor_shiftl_add 8) by lia. reflexivity.
Qed.

Lemma read_u16_spec (d : list Z) (i : nat) :
  Forall is_u8 d -> (i + 1 < length d)%nat ->
  read_u16 d (Z.of_nat i) = Some (be16 d i).
Proof.
  intros Hd Hi. unfold read_u16.
  replace (Z.of_nat i + 1) with (Z.of_nat (i + 1)) by lia.
  rewrite !load_total by lia. cbn [mbind option_bind].
  pose proof (total_is_u8 d i Hd ltac:(lia)) as H0.
  pose proof (total_is_u8 d (i + 1) Hd Hi) as H1.
  rewrite word_of_bytes by assumption.
  f_equal. apply u16_id. apply be16_range; assumption.
Qed.

Lemma read_u32_spec (d : list Z) (i : nat) :
  Forall is_u8 d -> (i + 3 < length d)%nat ->
  read_u32 d (Z.of_nat i) = Some (pair_low_first d i).
Proof.
  intros Hd Hi. unfold read_u32.
  replace (Z.of_nat i + 1) with (Z.of_nat (i + 1)) by lia.
  replace (Z.of_nat i + 2) with (Z.of_nat (i + 2)) by lia.
  replace (Z.of_nat i + 3) with (Z.of_nat (i + 3)) by lia.
  rewrite !load_total by lia. cbn [mbind option_bind].
  pose proof (total_is_u8 d i Hd ltac:(lia)) as H0.
  pose proof (total_is_u8 d (i + 1) Hd ltac:(lia)) as H1.
  pose proof (total_is_u8 d (i + 2) Hd ltac:(lia)) as H2.
  pose proof (total_is_u8 d (i + 3) Hd ltac:(lia)) as H3.
  rewrite !word_of_bytes by assumption.
  pose proof (be16_range d i Hd ltac:(lia)) as Hlo.
  pose proof (be16_range d (i + 2) Hd ltac:(lia)) as Hhi.
  unfold be16 in Hlo, Hhi.
  replace (i + 2 + 1)%nat with (i + 3)%nat in Hhi by lia.
  unfold is_u16 in Hlo, Hhi. unfold is_u8 in H0, H1, H2, H3.
  rewrite !(u32_id (256 * _ + _)) by (unfold is_u32; lia).
  rewrite (lor_shiftl_add 16) by lia.
  f_equal. rewrite u32_id by (unfold is_u32; lia).
  unfold pair_low_first, be16.
  replace (i + 2 + 1)%nat with (i + 3)%nat by lia. reflexivity.
Qed.

Lemma lor_add (k hi lo x : Z) :
  0 <= k -> 0 <= hi -> 0 <= lo < 2 ^ k -> x = 2 ^ k * hi ->
  Z.lor x lo = x + lo.
Proof.
  intros Hk Hhi Hlo ->. rewrite <- (lor_shiftl_add k hi lo) by assumption.
  rewrite Z.shiftl_mul_pow2 by lia. f_equal. lia.
Qed.

Lemma read_be32_spec (d : list Z) (i : nat) :
  Forall is_u8 d -> (i + 3 < length d)%nat ->
  read_be32 d (Z.of_nat i) = Some (pair_high_first d i).
Proof.
  intros Hd Hi. unfold read_be32.
  replace (Z.of_nat i + 1) with (Z.of_nat (i + 1)) by lia.
  replace (Z.of_nat i + 2) with (Z.of_nat (i + 2)) by lia.
  replace (Z.of_nat i + 3) with (Z.of_nat (i + 3)) by lia.
  rewrite !load_total by lia. cbn [mbind option_bind].
  pose proof (total_is_u8 d i Hd ltac:(lia)) as H0.
  pose proof (total_is_u8 d (i + 1) Hd ltac:(lia)) as H1.
  pose proof (total_is_u8 d (i + 2) Hd ltac:(lia)) as H2.
  pose proof (total_is_u8 d (i + 3) Hd ltac:(lia)) as H3.
  unfold pair_high_first, be16.
  replace (i + 2 + 1)%nat with (i + 3)%nat by lia.
  generalize dependent (d !!! i). generalize dependent (d !!! (i + 1)%nat).
  generalize dependent (d !!! (i + 2)%nat). generalize dependent (d !!! (i + 3)%nat).
  unfold is_u8. intros b3 H3 b2 H2 b1 H1 b0 H0.
  rewrite !Z.shiftl_mul_pow2 by lia.
  change (2 ^ 24) with 16777216. change (2 ^ 16) with 65536.
  change (2 ^ 8) with 256.
  rewrite (u32_id (b0 * 16777216)) by (unfold is_u32; lia).
  rewrite (u32_id (b1 * 65536)) by (unfold is_u32; lia).
  rewrite (u32_id (b2 * 256)) by (unfold is_u32; lia).
  rewrite (lor_add 24 b0 (b1 * 65536)) by lia.
  rewrite (lor_add 16 (256 * b0 + b1) (b2 * 256)) by lia.
  rewrite (lor_add 8 (65536 * b0 + 256 * b1 + b2) b3) by lia.
  rewrite u32_id by (unfold is_u32; lia).
  f_equal. lia.
Qed.

End Decoder.

(** ** Running programs *)

Section Run.
Context (env : oracle).

Lemma run_bind {A B} (m : prog A) (k : A -> prog B) (w : world) :
  (m ≫= k) env w =
  match m env w with
  | Ok a w' => k a env w'
  | Err e w' => Err e w'
  end.
Proof. reflexivity. Qed.

Lemma run_ret {A} (a : A) (w : world) : (mret a : prog A) env w = Ok a w.
Proof. reflexivity. Qed.

Lemma run_mem_some {A} (a : A) (w : world) : mem (Some a) env w = Ok a w.
Proof. reflexivity. Qed.

Lemma run_bind_mem {A B} (a : A) (k : A -> prog B) (w : world) :
  (mem (Some a) ≫= k) env w = k a env w.
Proof. reflexivity. Qed.

Lemma run_bind_ret {A B} (a : A) (k : A -> prog B) (w : world) :
  (mret a ≫= k) env w = k a env w.
Proof. reflexivity. Qed.

Lemma run_bind_assoc {A B C} (m : prog A) (f : A -> prog B) (g : B -> prog C)
    (w : world) :
  ((m ≫= f) ≫= g) env w = (m ≫= fun a => f a ≫= g) env w.
Proof. unfold mbind, prog_bind. destruct (m env w); reflexivity. Qed.

Lemma wp_bind {A B} (m : prog A) (k : A -> prog B) Q E (w : world) :
  wp env m (fun a w1 => wp env (k a) Q E w1) E w ->
  wp env (m ≫= k) Q E w.
Proof.
  unfold wp. rewrite run_bind. destruct (m env w); auto.
Qed.

Lemma wp_mono {A} (m : prog A) (Q Q' : A -> world -> Prop)
    (E E' : err -> world -> Prop) (w : world) :
  wp env m Q E w ->
  (forall a w', Q a w' -> Q' a w') ->
  (forall e w', E e w' -> E' e w') ->
  wp env m Q' E' w.
Proof. unfold wp. destruct (m env w); auto. Qed.

Lemma wp_conj {A} (m : prog A) (Q Q' : A -> world -> Prop)
    (E E' : err -> world -> Prop) (w : world) :
  wp env m Q E w -> wp env m Q' E' w ->
  wp env m (fun a w' => Q a w' /\ Q' a w') (fun e w' => E e w' /\ E' e w') w.
Proof. unfold wp. destruct (m env w); auto. Qed.

Lemma wp_ret {A} (a : A) (Q : A -> world -> Prop) E (w : world) :
  Q a w -> wp env (mret a) Q E w.
Proof. auto. Qed.

Lemma returns_eq {A} (m : prog A) (Q : A -> world -> Prop) (w : world) :
  returns env m Q w <-> exists a w', m env w = Ok a w' /\ Q a w'.
Proof.
  unfold returns, wp. destruct (m env w) as [a w'|e w'].
  - split; [eauto|]. intros (a' & w'' & [= <- <-] & HQ). exact HQ.
  - split; [tauto|]. intros (a' & w'' & [=] & _).
Qed.

End Run.

(** ** Response validation *)

Section Validation.
Context (env : oracle).

Lemma frame_length (rx_buf : list Z) (rx_len : Z) :
  0 <= rx_len <= Z.of_nat (length rx_buf) ->
  Z.of_nat (length (take (Z.to_nat rx_len) rx_buf)) = rx_len.
Proof. intros Hl. rewrite length_take. lia. Qed.

Lemma frame_total (rx_buf : list Z) (n i : nat) :
  (i < n)%nat -> take n rx_buf !!! i = rx_buf !!! i.
Proof.
  intros Hi. rewrite !list_lookup_total_alt, lookup_take_lt by lia. reflexivity.
Qed.

(** What [parse_response] does, in one equation: the verdict on the
    received bytes decides the return value, the log line and the new
    reading. *)
Lemma parse_response_run (rx_buf : list Z) (rx_len : Z) (w : world) :
  Forall is_u8 rx_buf ->
  Z.of_nat (length rx_buf) = MODBUS_RX_BUFFER ->
  0 <= rx_len <= MODBUS_RX_BUFFER ->
  let frame := take (Z.to_nat rx_len) rx_buf in
  parse_response rx_buf rx_len env w =
  Ok (match validate frame with Accepted => 0 | _ => -1 end)
     {| globals :=
          set_meter_data
            (match validate frame with
             | Accepted => decode (drop 3 rx_buf)
             | _ => set_valid false (meter_data (globals w))
             end) (globals w);
        now := now w; pos := pos w;
        trace := trace w ++ verdict_log (validate frame) frame |}.
Proof.
  intros Hu8 H256 Hlen frame. unfold MODBUS_RX_BUFFER in *.
  pose proof (frame_length rx_buf rx_len ltac:(lia)) as Hfl. fold frame in Hfl.
  unfold parse_response, validate. rewrite Hfl.
  destruct (rx_len <? 70) eqn:Hshort.
  { cbn [verdict_log]. rewrite Hfl. reflexivity. }
  apply Z.ltb_ge in Hshort.
  set (n := Z.to_nat rx_len).
  assert (Hn : rx_len = Z.of_nat n) by (unfold n; lia).
  replace (rx_len - 2) with (Z.of_nat (n - 2)) by lia.
  replace (rx_len - 1) with (Z.of_nat (n - 1)) by lia.
  rewrite (load_total rx_buf (n - 2)), run_bind_mem by lia.
  rewrite (load_total rx_buf (n - 1)), run_bind_mem by lia.
  assert (Hlo : is_u8 (rx_buf !!! (n - 2)%nat)) by (apply total_is_u8; [assumption|lia]).
  assert (Hhi : is_u8 (rx_buf !!! (n - 1)%nat)) by (apply total_is_u8; [assumption|lia]).
  rewrite Z.lor_comm, word_of_bytes by assumption.
  rewrite (u16_id (256 * _ + _)) by (unfold is_u16, is_u8 in *; lia).
  rewrite (u16_id (Z.of_nat (n - 2))) by (unfold is_u16; lia).
  rewrite modbus_crc16_fold by lia. rewrite Nat2Z.id, run_bind_mem.
  assert (Hfn : length frame = n) by lia.
  assert (Htr : trailer frame =
                256 * rx_buf !!! (n - 1)%nat + rx_buf !!! (n - 2)%nat).
  { unfold trailer. rewrite Hfn. unfold frame. fold n.
    rewrite !frame_total by lia. lia. }
  assert (Htk : take (length frame - 2) frame = take (n - 2) rx_buf).
  { rewrite Hfn. unfold frame. fold n. rewrite take_take. f_equal. lia. }
  rewrite Htr, Htk.
  destruct (negb (_ =? crc16 _)) eqn:Hcrc.
  { cbn [verdict_log]. rewrite Htr, Htk. reflexivity. }
  change (load rx_buf 0) with (load rx_buf (Z.of_nat 0)).
  rewrite (load_total rx_buf 0), run_bind_mem by lia.
  unfold frame. fold n. rewrite !frame_total by lia.
  destruct (negb (rx_buf !!! 0%nat =? MODBUS_SLAVE_ID)) eqn:Hid.
  { reflexivity. }
  rewrite run_bind_assoc.
  change (load rx_buf 1) with (load rx_buf (Z.of_nat 1)).
  rewrite (load_total rx_buf 1), run_bind_mem, run_bind_ret by lia. cbn [orb].
  destruct (negb (rx_buf !!! 1%nat =? 3)) eqn:Hfc.
  { reflexivity. }
  set (d := drop 3 rx_buf).
  assert (Hd8 : Forall is_u8 d) by (apply Forall_drop; assumption).
  assert (Hdl : (74 <= length d)%nat) by (unfold d; rewrite length_drop; lia).
  change (read_u32 d 0) with (read_u32 d (Z.of_nat 0)).
  rewrite (read_u32_spec d 0), run_bind_mem by (assumption || lia).
  change (read_u32 d 12) with (read_u32 d (Z.of_nat 12)).
  rewrite (read_u32_spec d 12), run_bind_mem by (assumption || lia).
  change (read_u32 d 18) with (read_u32 d (Z.of_nat 18)).
  rewrite (read_u32_spec d 18), run_bind_mem by (assumption || lia).
  change (read_u16 d 36) with (read_u16 d (Z.of_nat 36)).
  rewrite (read_u16_spec d 36), run_bind_mem by (assumption || lia).
  change (read_u16 d 58) with (read_u16 d (Z.of_nat 58)).
  rewrite (read_u16_spec d 58), run_bind_mem by (assumption || lia).
  change (read_u16 d 38) with (read_u16 d (Z.of_nat 38)).
  rewrite (read_u16_spec d 38), run_bind_mem by (assumption || lia).
  change (read_be32 d 64) with (read_be32 d (Z.of_nat 64)).
  rewrite (read_be32_spec d 64), run_bind_mem by (assumption || lia).
  change (load d 69) with (load d (Z.of_nat 69)).
  rewrite (load_total d 69), run_bind_mem by lia.
  change (read_u16 d 72) with (read_u16 d (Z.of_nat 72)).
  rewrite (read_u16_spec d 72), run_bind_mem by (assumption || lia).
  rewrite (u8_id (d !!! 69%nat)) by (apply total_is_u8; [assumption|lia]).
  reflexivity.
Qed.

End Validation.

(** ** Footprints *)

Section Footprint.
Context `{Platform} (md : bool) (env : oracle).

Lemma footprint_refl P (w : world) : footprint md env P w w.
Proof.
  split; [apply rtc_refl|]. exists []. split; [symmetry; apply app_nil_r|constructor].
Qed.

Lemma footprint_trans P (w1 w2 w3 : world) :
  footprint md env P w1 w2 -> footprint md env P w2 w3 -> footprint md env P w1 w3.
Proof.
  intros [Hs1 (a1 & Ht1 & Hp1)] [Hs2 (a2 & Ht2 & Hp2)].
  split; [eapply rtc_trans; eassumption|].
  exists (a1 ++ a2). split; [rewrite Ht2, Ht1, app_assoc; reflexivity|].
  apply Forall_app; split; assumption.
Qed.

Lemma footprint_mono (P P' : action -> Prop) (w w' : world) :
  (forall a, P a -> P' a) -> footprint md env P w w' -> footprint md env P' w w'.
Proof.
  intros HP [Hs (a & Ht & Hp)]. split; [exact Hs|].
  exists a. split; [exact Ht|]. eapply Forall_impl; eassumption.
Qed.

(** [fp strict P m]: every run of [m] has footprint [P]; with [strict]
    the run moreover returns. *)
Definition fp {A} (strict : bool) (P : action -> Prop) (m : prog A) : Prop :=
  forall w,
    wp env m (fun _ w' => footprint md env P w w')
       (fun _ w' => strict = false /\ footprint md env P w w') w.

Lemma fp_bind {A B} strict P (m : prog A) (k : A -> prog B) :
  fp strict P m -> (forall a, fp strict P (k a)) -> fp strict P (m ≫= k).
Proof.
  intros Hm Hk w. apply wp_bind. specialize (Hm w). unfold wp in *.
  destruct (m env w) as [a w1|e w1]; [|exact Hm].
  pose proof (Hk a w1) as Hk1. unfold wp in Hk1.
  destruct (k a env w1) as [b w2|e w2].
  - eapply footprint_trans; eassumption.
  - destruct Hk1 as [Hs H2]. split; [exact Hs|]. eapply footprint_trans; eassumption.
Qed.

Lemma fp_ret {A} strict P (a : A) : fp strict P (mret a).
Proof. intros w. apply footprint_refl. Qed.

Lemma fp_weaken {A} strict (P P' : action -> Prop) (m : prog A) :
  (forall a, P a -> P' a) -> fp true P m -> fp strict P' m.
Proof.
  intros HP Hm w. eapply wp_mono; [apply Hm| |].
  - intros a w'. apply footprint_mono, HP.
  - intros e w' [[=] _].
Qed.

Lemma fp_mono {A} strict (P P' : action -> Prop) (m : prog A) :
  (forall a, P a -> P' a) -> fp strict P m -> fp strict P' m.
Proof.
  intros HP Hm w. eapply wp_mono; [apply Hm| |].
  - intros a w'. apply footprint_mono, HP.
  - intros e w' [Hs Hf]. split; [exact Hs|]. revert Hf. apply footprint_mono, HP.
Qed.

Lemma fp_get_state strict P : fp strict P get_state.
Proof. intros w. apply footprint_refl. Qed.

Lemma fp_uptime strict P : fp strict P k_uptime_get_32.
Proof. intros w. apply footprint_refl. Qed.

Lemma fp_emit strict (P : action -> Prop) (a : action) : P a -> fp strict P (emit a).
Proof.
  intros Ha w. split; [apply rtc_refl|]. exists [a]. split; [reflexivity|].
  constructor; [exact Ha|constructor].
Qed.

Lemma fp_log strict (P : action -> Prop) fmt args :
  P (Log fmt args) -> fp strict P (log fmt args).
Proof. apply fp_emit. Qed.

Lemma fp_modify strict P (f : state -> state) :
  (forall s, touch md env s (f s)) -> fp strict P (modify f).
Proof.
  intros Hf w. split; [apply rtc_once, Hf|].
  exists []. split; [symmetry; apply app_nil_r|constructor].
Qed.

Lemma touch_deliver_from (evs0 evs : list event) (n : nat) (a : action) (s : state) :
  x_evs (env n a) = evs0 ++ evs -> rtc (touch md env) s (deliver evs s).
Proof.
  revert evs0 s. induction evs as [|e evs IH]; intros evs0 s He; [apply rtc_refl|].
  simpl. eapply rtc_l.
  - apply (touch_handle md env n a e). rewrite He. apply in_or_app. right. left. reflexivity.
  - apply (IH (evs0 ++ [e])). rewrite He, <- app_assoc. reflexivity.
Qed.

Lemma touch_deliver (n : nat) (a : action) (s : state) :
  rtc (touch md env) s (deliver (x_evs (env n a)) s).
Proof. apply (touch_deliver_from [] _ n a). reflexivity. Qed.

Lemma fp_outside strict (P : action -> Prop) (a : action) (least : Z) :
  P a -> fp strict P (outside a least).
Proof.
  intros Ha w. split; [apply touch_deliver|].
  exists [a]. split; [reflexivity|]. constructor; [exact Ha|constructor].
Qed.

Lemma fp_call strict (P : action -> Prop) (a : action) : P a -> fp strict P (call a).
Proof. apply fp_outside. Qed.

Lemma fp_call_ret strict (P : action -> Prop) (a : action) :
  P a -> fp strict P (call_ret a).
Proof.
  intros Ha. apply fp_bind; [apply fp_call, Ha|]. intros [r o]. apply fp_ret.
Qed.

Lemma fp_k_msleep strict (P : action -> Prop) (ms : Z) :
  P (KSleep ms) -> fp strict P (k_msleep ms).
Proof.
  intros Ha. apply fp_bind; [apply fp_outside, Ha|]. intros ?. apply fp_ret.
Qed.

Lemma touch_sem_try_take (x : sem_id) (s s' : state) :
  sem_try_take x s = Some s' -> touch md env s s'.
Proof.
  unfold sem_try_take. destruct (0 <? sem_count x s); [|discriminate].
  intros [= <-]. apply touch_sem.
Qed.

Lemma touch_deliver_waiting (x : sem_id) (evs0 evs : list event) (n : nat)
    (a : action) (taken : bool) (s : state) :
  x_evs (env n a) = evs0 ++ evs ->
  rtc (touch md env) s (snd (deliver_waiting x taken evs s)).
Proof.
  revert evs0 taken s. induction evs as [|e evs IH]; intros evs0 taken s He;
    [apply rtc_refl|].
  assert (Hin : In e (x_evs (env n a))).
  { rewrite He. apply in_or_app. right. left. reflexivity. }
  assert (He' : x_evs (env n a) = (evs0 ++ [e]) ++ evs).
  { rewrite He, <- app_assoc. reflexivity. }
  simpl. eapply rtc_l; [apply (touch_handle md env n a e _ Hin)|].
  destruct taken; [apply (IH _ _ _ He')|].
  destruct (sem_try_take x (handle e s)) as [s2|] eqn:Ht; [|apply (IH _ _ _ He')].
  eapply rtc_l; [eapply touch_sem_try_take, Ht|]. apply (IH _ _ _ He').
Qed.

Lemma fp_k_sem_take strict (P : action -> Prop) (x : sem_id) (timeout : Z) :
  P (KSemTake x timeout) -> fp strict P (k_sem_take x timeout).
Proof.
  intros Ha w. unfold wp, k_sem_take.
  destruct (sem_try_take x (globals w)) as [s'|] eqn:Ht.
  - split; [apply rtc_once; eapply touch_sem_try_take, Ht|].
    exists [KSemTake x timeout]. split; [reflexivity|].
    constructor; [exact Ha|constructor].
  - pose proof (touch_deliver_waiting x [] _ (pos w) (KSemTake x timeout) false
                  (globals w) eq_refl) as Ht'.
    destruct (deliver_waiting x false _ (globals w)) as [taken s'].
    split; [exact Ht'|].
    exists [KSemTake x timeout]. split; [reflexivity|].
    constructor; [exact Ha|constructor].
Qed.

Lemma fp_mem {A} (P : action -> Prop) (o : option A) : fp false P (mem o).
Proof.
  intros w. destruct o; [apply footprint_refl|].
  split; [reflexivity|apply footprint_refl].
Qed.

Lemma fp_mem_some {A} strict (P : action -> Prop) (a : A) : fp strict P (mem (Some a)).
Proof. intros w. apply footprint_refl. Qed.

Lemma fp_out_of_fuel {A} (P : action -> Prop) : fp false P (@out_of_fuel A).
Proof. intros w. split; [reflexivity|apply footprint_refl]. Qed.

End Footprint.

(** Decomposition of a footprint goal along the program text. *)
Ltac fp_leaf :=
  first
    [ apply fp_ret
    | apply fp_get_state
    | apply fp_uptime
    | apply fp_log; repeat split; reflexivity
    | apply fp_call; repeat split; reflexivity
    | apply fp_call_ret; repeat split; reflexivity
    | apply fp_k_msleep; repeat split; reflexivity
    | apply fp_k_sem_take; repeat split; reflexivity
    | apply fp_modify; intros; first [apply touch_sock | apply touch_count
        | apply (touch_sem _ _ SemWifi) | apply (touch_sem _ _ SemIpv4)
        | apply touch_meter; reflexivity]
    | apply fp_mem_some
    | apply fp_mem
    | apply fp_out_of_fuel ].

Ltac fp_step :=
  lazymatch goal with
  | |- fp _ _ _ _ (_ ≫= _) => apply fp_bind; [|intros]
  | |- fp _ _ _ _ (if ?b then _ else _) => destruct b eqn:?
  | |- fp _ _ _ _ (match ?p with (_, _) => _ end) => destruct p
  | |- fp _ _ _ _ (match ?o with Some _ => _ | None => _ end) => destruct o eqn:?
  | |- fp _ _ _ _ _ => fp_leaf
  end.

Ltac fp_auto := repeat fp_step.

Section ProcedureFootprints.
Context `{Platform} (md : bool) (env : oracle).

Lemma background_quiet (a : action) : background a -> quiet a.
Proof. destruct a; intros [H1 H2]; split; (reflexivity || discriminate || assumption). Qed.

Lemma fp_switch_to_modbus strict : fp md env strict quiet switch_to_modbus.
Proof. unfold switch_to_modbus. fp_auto. Qed.

Lemma fp_switch_to_console strict : fp md env strict quiet switch_to_console.
Proof. unfold switch_to_console. fp_auto. Qed.

Lemma fp_rx_loop (fuel : nat) (start : Z) (l : rx_locals) :
  fp md env false quiet (rx_loop fuel start l).
Proof.
  revert l. induction fuel as [|fuel IH]; intros l; simpl; fp_auto; apply IH.
Qed.

Lemma fp_wifi_connect_loop strict (fuel : nat) (retry : Z) :
  wifi_max_retries - retry <= Z.of_nat fuel ->
  fp md env strict background (wifi_connect_loop fuel retry).
Proof.
  revert retry. induction fuel as [|fuel IH]; intros retry Hf; simpl.
  - destruct (retry <? wifi_max_retries) eqn:Hr; [lia|]. fp_auto.
  - fp_auto; apply IH; lia.
Qed.

Lemma fp_wifi_connect strict : fp md env strict background wifi_connect.
Proof.
  unfold wifi_connect. fp_auto.
  apply fp_wifi_connect_loop. unfold wifi_max_retries. lia.
Qed.

Lemma fp_broker_init strict : fp md env strict background broker_init.
Proof. unfold broker_init. fp_auto. Qed.

Lemma fp_prepare_mqtt_client strict : fp md env strict background prepare_mqtt_client.
Proof. unfold prepare_mqtt_client. fp_auto. Qed.

Lemma fp_tb_poll_loop strict (fuel : nat) (timeout : Z) :
  timeout <= 500 * Z.of_nat fuel ->
  fp md env strict background (tb_poll_loop fuel timeout).
Proof.
  revert timeout. induction fuel as [|fuel IH]; intros timeout Hf; simpl.
  - destruct (0 <? timeout) eqn:Hr; [lia|]. fp_auto.
  - fp_auto; apply IH; lia.
Qed.

Lemma fp_tb_connect_loop strict (fuel : nat) (retry : Z) :
  5 - retry <= Z.of_nat fuel ->
  fp md env strict background (tb_connect_loop fuel retry).
Proof.
  revert retry. induction fuel as [|fuel IH]; intros retry Hf; simpl.
  - destruct (retry <? 5) eqn:Hr; [lia|]. fp_auto.
  - fp_auto; try (apply IH; lia); apply fp_tb_poll_loop; lia.
Qed.

Lemma fp_thingsboard_connect strict : fp md env strict background thingsboard_connect.
Proof.
  unfold thingsboard_connect. fp_auto.
  - apply fp_prepare_mqtt_client.
  - apply fp_tb_connect_loop. lia.
Qed.

Lemma fp_mqtt_maintenance strict : fp md env strict background mqtt_maintenance.
Proof. unfold mqtt_maintenance. fp_auto. Qed.

Lemma fp_reconnect_if_needed strict : fp md env strict background reconnect_if_needed.
Proof.
  unfold reconnect_if_needed. fp_auto;
    first [apply fp_wifi_connect | apply fp_broker_init | apply fp_thingsboard_connect].
Qed.

Lemma fp_main_wifi_loop strict (fuel : nat) (count ret : Z) :
  max_wifi_retries - count <= Z.of_nat fuel ->
  fp md env strict background (main_wifi_loop fuel count ret).
Proof.
  revert count ret. induction fuel as [|fuel IH]; intros count ret Hf; simpl.
  - destruct (count <? max_wifi_retries) eqn:Hr; [lia|]. fp_auto.
  - fp_auto; try (apply IH; lia); apply fp_wifi_connect.
Qed.

End ProcedureFootprints.

(** ** The receive loop *)

Section ReceiveLoop.
Context (env : oracle).

Lemma run_outside (a : action) (least : Z) (w : world) :
  outside a least env w =
  Ok (x_ret (env (pos w) a), x_out (env (pos w) a)) (after env a least w).
Proof. reflexivity. Qed.

Lemma wp_outside (a : action) (least : Z) Q E (w : world) :
  Q (x_ret (env (pos w) a), x_out (env (pos w) a)) (after env a least w) ->
  wp env (outside a least) Q E w.
Proof. auto. Qed.

Lemma wp_k_msleep (ms : Z) (Q : unit -> world -> Prop) E (w : world) :
  Q tt (after env (KSleep ms) ms w) -> wp env (k_msleep ms) Q E w.
Proof. auto. Qed.

Lemma wp_uptime (Q : Z -> world -> Prop) E (w : world) :
  Q (u32 (now w)) w -> wp env k_uptime_get_32 Q E w.
Proof. auto. Qed.

Lemma wp_mem_some {A} (a : A) (Q : A -> world -> Prop) E (w : world) :
  Q a w -> wp env (mem (Some a)) Q E w.
Proof. auto. Qed.

Lemma wp_get_state (Q : state -> world -> Prop) E (w : world) :
  Q (globals w) w -> wp env get_state Q E w.
Proof. auto. Qed.

Lemma u32_sub (a b : Z) :
  0 <= a - b < 4294967296 -> u32 (u32 a - u32 b) = a - b.
Proof.
  intros Hr. unfold u32. rewrite <- Zminus_mod. apply Z.mod_small. exact Hr.
Qed.

(** One unfolding of the loop. *)
Lemma rx_loop_unfold (fuel : nat) (start : Z) (l : rx_locals) :
  rx_loop fuel start l =
  (t ← k_uptime_get_32;
   if u32 (t - start) <? 2000 then
     match fuel with
     | O => out_of_fuel
     | S fuel' =>
         let idle_check (l1 : rx_locals) : prog rx_locals :=
           t2 ← k_uptime_get_32;
           if (3 <? rx_len l1) && (150 <? u32 (t2 - last_byte l1))
           then mret l1
           else k_msleep 5;; rx_loop fuel' start l1 in
         '(r, c) ← call UartPollIn;
         if r =? 0 then
           buf ← mem (store (rx_buf l) (rx_len l) c);
           t1 ← k_uptime_get_32;
           let l1 := {| rx_buf := buf; rx_len := rx_len l + 1;
                        last_byte := t1 |} in
           if MODBUS_RX_BUFFER <=? u32 (rx_len l1)
           then mret l1
           else idle_check l1
         else idle_check l
     end
   else mret l).
Proof. destruct fuel; reflexivity. Qed.

(** The buffer discipline of the loop, whatever arrives and whenever:
    the count stays within the buffer, every store lands inside it, and
    the only way the model stops short is by running out of fuel. *)
Lemma rx_loop_bounds (fuel : nat) (start : Z) (l : rx_locals) (w : world) :
  Z.of_nat (length (rx_buf l)) = MODBUS_RX_BUFFER ->
  0 <= rx_len l < MODBUS_RX_BUFFER ->
  Forall is_u8 (rx_buf l) ->
  wp env (rx_loop fuel start l)
     (fun l' _ =>
        Z.of_nat (length (rx_buf l')) = MODBUS_RX_BUFFER /\
        0 <= rx_len l' <= MODBUS_RX_BUFFER /\
        Forall is_u8 (rx_buf l'))
     (fun e _ => e = OutOfFuel) w.
Proof.
  revert l w. induction fuel as [|fuel IH]; intros l w Hlen Hrx Hu8;
    rewrite rx_loop_unfold; apply wp_bind, wp_uptime;
    (destruct (u32 (u32 (now w) - start) <? 2000);
     [|apply wp_ret; repeat split; (assumption || lia)]).
  { reflexivity. }
  assert (Hidle : forall l1 w1,
             Z.of_nat (length (rx_buf l1)) = MODBUS_RX_BUFFER ->
             0 <= rx_len l1 < MODBUS_RX_BUFFER ->
             Forall is_u8 (rx_buf l1) ->
             wp env
               (t2 ← k_uptime_get_32;
                if (3 <? rx_len l1) && (150 <? u32 (t2 - last_byte l1))
                then mret l1
                else k_msleep 5;; rx_loop fuel start l1)
               (fun l' _ =>
                  Z.of_nat (length (rx_buf l')) = MODBUS_RX_BUFFER /\
                  0 <= rx_len l' <= MODBUS_RX_BUFFER /\
                  Forall is_u8 (rx_buf l'))
               (fun e _ => e = OutOfFuel) w1).
  { intros l1 w1 H1 H2 H3. apply wp_bind, wp_uptime.
    destruct (_ && _).
    - apply wp_ret. repeat split; (assumption || lia).
    - apply wp_bind, wp_k_msleep. apply IH; assumption. }
  cbv zeta. apply wp_bind. unfold call. apply wp_outside.
  destruct (x_ret (env (pos w) UartPollIn) =? 0); [|apply Hidle; assumption].
  rewrite store_in_range by lia.
  apply wp_bind, wp_mem_some, wp_bind, wp_uptime. cbv zeta.
  match goal with
  | |- wp _ (if _ <=? u32 (rx_len ?r) then _ else _) _ _ _ => set (l1 := r)
  end.
  assert (Hl' : Z.of_nat (length (rx_buf l1)) = MODBUS_RX_BUFFER).
  { unfold l1. cbn [rx_buf]. rewrite length_insert. exact Hlen. }
  assert (Hu' : Forall is_u8 (rx_buf l1)).
  { unfold l1. cbn [rx_buf]. apply Forall_insert; [exact Hu8|apply u8_range]. }
  assert (Hr' : rx_len l1 = rx_len l + 1) by reflexivity.
  rewrite (u32_id (rx_len l1)) by (unfold is_u32, MODBUS_RX_BUFFER in *; lia).
  destruct (MODBUS_RX_BUFFER <=? rx_len l1) eqn:Hfull.
  - apply wp_ret. repeat split; (assumption || lia).
  - apply Z.leb_gt in Hfull. apply Hidle; (assumption || lia).
Qed.

End ReceiveLoop.

Section ReceiveDeadline.
Context (env : oracle) (D : Z).
Hypothesis env_timely : timely D env.
Hypothesis D_small : 2 * D + 2005 < 4294967296.

Lemma D_nonneg : 0 <= D.
Proof. pose proof (env_timely 0%nat UartPollIn). lia. Qed.

(** The loop from any of its heads: [now0] is the uptime at which the
    loop was entered, [tl] the uptime at which [last_byte] was taken. *)
Lemma rx_loop_deadline (now0 : Z) (fuel : nat) (tl : Z) (l : rx_locals) (w : world) :
  Z.of_nat (length (rx_buf l)) = MODBUS_RX_BUFFER ->
  0 <= rx_len l < MODBUS_RX_BUFFER ->
  now0 <= tl <= now w ->
  last_byte l = u32 tl ->
  (3 < rx_len l -> now w - tl <= 155 + D) ->
  now w - now0 < 2005 + 2 * D ->
  2000 - (now w - now0) <= 5 * Z.of_nat fuel ->
  returns env (rx_loop fuel (u32 now0) l)
    (fun l' w' =>
       now w <= now w' /\
       now w' - now0 < 2005 + 2 * D /\
       (3 < rx_len l' -> u32 (u32 (now w') - last_byte l') <= 155 + 2 * D) /\
       rx_exit_reason now0 l' w') w.
Proof.
  pose proof D_nonneg as HD.
  revert tl l w. induction fuel as [|fuel IH];
    intros tl l w Hlen Hrx Htl Hlb Hidle Hel Hfuel;
    rewrite rx_loop_unfold; apply wp_bind, wp_uptime;
    rewrite u32_sub by lia;
    (destruct (now w - now0 <? 2000) eqn:Hd;
     [apply Z.ltb_lt in Hd
     |apply Z.ltb_ge in Hd; apply wp_ret; unfold rx_exit_reason;
      rewrite Hlb, u32_sub by lia; repeat split; lia]).
  { lia. }
  assert (Hcheck : forall tl1 l1 w1,
             Z.of_nat (length (rx_buf l1)) = MODBUS_RX_BUFFER ->
             0 <= rx_len l1 < MODBUS_RX_BUFFER ->
             now0 <= tl1 <= now w1 ->
             last_byte l1 = u32 tl1 ->
             (3 < rx_len l1 -> now w1 - tl1 <= 155 + 2 * D) ->
             now w <= now w1 ->
             now w1 - now0 < 2000 + D ->
             2000 - (now w1 - now0) - 5 <= 5 * Z.of_nat fuel ->
             wp env
               (t2 ← k_uptime_get_32;
                if (3 <? rx_len l1) && (150 <? u32 (t2 - last_byte l1))
                then mret l1
                else k_msleep 5;; rx_loop fuel (u32 now0) l1)
               (fun l' w' =>
                  now w <= now w' /\
                  now w' - now0 < 2005 + 2 * D /\
                  (3 < rx_len l' -> u32 (u32 (now w') - last_byte l') <= 155 + 2 * D) /\
                  rx_exit_reason now0 l' w')
               (fun _ _ => False) w1).
  { intros tl1 l1 w1 H1 H2 H3 H4 H5 H6 H7 H8.
    apply wp_bind, wp_uptime. rewrite H4, u32_sub by lia.
    destruct (3 <? rx_len l1) eqn:H3lt; destruct (150 <? now w1 - tl1) eqn:H150;
      cbn [andb];
      try apply Z.ltb_lt in H3lt; try apply Z.ltb_ge in H3lt;
      try apply Z.ltb_lt in H150; try apply Z.ltb_ge in H150.
    - apply wp_ret. unfold rx_exit_reason. rewrite H4, u32_sub by lia.
      repeat split; lia.
    - apply wp_bind, wp_k_msleep.
      pose proof (env_timely (pos w1) (KSleep 5)) as Hdt.
      eapply wp_mono; [apply (IH tl1 l1); cbn [now after]; try assumption; lia| |auto].
      cbn [now after]. intros l' w' (Ha & Hb & Hc & Hd'). repeat split; (assumption || lia).
    - apply wp_bind, wp_k_msleep.
      pose proof (env_timely (pos w1) (KSleep 5)) as Hdt.
      eapply wp_mono; [apply (IH tl1 l1); cbn [now after]; try assumption; lia| |auto].
      cbn [now after]. intros l' w' (Ha & Hb & Hc & Hd'). repeat split; (assumption || lia).
    - apply wp_bind, wp_k_msleep.
      pose proof (env_timely (pos w1) (KSleep 5)) as Hdt.
      eapply wp_mono; [apply (IH tl1 l1); cbn [now after]; try assumption; lia| |auto].
      cbn [now after]. intros l' w' (Ha & Hb & Hc & Hd'). repeat split; (assumption || lia). }
  cbv zeta. apply wp_bind. unfold call. apply wp_outside.
  pose proof (env_timely (pos w) UartPollIn) as Hdt0.
  destruct (x_ret (env (pos w) UartPollIn) =? 0).
  2:{ apply (Hcheck tl); cbn [now after]; try assumption; lia. }
  rewrite store_in_range by lia.
  apply wp_bind, wp_mem_some, wp_bind, wp_uptime. cbv zeta.
  match goal with
  | |- wp _ (if _ <=? u32 (rx_len ?r) then _ else _) _ _ _ => set (l1 := r)
  end.
  set (w1 := after env UartPollIn 0 w).
  assert (Hl' : Z.of_nat (length (rx_buf l1)) = MODBUS_RX_BUFFER).
  { unfold l1. cbn [rx_buf]. rewrite length_insert. exact Hlen. }
  assert (Hr' : rx_len l1 = rx_len l + 1) by reflexivity.
  assert (Hb' : last_byte l1 = u32 (now w1)) by reflexivity.
  assert (Hn' : now w1 = now w + 0 + x_dt (env (pos w) UartPollIn)) by reflexivity.
  rewrite (u32_id (rx_len l1)) by (unfold is_u32, MODBUS_RX_BUFFER in *; lia).
  destruct (MODBUS_RX_BUFFER <=? rx_len l1) eqn:Hfull.
  - apply Z.leb_le in Hfull. apply wp_ret. unfold rx_exit_reason.
    rewrite Hb', u32_sub by lia. repeat split; lia.
  - apply Z.leb_gt in Hfull.
    apply (Hcheck (now w1)); (assumption || lia).
Qed.

End ReceiveDeadline.

(** ** What the callbacks and the connectivity code leave alone *)

Section Preserved.
Context (env : oracle).

Lemma handle_meter_data (e : event) (s : state) :
  meter_data (handle e s) = meter_data s.
Proof.
  destruct e as [[status| |]|[|]|[result| |id|]]; simpl; try reflexivity.
  - destruct (status =? 0); reflexivity.
  - destruct (negb (result =? 0)); reflexivity.
Qed.

Lemma handle_attrs_sent (e : event) (s : state) :
  attrs_sent (handle e s) = attrs_sent s.
Proof.
  destruct e as [[status| |]|[|]|[result| |id|]]; simpl; try reflexivity.
  - destruct (status =? 0); reflexivity.
  - destruct (negb (result =? 0)); reflexivity.
Qed.

Lemma handle_disconnected (e : event) (s : state) :
  session_ack e = false -> mqtt_connected s = false ->
  mqtt_connected (handle e s) = false.
Proof.
  destruct e as [[status| |]|[|]|[result| |id|]]; simpl; intros Ha Hs;
    try assumption; try reflexivity.
  - destruct (status =? 0); assumption.
  - rewrite Ha. reflexivity.
Qed.

Lemma touch_meter_data (s s' : state) :
  rtc (touch false env) s s' -> meter_data s' = meter_data s.
Proof.
  induction 1 as [|s1 s2 s3 Hst _ IH]; [reflexivity|].
  rewrite IH. destruct Hst as [n a e s|[] c s|c s|c s|m s Hmd];
    try reflexivity; [apply handle_meter_data|discriminate].
Qed.

Lemma touch_attrs_sent md (s s' : state) :
  rtc (touch md env) s s' -> attrs_sent s' = attrs_sent s.
Proof.
  induction 1 as [|s1 s2 s3 Hst _ IH]; [reflexivity|].
  rewrite IH. destruct Hst as [n a e s|[] c s|c s|c s|m s Hmd];
    try reflexivity; apply handle_attrs_sent.
Qed.

Lemma touch_disconnected md (s s' : state) :
  never session_ack env ->
  rtc (touch md env) s s' -> mqtt_connected s = false -> mqtt_connected s' = false.
Proof.
  intros Hnever. induction 1 as [|s1 s2 s3 Hst _ IH]; [auto|].
  intros Hs. apply IH.
  destruct Hst as [n a e s Hin|[] c s|c s|c s|m s Hmd]; try exact Hs.
  apply handle_disconnected; [exact (Hnever n a e Hin)|exact Hs].
Qed.

Lemma footprint_filter md (P : action -> Prop) (keep : action -> bool) (w w' : world) :
  (forall a, P a -> keep a = false) ->
  footprint md env P w w' ->
  List.filter keep (trace w') = List.filter keep (trace w).
Proof.
  intros HP [_ (added & -> & Hadd)]. rewrite List.filter_app.
  replace (List.filter keep added) with (@nil action); [apply app_nil_r|].
  induction Hadd as [|a l Ha _ IH]; [reflexivity|].
  simpl. rewrite (HP a Ha). exact IH.
Qed.

End Preserved.

(** ** Pieces of a meter transaction *)

Section Transaction.
Context (env : oracle).

Lemma fp_parse_response strict (rx_buf : list Z) (rx_len : Z) :
  strict = false ->
  fp true env strict quiet (parse_response rx_buf rx_len).
Proof. intros ->. unfold parse_response, invalidate. fp_auto. Qed.

Lemma wp_log fmt args (Q : unit -> world -> Prop) E (w : world) :
  Q tt {| globals := globals w; now := now w; pos := pos w;
          trace := trace w ++ [Log fmt args] |} ->
  wp env (log fmt args) Q E w.
Proof. auto. Qed.

Lemma wp_modify (f : state -> state) (Q : unit -> world -> Prop) E (w : world) :
  Q tt {| globals := f (globals w); now := now w; pos := pos w;
          trace := trace w |} ->
  wp env (modify f) Q E w.
Proof. auto. Qed.

(** A rejected response costs the reading its [valid] flag and nothing
    else; no assumption on the buffer is needed for that. *)
Lemma parse_response_rejects (rx_buf : list Z) (rx_len : Z) (w : world) :
  wp env (parse_response rx_buf rx_len)
     (fun r w' =>
        r <> 0 ->
        r = -1 /\
        globals w' = set_meter_data (set_valid false (meter_data (globals w)))
                                    (globals w))
     (fun _ _ => True) w.
Proof.
  unfold parse_response, invalidate.
  repeat lazymatch goal with
    | |- wp _ (_ ≫= _) _ _ _ => apply wp_bind
    | |- wp _ (mem ?o) _ _ _ => destruct o; [apply wp_mem_some|exact I]
    | |- wp _ (log _ _) _ _ _ => apply wp_log
    | |- wp _ (modify _) _ _ _ => apply wp_modify
    | |- wp _ (mret _) _ _ _ => apply wp_ret
    | |- wp _ (if ?b then _ else _) _ _ _ => destruct b
    end;
    cbn [globals]; intros Hr; try (split; reflexivity); contradiction.
Qed.

(** Sending the request: the bytes of the buffer go out in order. *)
Lemma uart_send_run (tx_buf : list Z) (n : nat) (i : nat) (w : world) :
  (i + n <= length tx_buf)%nat ->
  returns env (uart_send tx_buf (Z.of_nat i) n)
    (fun _ w' =>
       rtc (touch false env) (globals w) (globals w') /\
       trace w' = trace w ++ map UartPollOut (take n (drop i tx_buf))) w.
Proof.
  revert i w. induction n as [|n IH]; intros i w Hn.
  - simpl. split; [apply rtc_refl|]. symmetry. apply app_nil_r.
  - simpl uart_send. apply wp_bind. rewrite load_total by lia.
    apply wp_mem_some, wp_bind. unfold call. apply wp_outside.
    replace (Z.of_nat i + 1) with (Z.of_nat (S i)) by lia.
    eapply wp_mono; [apply (IH (S i)); lia| |auto].
    intros _ w' [Hs Ht]. cbn [globals trace after] in Hs, Ht. split.
    + eapply rtc_trans; [apply touch_deliver|exact Hs].
    + rewrite Ht, <- app_assoc. f_equal.
      destruct (lookup_lt_is_Some_2 tx_buf i) as [b Hb]; [lia|].
      rewrite (drop_S tx_buf b i Hb). simpl.
      rewrite (list_lookup_total_correct _ _ _ Hb). reflexivity.
Qed.

End Transaction.

Section TransactionRuns.
Context (env : oracle).

Lemma wp_fp_bind {A B} md (P : action -> Prop) (m : prog A) (k : A -> prog B)
    (Q : B -> world -> Prop) (w0 w : world) :
  footprint md env P w0 w ->
  fp md env false P m ->
  (forall a w1, footprint md env P w0 w1 -> wp env (k a) Q (fun _ _ => True) w1) ->
  wp env (m ≫= k) Q (fun _ _ => True) w.
Proof.
  intros H0 Hm Hk. apply wp_bind. eapply wp_mono; [apply Hm| |auto].
  intros a w1 H1. apply Hk. eapply footprint_trans; eassumption.
Qed.

Lemma wp_strict_bind {A B} md (P : action -> Prop) (m : prog A) (k : A -> prog B)
    (Q : B -> world -> Prop) E (w : world) :
  fp md env true P m ->
  (forall a w1, wp env (k a) Q E w1) ->
  wp env (m ≫= k) Q E w.
Proof.
  intros Hm Hk. apply wp_bind. eapply wp_mono; [apply Hm| |].
  - intros a w1 _. apply Hk.
  - intros e w1 [[=] _].
Qed.

Lemma wp_returns_bind {A B} (m : prog A) (k : A -> prog B) (Qm : A -> world -> Prop)
    (Q : B -> world -> Prop) E (w : world) :
  returns env m Qm w ->
  (forall a w1, Qm a w1 -> wp env (k a) Q E w1) ->
  wp env (m ≫= k) Q E w.
Proof.
  intros Hm Hk. apply wp_bind. eapply wp_mono; [apply Hm| |].
  - exact Hk.
  - intros e w1 [].
Qed.

Lemma fp_uart_send md (tx_buf : list Z) (n : nat) (i : Z) :
  fp md env false (fun _ => True) (uart_send tx_buf i n).
Proof.
  revert i. induction n as [|n IH]; intros i; simpl; fp_auto; apply IH.
Qed.

(** Up to validation a meter transaction leaves the reading alone; a
    rejected response then clears [valid] and nothing else. *)
Lemma read_meter_data_rejects (fuel : nat) (tx_stack rx_stack : list Z) (w : world) :
  wp env (read_meter_data fuel tx_stack rx_stack)
     (fun r w' =>
        r <> 0 ->
        r = -1 /\
        meter_data (globals w') = set_valid false (meter_data (globals w)))
     (fun _ _ => True) w.
Proof.
  unfold read_meter_data.
  pose proof (footprint_refl false env (fun _ => True) w) as H0.
  eapply wp_fp_bind; [exact H0| |clear H0; intros _ w1 H0].
  { eapply fp_mono; [|apply fp_switch_to_modbus]. auto. }
  eapply wp_fp_bind; [exact H0|apply fp_mem|clear H0; intros tx_buf w2 H0].
  eapply wp_fp_bind; [exact H0|apply fp_uart_send|clear H0; intros _ w3 H0].
  eapply wp_fp_bind; [exact H0| |clear H0; intros _ w4 H0].
  { apply fp_k_msleep. exact I. }
  eapply wp_fp_bind; [exact H0|apply fp_uptime|clear H0; intros start w5 H0].
  eapply wp_fp_bind; [exact H0| |clear H0; intros l w6 H0].
  { eapply fp_mono; [|apply fp_rx_loop]. auto. }
  eapply wp_fp_bind; [exact H0| |clear H0; intros _ w7 H0].
  { eapply fp_mono; [|apply fp_switch_to_console]. auto. }
  eapply wp_mono; [apply parse_response_rejects| |auto].
  intros r w' Hr Hne. destruct (Hr Hne) as [-> Hg]. split; [reflexivity|].
  rewrite Hg. cbn [meter_data set_meter_data]. f_equal.
  apply (touch_meter_data env). apply H0.
Qed.

(** Every buffer access of a meter transaction is in bounds, whatever
    arrives and whenever: the model never stops at a memory fault. *)
Lemma read_meter_data_no_fault (fuel : nat) (tx_stack rx_stack : list Z) (w : world) :
  length tx_stack = 8%nat ->
  Z.of_nat (length rx_stack) = MODBUS_RX_BUFFER ->
  Forall is_u8 rx_stack ->
  wp env (read_meter_data fuel tx_stack rx_stack)
     (fun _ _ => True) (fun e _ => e = OutOfFuel) w.
Proof.
  intros Htx Hrx Hu8. unfold read_meter_data.
  eapply wp_strict_bind; [apply (fp_switch_to_modbus false env true)|intros _ w1].
  rewrite (request_frame _ Htx).
  apply wp_bind, wp_mem_some.
  eapply wp_returns_bind; [apply (uart_send_run env _ 8 0); simpl; lia|].
  intros _ w2 _. apply wp_bind, wp_k_msleep, wp_bind, wp_uptime.
  apply wp_bind. eapply wp_mono;
    [apply rx_loop_bounds; cbn [rx_buf rx_len]; (assumption || (unfold MODBUS_RX_BUFFER; lia))| |auto].
  intros l w3 (Hl1 & Hl2 & Hl3).
  eapply wp_strict_bind; [apply (fp_switch_to_console false env true)|intros _ w4].
  unfold wp. rewrite parse_response_run; [exact I|assumption| |];
    unfold MODBUS_RX_BUFFER in *; lia.
Qed.

End TransactionRuns.

(** Checking that a concrete list holds bytes. *)
Lemma bytes_by_check (l : list Z) :
  forallb (fun z => (0 <=? z) && (z <? 256)) l = true -> Forall is_u8 l.
Proof.
  intros Hl. apply Forall_forall. intros z Hz. apply list_elem_of_In in Hz.
  apply (proj1 (forallb_forall _ l) Hl) in Hz.
  apply andb_true_iff in Hz. unfold is_u8. lia.
Qed.

(** ** Readiness *)

(** Events that take readiness away: loss of the link, loss of the
    session, a refused session. *)
Definition drops (e : event) : bool :=
  match e with
  | WifiEvt NET_EVENT_WIFI_DISCONNECT_RESULT => true
  | MqttEvt MQTT_EVT_DISCONNECT => true
  | MqttEvt (MQTT_EVT_CONNACK result) => negb (result =? 0)
  | _ => false
  end.

(** The events after the last one that takes readiness away. *)
Fixpoint since_last_drop (evs acc : list event) : list event :=
  match evs with
  | [] => acc
  | e :: rest =>
      if drops e then since_last_drop rest []
      else since_last_drop rest (acc ++ [e])
  end.

(** Readiness as the claim states it: a link-established and a
    session-acknowledged signal were both seen since the last loss. *)
Definition ready_as_stated (evs : list event) : bool :=
  existsb link_up (since_last_drop evs []) &&
  existsb session_ack (since_last_drop evs []).

(** The link comes up, then goes down while a session is being set up,
    and the acknowledgment that was under way is processed. *)
Definition link_lost_before_ack : list event :=
  [WifiEvt (NET_EVENT_WIFI_CONNECT_RESULT 0);
   Ipv4Evt NET_EVENT_IPV4_ADDR_ADD;
   WifiEvt NET_EVENT_WIFI_DISCONNECT_RESULT;
   MqttEvt (MQTT_EVT_CONNACK 0)].

(** The same while [thingsboard_connect] polls: the link is lost during
    the first sleep, the acknowledgment is read in the second slice. *)
Definition env_link_lost : oracle := fun n a =>
  match a with
  | ZsockPoll _ => {| x_ret := 1; x_out := 1; x_evs := []; x_dt := 0 |}
  | KSleep _ =>
      {| x_ret := 0; x_out := 0;
         x_evs := [WifiEvt NET_EVENT_WIFI_DISCONNECT_RESULT]; x_dt := 0 |}
  | MqttInput =>
      {| x_ret := 0; x_out := 0;
         x_evs := if (n <? 5)%nat then [] else [MqttEvt (MQTT_EVT_CONNACK 0)];
         x_dt := 0 |}
  | _ => no_answer
  end.

Section Readiness.

Lemma deliver_app (evs1 evs2 : list event) (s : state) :
  deliver (evs1 ++ evs2) s = deliver evs2 (deliver evs1 s).
Proof. unfold deliver. apply fold_left_app. Qed.

Lemma handle_ready (e : event) (s : state) :
  mqtt_connected (handle e s) =
  session_ack e || (mqtt_connected s && negb (drops e)).
Proof.
  destruct e as [[status| |]|[|]|[result| |id|]]; simpl;
    try (destruct (mqtt_connected s); reflexivity).
  - destruct (status =? 0); simpl; destruct (mqtt_connected s); reflexivity.
  - destruct (result =? 0); simpl; [reflexivity|].
    destruct (mqtt_connected s); reflexivity.
Qed.

Lemma ready_has_ack (evs : list event) (s : state) :
  mqtt_connected s = false ->
  mqtt_connected (deliver evs s) = true ->
  exists pre result post,
    evs = pre ++ [MqttEvt (MQTT_EVT_CONNACK result)] ++ post /\
    result = 0 /\
    forallb (fun e => negb (drops e)) post = true.
Proof.
  intros Hs. induction evs as [|e evs IH] using rev_ind; [simpl; congruence|].
  rewrite deliver_app. simpl. rewrite handle_ready.
  intros Hr. apply orb_true_iff in Hr. destruct Hr as [Hack|Hkeep].
  - destruct e as [[?| |]|[|]|[result| |?|]]; try discriminate.
    simpl in Hack. apply Z.eqb_eq in Hack.
    exists evs, result, []. repeat split; assumption.
  - apply andb_true_iff in Hkeep. destruct Hkeep as [Hc Hd].
    destruct (IH Hc) as (pre & result & post & -> & Hres & Hpost).
    exists pre, result, (post ++ [e]). split; [|split; [exact Hres|]].
    + rewrite <- !app_assoc. reflexivity.
    + rewrite forallb_app, Hpost. simpl. rewrite Hd. reflexivity.
Qed.

(** Without a successful acknowledgment from outside, whatever the
    connectivity code does (sending connect requests included) leaves
    readiness false. *)
Lemma request_leaves_unready `{Platform} (env : oracle) (w : world) :
  never session_ack env ->
  mqtt_connected (globals w) = false ->
  returns env thingsboard_connect
    (fun _ w' => mqtt_connected (globals w') = false) w.
Proof.
  intros Hnever Hs.
  eapply wp_mono; [apply (fp_thingsboard_connect false env true)| |].
  - intros r w' [Ht _]. eapply touch_disconnected; eassumption.
  - intros e w' [[=] _].
Qed.

End Readiness.

(** ** Message texts *)

Section Texts.

Lemma string_length_app (s1 s2 : string) :
  String.length (s1 +:+ s2) = (String.length s1 + String.length s2)%nat.
Proof. induction s1 as [|c s1 IH]; simpl; [reflexivity|]. rewrite IH. reflexivity. Qed.

Lemma substring_all (s : string) (n : nat) :
  (String.length s <= n)%nat -> String.substring 0 n s = s.
Proof.
  revert n. induction s as [|c s IH]; intros n Hn.
  - destruct n; reflexivity.
  - destruct n as [|n]; simpl in Hn; [lia|]. simpl. rewrite IH by lia. reflexivity.
Qed.

Lemma snprintf_fits (size : nat) (s : string) :
  (String.length s < size)%nat -> snprintf size s = s.
Proof. intros Hs. unfold snprintf. apply substring_all. lia. Qed.

Lemma dec_digits_length (fuel : nat) (z : Z) (acc : string) :
  (String.length (dec_digits fuel z acc) <= fuel + String.length acc)%nat.
Proof.
  revert z acc. induction fuel as [|fuel IH]; intros z acc; simpl; [lia|].
  destruct (z / 10 =? 0); simpl; [lia|].
  etransitivity; [apply IH|]. simpl. lia.
Qed.

Lemma fmt_u_length (z : Z) : (String.length (fmt_u z) <= 10)%nat.
Proof. unfold fmt_u. etransitivity; [apply dec_digits_length|]. simpl. lia. Qed.

(** [(x & 2^n) ? 1 : 0] is bit [n] of [x]. *)
Lemma flag_bit (x n : Z) : 0 <= n -> flag x (2 ^ n) = bit x n.
Proof.
  intros Hn. unfold flag, bit.
  assert (E : Z.land x (2 ^ n) = if Z.testbit x n then 2 ^ n else 0).
  { apply Z.bits_inj'. intros k Hk. rewrite Z.land_spec.
    destruct (Z.eq_dec k n) as [->|Hne].
    - rewrite Z.pow2_bits_true by lia. rewrite andb_true_r.
      destruct (Z.testbit x n); [rewrite Z.pow2_bits_true by lia|rewrite Z.bits_0];
        reflexivity.
    - rewrite Z.pow2_bits_false by lia. rewrite andb_false_r.
      destruct (Z.testbit x n); [rewrite Z.pow2_bits_false by lia|rewrite Z.bits_0];
        reflexivity. }
  rewrite E. destruct (Z.testbit x n); [|reflexivity].
  destruct (2 ^ n =? 0) eqn:H0; [|reflexivity].
  apply Z.eqb_eq in H0. pose proof (Z.pow_pos_nonneg 2 n). lia.
Qed.

Lemma bit_cases (x n : Z) : bit x n = 0 \/ bit x n = 1.
Proof. unfold bit. destruct (Z.testbit x n); auto. Qed.

Lemma fmt_flag (x n : Z) : 0 <= n -> fmt_d (flag x (2 ^ n)) = fmt_u (bit x n).
Proof.
  intros Hn. rewrite flag_bit by exact Hn.
  destruct (bit_cases x n) as [-> | ->]; reflexivity.
Qed.

(** The telemetry text is never cut by the 512-byte buffer: it is the
    JSON object of the nine fields. *)
Lemma telemetry_payload_json (m : meter_data_t) :
  telemetry_payload m = json_object (telemetry_fields m).
Proof.
  unfold telemetry_payload.
  change 0x0004 with (2 ^ 2). change 0x0020 with (2 ^ 5).
  rewrite !fmt_flag by lia.
  rewrite snprintf_fits; [reflexivity|].
  pose proof (fmt_u_length (flow_rate m)).
  pose proof (fmt_u_length (forward_total m)).
  pose proof (fmt_u_length (reverse_total m)).
  pose proof (fmt_u_length (pressure m)).
  pose proof (fmt_u_length (temperature m)).
  pose proof (fmt_u_length (status m)).
  pose proof (fmt_u_length (bit (status m) 2)).
  pose proof (fmt_u_length (bit (status m) 5)).
  rewrite !string_length_app. unfold key, dq.
  rewrite ?string_length_app. cbn [String.length]. lia.
Qed.

Lemma baud_str_name (code : Z) : baud_str code = baud_name code.
Proof.
  unfold baud_str, baud_name.
  destruct (code =? 0) eqn:H0; [apply Z.eqb_eq in H0; subst; reflexivity|].
  destruct (code =? 1) eqn:H1; [apply Z.eqb_eq in H1; subst; reflexivity|].
  destruct (code =? 2) eqn:H2; [apply Z.eqb_eq in H2; subst; reflexivity|].
  destruct (code =? 3) eqn:H3; [apply Z.eqb_eq in H3; subst; reflexivity|].
  apply Z.eqb_neq in H0, H1, H2, H3.
  destruct code as [|[[|[]|]|[|[]|]|]|]; try reflexivity; congruence.
Qed.

Lemma baud_name_length (code : Z) : (String.length (baud_name code) <= 7)%nat.
Proof.
  unfold baud_name.
  destruct code as [|[[|[]|]|[|[]|]|]|]; simpl; lia.
Qed.

(** The attributes text is never cut by the 256-byte buffer. *)
Lemma attributes_payload_json (m : meter_data_t) :
  attributes_payload m = json_object (attributes_fields m).
Proof.
  unfold attributes_payload. rewrite baud_str_name.
  rewrite snprintf_fits; [reflexivity|].
  pose proof (fmt_u_length (modbus_id m)).
  pose proof (baud_name_length (baud_code m)).
  rewrite !string_length_app. unfold key, dq.
  rewrite ?string_length_app. cbn [String.length].
  assert (Hx : String.length (fmt_08X (serial_number m)) = 8%nat) by reflexivity.
  rewrite Hx. lia.
Qed.

End Texts.

(** ** Publisher runs *)

(** The world with one more log line. *)
Definition logged (fmt : string) (args : list log_arg) (w : world) : world :=
  {| globals := globals w; now := now w; pos := pos w;
     trace := trace w ++ [Log fmt args] |}.

(** The world after [publish topic payload], and what it returns. *)
Definition published (env : oracle) (topic payload : string) (w : world) : world :=
  let w1 := after env SysRand32 0 w in
  after env (MqttPublish topic payload (u16 (x_ret (env (pos w) SysRand32)))) 0 w1.

Definition publish_rc (env : oracle) (topic payload : string) (w : world) : Z :=
  x_ret (env (S (pos w))
           (MqttPublish topic payload (u16 (x_ret (env (pos w) SysRand32))))).

Section PublisherRuns.
Context `{Platform} (env : oracle).

Lemma publish_run (topic payload : string) (w : world) :
  publish topic payload env w =
  Ok (publish_rc env topic payload w) (published env topic payload w).
Proof. reflexivity. Qed.

Lemma send_telemetry_run (w : world) :
  send_telemetry env w =
  if negb (mqtt_connected (globals w)) then
    Ok (- ENOTCONN) (logged "MQTT not connected, skipping telemetry" [] w)
  else if negb (valid (meter_data (globals w))) then
    Ok (- EINVAL) (logged "Meter data invalid, skipping telemetry" [] w)
  else
    let payload := telemetry_payload (meter_data (globals w)) in
    let w1 := logged "Telemetry: %s" [LS payload] w in
    let rc := publish_rc env TELEMETRY_TOPIC payload w1 in
    Ok rc
       (if negb (rc =? 0)
        then logged "MQTT publish failed: %d" [LZ rc]
               (published env TELEMETRY_TOPIC payload w1)
        else logged "Telemetry published successfully" []
               (published env TELEMETRY_TOPIC payload w1)).
Proof.
  unfold send_telemetry. rewrite run_bind. cbn [get_state].
  destruct (negb (mqtt_connected (globals w))); [reflexivity|].
  rewrite run_bind. cbn [get_state].
  destruct (negb (valid (meter_data (globals w)))); [reflexivity|].
  cbv zeta. rewrite run_bind. cbn [log emit]. fold (logged "Telemetry: %s"
    [LS (telemetry_payload (meter_data (globals w)))] w).
  rewrite run_bind, publish_run, run_bind.
  destruct (negb (publish_rc env TELEMETRY_TOPIC _ _ =? 0)); reflexivity.
Qed.

Lemma send_attributes_run (w : world) :
  send_attributes env w =
  if negb (mqtt_connected (globals w)) then Ok (- ENOTCONN) w
  else
    let payload := attributes_payload (meter_data (globals w)) in
    let w1 := logged "Attributes: %s" [LS payload] w in
    Ok (publish_rc env ATTRIBUTES_TOPIC payload w1)
       (published env ATTRIBUTES_TOPIC payload w1).
Proof.
  unfold send_attributes. rewrite run_bind. cbn [get_state].
  destruct (negb (mqtt_connected (globals w))); [reflexivity|].
  reflexivity.
Qed.

End PublisherRuns.

(** ** Invariants of the poll loop *)

(** Actions that are no publish at all, resp. no publish of attributes. *)
Definition no_pub (a : action) : Prop := is_publish a = false.
Definition no_attr (a : action) : Prop := is_attr_publish a = false.

(** Attribute messages published so far. *)
Definition attr_count (w : world) : nat :=
  length (List.filter is_attr_publish (trace w)).

(** Attribute messages published so far, plus the one still allowed
    while [attrs_sent] is clear. *)
Definition attr_budget (w : world) : nat :=
  (attr_count w + if attrs_sent (globals w) then 0 else 1)%nat.

Section LoopInvariants.
Context `{Platform} (env : oracle).

Lemma quiet_no_pub (a : action) : quiet a -> no_pub a.
Proof. intros [Hp _]. exact Hp. Qed.

Lemma background_no_pub (a : action) : background a -> no_pub a.
Proof. intros [Hp _]. exact Hp. Qed.

Lemma no_pub_no_attr (a : action) : no_pub a -> no_attr a.
Proof. destruct a; unfold no_pub, no_attr; simpl; congruence. Qed.

(** [I] survives every run of footprint [P]. *)
Definition stable (md : bool) (P : action -> Prop) (I : world -> Prop) : Prop :=
  forall w w', footprint md env P w w' -> I w -> I w'.

Lemma wp_inv_fp {A} md (P : action -> Prop) (I : world -> Prop) (m : prog A)
    (w : world) :
  stable md P I -> fp md env false P m -> I w ->
  wp env m (fun _ w' => I w') (fun _ w' => I w') w.
Proof.
  intros Hst Hm Hw. eapply wp_mono; [apply Hm| |].
  - intros a w' Hf. exact (Hst _ _ Hf Hw).
  - intros e w' [_ Hf]. exact (Hst _ _ Hf Hw).
Qed.

Lemma wp_inv_bind {A B} md (P : action -> Prop) (I : world -> Prop)
    (m : prog A) (k : A -> prog B) (w : world) :
  stable md P I -> fp md env false P m -> I w ->
  (forall a w1, I w1 -> wp env (k a) (fun _ w' => I w') (fun _ w' => I w') w1) ->
  wp env (m ≫= k) (fun _ w' => I w') (fun _ w' => I w') w.
Proof.
  intros Hst Hm Hw Hk. apply wp_bind.
  eapply wp_mono; [apply (wp_inv_fp md P I m w Hst Hm Hw)| |auto].
  intros a w1 H1. apply Hk, H1.
Qed.

Lemma fp_send_telemetry md strict : fp md env strict no_attr send_telemetry.
Proof. unfold send_telemetry, publish. fp_auto. Qed.

Lemma fp_send_attributes md strict :
  fp md env strict (fun _ => True) send_attributes.
Proof. unfold send_attributes, publish. fp_auto. Qed.

Lemma fp_read_meter_data (fuel : nat) (tx_stack rx_stack : list Z) :
  fp true env false no_pub (read_meter_data fuel tx_stack rx_stack).
Proof.
  unfold read_meter_data.
  apply fp_bind; [eapply fp_mono; [apply quiet_no_pub|apply fp_switch_to_modbus]|intros _].
  apply fp_bind; [apply fp_mem|intros tx_buf].
  apply fp_bind; [|intros _].
  { generalize 0 at 1. generalize 8%nat. intros n.
    induction n as [|n IH]; intros i; simpl; fp_auto. apply IH. }
  apply fp_bind; [apply fp_k_msleep; reflexivity|intros _].
  apply fp_bind; [apply fp_uptime|intros start].
  apply fp_bind; [eapply fp_mono; [apply quiet_no_pub|apply fp_rx_loop]|intros l].
  apply fp_bind; [eapply fp_mono; [apply quiet_no_pub|apply fp_switch_to_console]|intros _].
  eapply fp_mono; [apply quiet_no_pub|apply fp_parse_response; reflexivity].
Qed.

Lemma attr_count_footprint md (w w' : world) :
  footprint md env no_attr w w' -> attr_count w' = attr_count w.
Proof.
  intros Hf. unfold attr_count.
  rewrite (footprint_filter env md no_attr is_attr_publish w w'); [reflexivity| |exact Hf].
  auto.
Qed.

Lemma attr_budget_footprint md (w w' : world) :
  footprint md env no_attr w w' -> attr_budget w' = attr_budget w.
Proof.
  intros Hf. unfold attr_budget.
  rewrite (attr_count_footprint md w w' Hf).
  rewrite (touch_attrs_sent env md _ _ (proj1 Hf)). reflexivity.
Qed.

Lemma stable_budget md (c : nat) :
  stable md no_attr (fun w => (attr_budget w <= c)%nat).
Proof. intros w w' Hf Hw. rewrite (attr_budget_footprint md w w' Hf). exact Hw. Qed.

End LoopInvariants.

Section AttributeBudget.
Context `{Platform} (env : oracle).

Lemma wp_inv_seq {A B} (I : world -> Prop) (m : prog A) (k : A -> prog B)
    (w : world) :
  wp env m (fun _ w' => I w') (fun _ w' => I w') w ->
  (forall a w1, I w1 -> wp env (k a) (fun _ w' => I w') (fun _ w' => I w') w1) ->
  wp env (m ≫= k) (fun _ w' => I w') (fun _ w' => I w') w.
Proof.
  intros Hm Hk. apply wp_bind. eapply wp_mono; [exact Hm| |auto].
  intros a w1 H1. apply Hk, H1.
Qed.

Lemma deliver_attrs_sent (evs : list event) (s : state) :
  attrs_sent (deliver evs s) = attrs_sent s.
Proof.
  revert s. induction evs as [|e evs IH]; intros s; [reflexivity|].
  simpl. rewrite IH. apply handle_attrs_sent.
Qed.

Lemma attr_count_published (payload fmt : string) (args : list log_arg) (w : world) :
  attr_count (published env ATTRIBUTES_TOPIC payload (logged fmt args w)) =
  S (attr_count w).
Proof.
  unfold attr_count, published, logged, after. cbn [trace pos].
  rewrite !List.filter_app. cbn [List.filter is_attr_publish].
  replace (String.eqb ATTRIBUTES_TOPIC ATTRIBUTES_TOPIC) with true by reflexivity.
  rewrite !length_app. simpl. lia.
Qed.

Lemma attrs_sent_published (topic payload fmt : string) (args : list log_arg)
    (w : world) :
  attrs_sent (globals (published env topic payload (logged fmt args w))) =
  attrs_sent (globals w).
Proof.
  unfold published, logged, after. cbn [globals].
  rewrite !deliver_attrs_sent. reflexivity.
Qed.

(** The attribute block of [main]: entered only with [attrs_sent] clear,
    it publishes at most one attributes message and sets [attrs_sent]. *)
Lemma attr_block_budget (c : nat) (w : world) :
  (attr_budget w <= c)%nat ->
  wp env
     (if negb (attrs_sent (globals w)) && mqtt_connected (globals w)
      then send_attributes;; modify (set_attrs_sent true)
      else mret tt)
     (fun _ w' => (attr_budget w' <= c)%nat)
     (fun _ w' => (attr_budget w' <= c)%nat) w.
Proof.
  intros Hw. destruct (attrs_sent (globals w)) eqn:Hs; cbn [negb andb];
    [exact Hw|].
  destruct (mqtt_connected (globals w)) eqn:Hc; [|exact Hw].
  unfold wp. rewrite run_bind, send_attributes_run, Hc. cbn [negb]. cbv zeta.
  cbn [modify]. unfold attr_budget in *. cbn [globals trace set_attrs_sent attrs_sent].
  rewrite Hs in Hw.
  change (attr_count _) with
    (attr_count (published env ATTRIBUTES_TOPIC
                   (attributes_payload (meter_data (globals w)))
                   (logged "Attributes: %s"
                      [LS (attributes_payload (meter_data (globals w)))] w))).
  rewrite attr_count_published. lia.
Qed.

Lemma main_iter_budget (c : nat) (fuel : nat) (tx_stack rx_stack : list Z)
    (w : world) :
  (attr_budget w <= c)%nat ->
  wp env (main_iter fuel tx_stack rx_stack)
     (fun _ w' => (attr_budget w' <= c)%nat)
     (fun _ w' => (attr_budget w' <= c)%nat) w.
Proof.
  intros Hw. unfold main_iter.
  pose proof (stable_budget env true c) as Hst.
  eapply wp_inv_bind; [exact Hst|fp_auto|exact Hw|clear w Hw; intros _ w Hw].
  eapply wp_inv_bind; [exact Hst| |exact Hw|clear w Hw; intros _ w Hw].
  { eapply fp_mono; [|apply fp_reconnect_if_needed].
    intros x Hx. apply no_pub_no_attr, background_no_pub, Hx. }
  eapply wp_inv_bind; [exact Hst|fp_auto|exact Hw|clear w Hw; intros _ w Hw].
  eapply wp_inv_bind; [exact Hst| |exact Hw|clear w Hw; intros ret w Hw].
  { eapply fp_mono; [|apply fp_read_meter_data]. apply no_pub_no_attr. }
  apply wp_bind, wp_get_state.
  apply wp_inv_seq.
  - destruct ((ret =? 0) && valid (meter_data (globals w)));
      [|apply (wp_inv_fp env true no_attr); [exact Hst|fp_auto|exact Hw]].
    eapply wp_inv_bind; [exact Hst|fp_auto|exact Hw|clear w Hw; intros _ w Hw].
    apply wp_bind, wp_get_state.
    apply wp_inv_seq; [apply attr_block_budget, Hw|clear w Hw; intros _ w Hw].
    apply (wp_inv_fp env true no_attr); [exact Hst| |exact Hw].
    fp_auto. apply fp_send_telemetry.
  - clear w Hw. intros _ w Hw.
    apply (wp_inv_fp env true no_attr); [exact Hst| |exact Hw].
    fp_auto. eapply fp_mono; [|apply fp_mqtt_maintenance].
    intros x Hx. apply no_pub_no_attr, background_no_pub, Hx.
Qed.

Lemma main_loop_budget (c : nat) (its : list iter_in) (w : world) :
  (attr_budget w <= c)%nat ->
  wp env (main_loop its)
     (fun _ w' => (attr_budget w' <= c)%nat)
     (fun _ w' => (attr_budget w' <= c)%nat) w.
Proof.
  revert w. induction its as [|it its IH]; intros w Hw; [exact Hw|].
  simpl main_loop. apply wp_inv_seq; [apply main_iter_budget, Hw|].
  intros _ w1 H1. apply IH, H1.
Qed.

Lemma fp_main_startup strict : fp false env strict quiet main_startup.
Proof.
  unfold main_startup. fp_auto;
    (eapply fp_mono; [apply background_quiet|]);
    first [apply fp_main_wifi_loop; unfold max_wifi_retries; lia
          | apply fp_broker_init | apply fp_thingsboard_connect].
Qed.

Lemma main_budget (c : nat) (its : list iter_in) (w : world) :
  (attr_budget w <= c)%nat ->
  wp env (main its)
     (fun _ w' => (attr_budget w' <= c)%nat)
     (fun _ w' => (attr_budget w' <= c)%nat) w.
Proof.
  intros Hw. unfold main.
  eapply wp_inv_bind; [apply (stable_budget env false c)| |exact Hw|].
  { eapply fp_mono; [|apply fp_main_startup].
    intros x Hx. apply no_pub_no_attr, quiet_no_pub, Hx. }
  intros [v|] w1 H1; [exact H1|].
  apply wp_inv_seq; [apply main_loop_budget, H1|].
  intros _ w2 H2. exact H2.
Qed.

End AttributeBudget.

(** While no session is acknowledged, nothing is published. *)
Section Unready.
Context `{Platform} (env : oracle).
Hypothesis no_ack : never session_ack env.

(** Not ready, and the messages published so far are [L]. *)
Definition unready (L : list action) (w : world) : Prop :=
  mqtt_connected (globals w) = false /\
  List.filter is_publish (trace w) = L.

Lemma stable_unready md (L : list action) : stable env md no_pub (unready L).
Proof.
  intros w w' Hf [Hc Hl]. split.
  - exact (touch_disconnected env md _ _ no_ack (proj1 Hf) Hc).
  - rewrite (footprint_filter env md no_pub is_publish w w'); [exact Hl| |exact Hf].
    auto.
Qed.

Lemma main_iter_unready (L : list action) (fuel : nat)
    (tx_stack rx_stack : list Z) (w : world) :
  unready L w ->
  wp env (main_iter fuel tx_stack rx_stack)
     (fun _ w' => unready L w') (fun _ w' => unready L w') w.
Proof.
  intros Hw. unfold main_iter.
  pose proof (stable_unready true L) as Hst.
  eapply wp_inv_bind; [exact Hst|fp_auto|exact Hw|clear w Hw; intros _ w Hw].
  eapply wp_inv_bind; [exact Hst| |exact Hw|clear w Hw; intros _ w Hw].
  { eapply fp_mono; [apply background_no_pub|apply fp_reconnect_if_needed]. }
  eapply wp_inv_bind; [exact Hst|fp_auto|exact Hw|clear w Hw; intros _ w Hw].
  eapply wp_inv_bind; [exact Hst|apply fp_read_meter_data|exact Hw|
                       clear w Hw; intros ret w Hw].
  apply wp_bind, wp_get_state.
  apply wp_inv_seq.
  - destruct ((ret =? 0) && valid (meter_data (globals w)));
      [|apply (wp_inv_fp env true no_pub); [exact Hst|fp_auto|exact Hw]].
    eapply wp_inv_bind; [exact Hst|fp_auto|exact Hw|clear w Hw; intros _ w Hw].
    apply wp_bind, wp_get_state.
    rewrite (proj1 Hw), andb_false_r.
    apply wp_bind, wp_ret, wp_bind, wp_get_state.
    rewrite (proj1 Hw).
    apply (wp_inv_fp env true no_pub); [exact Hst|fp_auto|exact Hw].
  - clear w Hw. intros _ w Hw.
    apply wp_bind, wp_get_state. rewrite (proj1 Hw).
    apply wp_bind, wp_ret.
    apply (wp_inv_fp env true no_pub); [exact Hst|fp_auto|exact Hw].
Qed.

Lemma main_loop_unready (L : list action) (its : list iter_in) (w : world) :
  unready L w ->
  wp env (main_loop its)
     (fun _ w' => unready L w') (fun _ w' => unready L w') w.
Proof.
  revert w. induction its as [|it its IH]; intros w Hw; [exact Hw|].
  simpl main_loop. apply wp_inv_seq; [apply main_iter_unready, Hw|].
  intros _ w1 H1. apply IH, H1.
Qed.

Lemma main_unready (L : list action) (its : list iter_in) (w : world) :
  unready L w ->
  wp env (main its)
     (fun _ w' => unready L w') (fun _ w' => unready L w') w.
Proof.
  intros Hw. unfold main.
  eapply wp_inv_bind; [apply (stable_unready false L)| |exact Hw|].
  { eapply fp_mono; [apply quiet_no_pub|apply fp_main_startup]. }
  intros [v|] w1 H1; [exact H1|].
  apply wp_inv_seq; [apply main_loop_unready, H1|].
  intros _ w2 H2. exact H2.
Qed.

End Unready.

Lemma no_publish_no_attr (l : list action) :
  List.filter is_publish l = [] -> List.filter is_attr_publish l = [].
Proof.
  induction l as [|a l IH]; [reflexivity|]. simpl.
  destruct a; simpl; try exact IH; discriminate.
Qed.

(** ** Link bring-up that never succeeds *)

(** The connect requests of the link bring-up and the delays between
    them. *)
Definition is_wifi_try (a : action) : bool :=
  match a with
  | NetMgmtWifiConnect => true
  | KSleep ms => (ms =? 5000) || (ms =? 10000)
  | _ => false
  end.

(** One attempt of [wifi_connect] as seen through [is_wifi_try]. *)
Definition wifi_try : list action := [NetMgmtWifiConnect; KSleep 5000].

(** The network interface exists; the serial device is ready. *)
Definition iface_present (env : oracle) : Prop :=
  forall n, x_out (env n NetIfGetFirstWifi) <> 0.

Definition device_ready (env : oracle) : Prop :=
  forall n, x_ret (env n DeviceIsReady) <> 0.

Section LinkNeverUp.
Context `{Platform} (env : oracle).
Hypothesis no_link : never link_up env.

Lemma handle_no_link (e : event) (s : state) :
  link_up e = false -> wifi_connected s = 0 -> wifi_connected (handle e s) = 0.
Proof.
  destruct e as [[status| |]|[|]|[result| |id|]]; simpl; intros He Hs;
    try assumption; try reflexivity.
  - rewrite He. exact Hs.
  - destruct (negb (result =? 0)); exact Hs.
Qed.

Lemma deliver_no_link (evs : list event) (s : state) :
  (forall e, In e evs -> link_up e = false) ->
  wifi_connected s = 0 -> wifi_connected (deliver evs s) = 0.
Proof.
  revert s. induction evs as [|e evs IH]; intros s He Hs; [exact Hs|].
  simpl. apply IH; [intros e' H'; apply He; right; exact H'|].
  apply handle_no_link; [apply He; left; reflexivity|exact Hs].
Qed.

Lemma deliver_waiting_no_link (evs : list event) (s : state) :
  (forall e, In e evs -> link_up e = false) ->
  wifi_connected s = 0 ->
  fst (deliver_waiting SemWifi false evs s) = false /\
  wifi_connected (snd (deliver_waiting SemWifi false evs s)) = 0.
Proof.
  revert s. induction evs as [|e evs IH]; intros s He Hs; [split; [reflexivity|exact Hs]|].
  simpl.
  assert (H0 : wifi_connected (handle e s) = 0).
  { apply handle_no_link; [apply He; left; reflexivity|exact Hs]. }
  unfold sem_try_take. cbn [sem_count]. rewrite H0. cbn [Z.ltb Z.compare].
  apply IH; [intros e' H'; apply He; right; exact H'|exact H0].
Qed.

Lemma wp_k_sem_take_timeout (t : Z) (Q : Z -> world -> Prop) E (w : world) :
  wifi_connected (globals w) = 0 ->
  (forall w', trace w' = trace w ++ [KSemTake SemWifi t] -> Q (- EAGAIN) w') ->
  wp env (k_sem_take SemWifi t) Q E w.
Proof.
  intros Hs HQ. unfold wp, k_sem_take, sem_try_take. cbn [sem_count].
  rewrite Hs. cbn [Z.ltb Z.compare].
  destruct (deliver_waiting_no_link
              (x_evs (env (pos w) (KSemTake SemWifi t))) (globals w)) as [Hf _];
    [intros e He; exact (no_link _ _ _ He)|exact Hs|].
  destruct (deliver_waiting SemWifi false _ (globals w)) as [taken s'].
  simpl in Hf. subst taken. apply HQ. reflexivity.
Qed.

Lemma wp_call_ret (a : action) (Q : Z -> world -> Prop) E (w : world) :
  Q (x_ret (env (pos w) a)) (after env a 0 w) -> wp env (call_ret a) Q E w.
Proof. auto. Qed.

Lemma wp_call (a : action) (Q : Z * Z -> world -> Prop) E (w : world) :
  Q (x_ret (env (pos w) a), x_out (env (pos w) a)) (after env a 0 w) ->
  wp env (call a) Q E w.
Proof. auto. Qed.

Lemma repeat_try_S (n : Z) :
  0 < n ->
  concat (repeat wifi_try (Z.to_nat n)) =
  wifi_try ++ concat (repeat wifi_try (Z.to_nat (n - 1))).
Proof.
  intros Hn. replace (Z.to_nat n) with (S (Z.to_nat (n - 1))) by lia. reflexivity.
Qed.

Lemma eagain_nonzero : (- EAGAIN =? 0) = false.
Proof. pose proof errno_positive. apply Z.eqb_neq. lia. Qed.

(** With no link result ever delivered, the retry loop makes every one
    of its remaining attempts, sleeps 5 s after each, and gives up. *)
Lemma wifi_connect_loop_exhausts (fuel : nat) (retry : Z) (w : world) :
  0 <= retry <= wifi_max_retries ->
  wifi_max_retries - retry <= Z.of_nat fuel ->
  returns env (wifi_connect_loop fuel retry)
    (fun r w' =>
       r = - ETIMEDOUT /\
       List.filter is_wifi_try (trace w') =
         List.filter is_wifi_try (trace w) ++
         concat (repeat wifi_try (Z.to_nat (wifi_max_retries - retry)))) w.
Proof.
  revert retry w. unfold returns.
  induction fuel as [|fuel IH]; intros retry w Hr Hf; simpl wifi_connect_loop;
    (destruct (retry <? wifi_max_retries) eqn:Hlt;
     [apply Z.ltb_lt in Hlt|apply Z.ltb_ge in Hlt]); try lia.
  - apply wp_bind, wp_log, wp_ret. cbn [trace].
    split; [reflexivity|].
    replace (wifi_max_retries - retry) with 0 by lia.
    rewrite List.filter_app. simpl. rewrite !app_nil_r. reflexivity.
  - assert (Hnext : forall w1,
               List.filter is_wifi_try (trace w1) =
                 List.filter is_wifi_try (trace w) ++ [NetMgmtWifiConnect] ->
               wp env (k_msleep 5000;; wifi_connect_loop fuel (retry + 1))
                  (fun r w' =>
                     r = - ETIMEDOUT /\
                     List.filter is_wifi_try (trace w') =
                       List.filter is_wifi_try (trace w) ++
                       concat (repeat wifi_try (Z.to_nat (wifi_max_retries - retry))))
                  (fun _ _ => False) w1).
    { intros w1 H1. apply wp_bind, wp_k_msleep.
      eapply wp_mono; [apply (IH (retry + 1)); lia| |auto].
      intros r w' [-> Ht]. split; [reflexivity|].
      rewrite Ht. cbn [trace after]. rewrite List.filter_app, H1.
      rewrite (repeat_try_S (wifi_max_retries - retry)) by lia.
      replace (wifi_max_retries - (retry + 1)) with (wifi_max_retries - retry - 1) by lia.
      cbn [List.filter is_wifi_try Z.eqb Pos.eqb orb wifi_try].
      rewrite <- !app_assoc. reflexivity. }
    apply wp_bind, wp_log, wp_bind, wp_modify, wp_bind, wp_modify.
    apply wp_bind, wp_call_ret.
    match goal with |- wp _ _ _ _ ?w1 => set (wr := w1) end.
    assert (Hwr : List.filter is_wifi_try (trace wr) =
                  List.filter is_wifi_try (trace w) ++ [NetMgmtWifiConnect]).
    { unfold wr. cbn [trace after]. rewrite !List.filter_app. simpl.
      rewrite app_nil_r. reflexivity. }
    assert (Hs : wifi_connected (globals wr) = 0).
    { unfold wr. cbn [globals after]. apply deliver_no_link; [|reflexivity].
      intros e He. exact (no_link _ _ _ He). }
    destruct (negb (x_ret (env _ NetMgmtWifiConnect) =? 0)).
    + apply wp_bind, wp_log. apply Hnext. cbn [trace].
      rewrite List.filter_app, Hwr. simpl. rewrite app_nil_r. reflexivity.
    + apply wp_bind, wp_k_sem_take_timeout; [exact Hs|].
      intros w' Hw'. rewrite eagain_nonzero. cbn [negb].
      apply wp_bind, wp_log. apply Hnext. cbn [trace].
      rewrite List.filter_app, Hw', List.filter_app, Hwr. simpl.
      rewrite !app_nil_r. reflexivity.
  - apply wp_bind, wp_log, wp_ret. cbn [trace].
    split; [reflexivity|].
    replace (wifi_max_retries - retry) with 0 by lia.
    rewrite List.filter_app. simpl. rewrite !app_nil_r. reflexivity.
Qed.

Lemma etimedout_nonzero : (- ETIMEDOUT =? 0) = false.
Proof. pose proof errno_positive. apply Z.eqb_neq. lia. Qed.

Lemma wifi_connect_exhausts (w : world) :
  iface_present env ->
  returns env wifi_connect
    (fun r w' =>
       r = - ETIMEDOUT /\
       List.filter is_wifi_try (trace w') =
         List.filter is_wifi_try (trace w) ++
         concat (repeat wifi_try (Z.to_nat wifi_max_retries))) w.
Proof.
  intros Hif. unfold wifi_connect, returns.
  apply wp_bind, wp_log, wp_bind, wp_call.
  pose proof (Hif (pos (logged "Initializing WiFi connection..." [] w))) as Hi.
  apply Z.eqb_neq in Hi. cbn [pos logged] in Hi.
  cbn [pos]. rewrite Hi.
  apply wp_bind, wp_call.
  eapply wp_mono; [apply (wifi_connect_loop_exhausts _ 0);
                   unfold wifi_max_retries; lia| |auto].
  intros r w' [-> Ht]. split; [reflexivity|].
  rewrite Ht. cbn [trace after]. rewrite !List.filter_app. simpl.
  rewrite ?app_nil_r. reflexivity.
Qed.

End LinkNeverUp.

(** ** Session bring-up that is never acknowledged *)

(** The steps of the session bring-up that do not depend on what the
    transport reports: connect, poll slice, teardown and the delays. *)
Definition is_session_try (a : action) : bool :=
  match a with
  | MqttConnect | MqttDisconnect | ZsockPoll _ => true
  | KSleep ms => (ms =? 500) || (ms =? 2000)
  | _ => false
  end.

(** One slice of the wait for the acknowledgment, and one whole attempt
    whose connect request was accepted. *)
Definition session_slice : list action := [ZsockPoll 500; KSleep 500].

Definition session_try : list action :=
  [MqttConnect] ++ concat (repeat session_slice 10) ++ [MqttDisconnect; KSleep 2000].

(** The transport accepts every connect request and hands out a socket. *)
Definition session_opens (env : oracle) : Prop :=
  forall n, x_ret (env n MqttConnect) = 0 /\ 0 <= x_out (env n MqttConnect).

Lemma handle_mqtt_sock (e : event) (s : state) :
  mqtt_sock (handle e s) = mqtt_sock s.
Proof.
  destruct e as [[status| |]|[|]|[result| |id|]]; simpl; try reflexivity.
  - destruct (status =? 0); reflexivity.
  - destruct (negb (result =? 0)); reflexivity.
Qed.

Lemma deliver_mqtt_sock (evs : list event) (s : state) :
  mqtt_sock (deliver evs s) = mqtt_sock s.
Proof.
  revert s. induction evs as [|e evs IH]; intros s; [reflexivity|].
  simpl. rewrite IH. apply handle_mqtt_sock.
Qed.

Section SessionNeverUp.
Context `{Platform} (env : oracle).
Hypothesis no_ack : never session_ack env.

Lemma deliver_disconnected (n : nat) (a : action) (s : state) :
  mqtt_connected s = false ->
  mqtt_connected (deliver (x_evs (env n a)) s) = false.
Proof.
  pose proof (no_ack n a) as Hn. revert s Hn.
  induction (x_evs (env n a)) as [|e evs IH]; intros s Hn Hs; [exact Hs|].
  simpl. apply IH; [intros e' H'; apply Hn; right; exact H'|].
  apply handle_disconnected; [apply Hn; left; reflexivity|exact Hs].
Qed.

(** Unacknowledged, the wait runs through all its slices. *)
Lemma tb_poll_loop_times_out (n fuel : nat) (timeout : Z) (w : world) :
  timeout = 500 * Z.of_nat n ->
  (n <= fuel)%nat ->
  mqtt_connected (globals w) = false ->
  returns env (tb_poll_loop fuel timeout)
    (fun r w' =>
       r = false /\
       mqtt_connected (globals w') = false /\
       mqtt_sock (globals w') = mqtt_sock (globals w) /\
       List.filter is_session_try (trace w') =
         List.filter is_session_try (trace w) ++ concat (repeat session_slice n)) w.
Proof.
  revert fuel timeout w. unfold returns.
  induction n as [|n IH]; intros fuel timeout w Ht Hf Hc.
  - subst timeout. destruct fuel; simpl tb_poll_loop; apply wp_ret;
      (repeat split; [exact Hc|simpl; rewrite app_nil_r; reflexivity]).
  - destruct fuel as [|fuel]; [lia|]. simpl tb_poll_loop.
    destruct (0 <? timeout) eqn:Hlt; [|apply Z.ltb_ge in Hlt; lia].
    apply wp_bind, wp_call.
    set (w1 := after env (ZsockPoll 500) 0 w).
    assert (H1 : mqtt_connected (globals w1) = false /\
                 mqtt_sock (globals w1) = mqtt_sock (globals w) /\
                 List.filter is_session_try (trace w1) =
                   List.filter is_session_try (trace w) ++ [ZsockPoll 500]).
    { unfold w1. cbn [globals trace after]. split; [|split].
      - apply deliver_disconnected, Hc.
      - apply deliver_mqtt_sock.
      - rewrite List.filter_app. reflexivity. }
    clearbody w1. destruct H1 as (Hc1 & Hs1 & Hf1).
    assert (Hrest : forall w2,
               mqtt_connected (globals w2) = false ->
               mqtt_sock (globals w2) = mqtt_sock (globals w) ->
               List.filter is_session_try (trace w2) =
                 List.filter is_session_try (trace w) ++ [ZsockPoll 500] ->
               wp env
                 (s ← get_state;
                  if mqtt_connected s
                  then log "ThingsBoard connected successfully" [];; mret true
                  else k_msleep 500;; tb_poll_loop fuel (timeout - 500))
                 (fun r w' =>
                    r = false /\
                    mqtt_connected (globals w') = false /\
                    mqtt_sock (globals w') = mqtt_sock (globals w) /\
                    List.filter is_session_try (trace w') =
                      List.filter is_session_try (trace w) ++
                      concat (repeat session_slice (S n)))
                 (fun _ _ => False) w2).
    { intros w2 Hc2 Hs2 Hf2. apply wp_bind, wp_get_state. rewrite Hc2.
      apply wp_bind, wp_k_msleep.
      eapply wp_mono; [apply (IH fuel (timeout - 500)); [lia|lia|]| |auto].
      - cbn [globals after]. apply deliver_disconnected, Hc2.
      - intros r w' (-> & Hc' & Hs' & Hf'). repeat split; [exact Hc'| |].
        + rewrite Hs'. cbn [globals after]. rewrite deliver_mqtt_sock. exact Hs2.
        + rewrite Hf'. cbn [trace after]. rewrite List.filter_app, Hf2.
          simpl. rewrite <- !app_assoc. reflexivity. }
    destruct ((0 <? x_ret _) && negb (Z.land (x_out _) ZSOCK_POLLIN =? 0)).
    + apply wp_bind, wp_bind, wp_call, wp_ret. apply Hrest.
      * cbn [globals after]. apply deliver_disconnected, Hc1.
      * cbn [globals after]. rewrite deliver_mqtt_sock. exact Hs1.
      * cbn [trace after]. rewrite List.filter_app, Hf1. simpl.
        rewrite app_nil_r. reflexivity.
    + apply wp_bind, wp_ret. apply Hrest; assumption.
Qed.

Lemma repeat_session_S (n : Z) :
  0 < n ->
  concat (repeat session_try (Z.to_nat n)) =
  session_try ++ concat (repeat session_try (Z.to_nat (n - 1))).
Proof.
  intros Hn. replace (Z.to_nat n) with (S (Z.to_nat (n - 1))) by lia. reflexivity.
Qed.

Hypothesis opens : session_opens env.

(** Every attempt is the accepted connect request, ten slices, the
    teardown and the 2 s delay; after the fifth the loop gives up. *)
Lemma tb_connect_loop_exhausts (fuel : nat) (retry : Z) (w : world) :
  0 <= retry <= 5 ->
  5 - retry <= Z.of_nat fuel ->
  mqtt_connected (globals w) = false ->
  returns env (tb_connect_loop fuel retry)
    (fun r w' =>
       r = - ECONNREFUSED /\
       mqtt_connected (globals w') = false /\
       List.filter is_session_try (trace w') =
         List.filter is_session_try (trace w) ++
         concat (repeat session_try (Z.to_nat (5 - retry)))) w.
Proof.
  revert retry w. unfold returns.
  induction fuel as [|fuel IH]; intros retry w Hr Hf Hc; simpl tb_connect_loop;
    (destruct (retry <? 5) eqn:Hlt;
     [apply Z.ltb_lt in Hlt|apply Z.ltb_ge in Hlt]); try lia.
  - apply wp_bind, wp_log, wp_ret. cbn [trace globals].
    split; [reflexivity|]. split; [exact Hc|].
    replace (5 - retry) with 0 by lia.
    rewrite List.filter_app. simpl. rewrite !app_nil_r. reflexivity.
  - destruct (opens (pos w)) as [Hret Hsock].
    apply wp_bind, wp_call. rewrite Hret.
    apply wp_bind, wp_modify. cbn [Z.eqb negb].
    eapply wp_returns_bind.
    { apply (tb_poll_loop_times_out 10 10 5000); [reflexivity|lia|].
      cbn [globals after]. unfold set_mqtt_sock. cbn [mqtt_connected].
      apply deliver_disconnected, Hc. }
    intros r w1 (-> & Hc1 & Hs1 & Hf1).
    cbn [globals after trace] in Hs1, Hf1.
    unfold set_mqtt_sock in Hs1. cbn [mqtt_sock] in Hs1.
    apply wp_bind, wp_get_state. rewrite Hs1.
    destruct (0 <=? x_out (env (pos w) MqttConnect)) eqn:Hge;
      [|apply Z.leb_gt in Hge; lia].
    apply wp_bind, wp_bind, wp_call, wp_modify.
    apply wp_bind, wp_log, wp_bind, wp_k_msleep.
    eapply wp_mono; [apply (IH (retry + 1)); [lia|lia|]| |auto].
    + cbn [globals after]. apply deliver_disconnected.
      unfold set_mqtt_sock. cbn [mqtt_connected].
      apply deliver_disconnected, Hc1.
    + intros r w' (-> & Hc' & Hf'). split; [reflexivity|]. split; [exact Hc'|].
      rewrite Hf'. cbn [trace after]. rewrite !List.filter_app, Hf1.
      rewrite List.filter_app.
      rewrite (repeat_session_S (5 - retry)) by lia.
      replace (5 - (retry + 1)) with (5 - retry - 1) by lia.
      simpl. rewrite <- !app_assoc. simpl. reflexivity.
  - apply wp_bind, wp_log, wp_ret. cbn [trace globals].
    split; [reflexivity|]. split; [exact Hc|].
    replace (5 - retry) with 0 by lia.
    rewrite List.filter_app. simpl. rewrite !app_nil_r. reflexivity.
Qed.

Lemma thingsboard_connect_exhausts (w : world) :
  mqtt_connected (globals w) = false ->
  returns env thingsboard_connect
    (fun r w' =>
       r = - ECONNREFUSED /\
       mqtt_connected (globals w') = false /\
       List.filter is_session_try (trace w') =
         List.filter is_session_try (trace w) ++ concat (repeat session_try 5)) w.
Proof.
  intros Hc. unfold thingsboard_connect, prepare_mqtt_client, returns.
  apply wp_bind, wp_log, wp_bind, wp_bind, wp_call, wp_bind, wp_call, wp_modify.
  eapply wp_mono; [apply (tb_connect_loop_exhausts 5 0); [lia|lia|]| |auto].
  - cbn [globals after]. unfold set_mqtt_sock. cbn [mqtt_connected].
    apply deliver_disconnected, deliver_disconnected, Hc.
  - intros r w' (-> & Hc' & Hf'). split; [reflexivity|]. split; [exact Hc'|].
    rewrite Hf'. cbn [trace after]. rewrite !List.filter_app. simpl.
    rewrite !app_nil_r. reflexivity.
Qed.

End SessionNeverUp.

(** ** A meter transaction always runs to its end *)

(** The request as it leaves on the serial line. *)
Definition poll_request : list action :=
  map UartPollOut [1; 3; 0; 1; 0; 38; 0x95; 0xD0].

(** What a pass of the data loop needs of its fuel and arrays. *)
Definition good_iter (it : iter_in) : Prop :=
  (400 <= it_fuel it)%nat /\
  length (it_tx_stack it) = 8%nat /\
  Z.of_nat (length (it_rx_stack it)) = MODBUS_RX_BUFFER /\
  Forall is_u8 (it_rx_stack it).

Lemma wp_fp_strict_bind {A B} md (env : oracle) (P : action -> Prop)
    (m : prog A) (k : A -> prog B) (Q : B -> world -> Prop) E (w : world) :
  fp md env true P m ->
  (forall a w1, footprint md env P w w1 -> wp env (k a) Q E w1) ->
  wp env (m ≫= k) Q E w.
Proof.
  intros Hm Hk. apply wp_bind. specialize (Hm w). unfold wp in *.
  destruct (m env w) as [a w1|e w1]; [apply Hk, Hm|].
  destruct Hm as [Hd _]. discriminate.
Qed.

Lemma quiet_filter md (env : oracle) (w w' : world) :
  footprint md env quiet w w' ->
  List.filter is_uart_out (trace w') = List.filter is_uart_out (trace w).
Proof.
  intros Hf. apply (footprint_filter env md quiet); [|exact Hf].
  intros a [_ Ha]. exact Ha.
Qed.

Section TransactionEnds.
Context (env : oracle) (D : Z).
Hypothesis env_timely : timely D env.
Hypothesis D_small : 2 * D + 2005 < 4294967296.

Lemma read_meter_data_sends (fuel : nat) (tx_stack rx_stack : list Z) (w : world) :
  (400 <= fuel)%nat ->
  length tx_stack = 8%nat ->
  Z.of_nat (length rx_stack) = MODBUS_RX_BUFFER ->
  Forall is_u8 rx_stack ->
  returns env (read_meter_data fuel tx_stack rx_stack)
    (fun _ w' =>
       List.filter is_uart_out (trace w') =
         List.filter is_uart_out (trace w) ++ poll_request) w.
Proof.
  intros Hfuel Htx Hrx Hu8. unfold read_meter_data, returns.
  pose proof (D_nonneg env D env_timely) as HD0.
  eapply wp_fp_strict_bind; [apply (fp_switch_to_modbus false env true)|intros _ w1 F1].
  apply quiet_filter in F1.
  rewrite (request_frame _ Htx).
  apply wp_bind, wp_mem_some.
  eapply wp_returns_bind; [apply (uart_send_run env _ 8 0); simpl; lia|].
  intros _ w2 [_ Ht2].
  apply wp_bind, wp_k_msleep, wp_bind, wp_uptime.
  set (w3 := after env (KSleep 100) 100 w2).
  assert (H3 : List.filter is_uart_out (trace w3) =
               List.filter is_uart_out (trace w) ++ poll_request).
  { unfold w3. cbn [trace after]. rewrite Ht2, !List.filter_app, F1.
    simpl. rewrite app_nil_r. reflexivity. }
  clearbody w3. clear Ht2 F1.
  assert (Hb : 0 <= 0 < MODBUS_RX_BUFFER) by (unfold MODBUS_RX_BUFFER; lia).
  eapply wp_returns_bind.
  { unfold returns. eapply wp_mono;
      [apply wp_conj;
       [apply (rx_loop_deadline env D env_timely D_small (now w3) fuel (now w3)
                 {| rx_buf := rx_stack; rx_len := 0; last_byte := u32 (now w3) |} w3
                 Hrx Hb ltac:(lia) eq_refl ltac:(cbn [rx_len]; lia)
                 ltac:(lia) ltac:(lia))
       |apply wp_conj;
        [apply (rx_loop_bounds env fuel (u32 (now w3))
                  {| rx_buf := rx_stack; rx_len := 0; last_byte := u32 (now w3) |} w3
                  Hrx Hb Hu8)
        |apply (fp_rx_loop false env)]]
      |intros l w' HQ; exact HQ
      |intros e w' [[] _]]. }
  intros l w4 (_ & (Hl1 & Hl2 & Hl3) & F4). apply quiet_filter in F4.
  eapply wp_fp_strict_bind; [apply (fp_switch_to_console false env true)|intros _ w5 F5].
  apply quiet_filter in F5.
  pose proof (fp_parse_response env false (rx_buf l) (rx_len l) eq_refl w5) as F6.
  unfold wp in F6 |- *.
  rewrite parse_response_run in F6 |- * by assumption.
  apply quiet_filter in F6. rewrite F6, F5, F4. exact H3.
Qed.

End TransactionEnds.

(** ** The data loop without a session *)

Section AcquisitionOnly.
Context `{Platform} (env : oracle) (D : Z).
Hypothesis no_ack : never session_ack env.
Hypothesis env_timely : timely D env.
Hypothesis D_small : 2 * D + 2005 < 4294967296.

(** Not ready, with the bytes written to the serial line so far. *)
Definition polling (out : list action) (w : world) : Prop :=
  mqtt_connected (globals w) = false /\
  List.filter is_uart_out (trace w) = out.

Lemma polling_footprint md (out : list action) (w w' : world) :
  footprint md env quiet w w' -> polling out w -> polling out w'.
Proof.
  intros Hf [Hc Ho]. split.
  - exact (touch_disconnected env md _ _ no_ack (proj1 Hf) Hc).
  - rewrite (quiet_filter md env w w' Hf). exact Ho.
Qed.

(** One pass without a session: the request goes out once, and the pass
    ends in its 30 s wait. *)
Lemma main_iter_polls (out : list action) (it : iter_in) (w : world) :
  good_iter it ->
  polling out w ->
  returns env (main_iter (it_fuel it) (it_tx_stack it) (it_rx_stack it))
    (fun _ w' => polling (out ++ poll_request) w') w.
Proof.
  intros (Hfuel & Htx & Hrx & Hu8) Hp. unfold main_iter, returns.
  apply wp_bind, wp_modify.
  eapply wp_fp_strict_bind;
    [eapply fp_mono; [apply background_quiet|apply (fp_reconnect_if_needed false env true)]|].
  intros _ w1 F1.
  assert (Hp1 : polling out w1).
  { apply (polling_footprint false out _ w1 F1). exact Hp. }
  clear F1. apply wp_bind, wp_log.
  eapply wp_returns_bind.
  { unfold returns. eapply wp_mono;
      [apply wp_conj;
       [apply (read_meter_data_sends env D env_timely D_small
                 (it_fuel it) (it_tx_stack it) (it_rx_stack it) _ Hfuel Htx Hrx Hu8)
       |apply (fp_read_meter_data env (it_fuel it) (it_tx_stack it) (it_rx_stack it))]
      |intros r w' HQ; exact HQ
      |intros e w' [[] _]]. }
  intros ret w2' [Ho2 F2]. cbn [trace] in Ho2.
  assert (Hp2 : polling (out ++ poll_request) w2').
  { destruct Hp1 as [Hc1 Ho1]. split.
    - refine (touch_disconnected env true _ _ no_ack (proj1 F2) _). exact Hc1.
    - rewrite Ho2, List.filter_app, Ho1. simpl. rewrite app_nil_r. reflexivity. }
  clear Ho2 F2 Hp1 Hp. revert Hp2. generalize w2'. clear w1 w.
  intros w2 [Hc2 Ho2].
  assert (Htail : forall w3,
             polling (out ++ poll_request) w3 ->
             wp env
               (s ← get_state;
                (if mqtt_connected s then mqtt_maintenance else mret tt);;
                log "Waiting %d seconds..." [LZ MODBUS_READ_INTERVAL_SEC];;
                k_msleep (MODBUS_READ_INTERVAL_SEC * 1000))
               (fun _ w' => polling (out ++ poll_request) w')
               (fun _ _ => False) w3).
  { intros w3 [Hc3 Ho3]. apply wp_bind, wp_get_state. rewrite Hc3.
    apply wp_bind, wp_ret, wp_bind, wp_log, wp_k_msleep. split.
    - cbn [globals after]. apply (deliver_disconnected env no_ack), Hc3.
    - cbn [trace after]. rewrite !List.filter_app, Ho3. simpl.
      rewrite !app_nil_r. reflexivity. }
  apply wp_bind, wp_get_state, wp_bind.
  destruct ((ret =? 0) && valid (meter_data (globals w2))).
  - apply wp_bind, wp_log, wp_bind, wp_get_state. cbn [globals].
    rewrite Hc2, andb_false_r.
    apply wp_bind, wp_ret, wp_bind, wp_get_state. cbn [globals]. rewrite Hc2.
    apply wp_log. apply Htail. split; [exact Hc2|].
    cbn [trace]. rewrite !List.filter_app, Ho2. simpl. rewrite !app_nil_r. reflexivity.
  - apply wp_log. apply Htail. split; [exact Hc2|].
    cbn [trace]. rewrite !List.filter_app, Ho2. simpl. rewrite !app_nil_r. reflexivity.
Qed.

Lemma main_loop_polls (out : list action) (its : list iter_in) (w : world) :
  Forall good_iter its ->
  polling out w ->
  returns env (main_loop its)
    (fun _ w' => polling (out ++ concat (repeat poll_request (length its))) w') w.
Proof.
  intros Hits. revert out w. unfold returns.
  induction Hits as [|it its Hit _ IH]; intros out w Hp.
  - apply wp_ret. simpl. rewrite app_nil_r. exact Hp.
  - cbn [main_loop]. eapply wp_returns_bind; [apply (main_iter_polls out it w Hit Hp)|].
    intros [] w1 Hp1. eapply wp_mono; [apply (IH _ w1 Hp1)| |auto].
    intros [] w' Hp'. cbn [length repeat concat]. rewrite app_assoc. exact Hp'.
Qed.

End AcquisitionOnly.

(** ** Start-up without a link *)

(** The ten attempts of one [wifi_connect], and the three rounds of them
    that [main] makes, 10 s apart. *)
Definition wifi_round : list action := concat (repeat wifi_try 10).

Definition startup_tries : list action :=
  wifi_round ++ [KSleep 10000] ++ wifi_round ++ [KSleep 10000] ++ wifi_round.

Definition fallback_logs : list action :=
  [Log "Failed to connect to WiFi after %d attempts" [LZ 3];
   Log "Continuing without WiFi connection - Modbus only mode" [];
   Log "System operational - Starting data loop" []].

Section StartupWithoutLink.
Context `{Platform} (env : oracle).
Hypothesis no_link : never link_up env.
Hypothesis has_iface : iface_present env.
Hypothesis ready : device_ready env.

Lemma main_wifi_loop_exhausts (w : world) :
  returns env (main_wifi_loop (Z.to_nat max_wifi_retries) 0 0)
    (fun r w' =>
       r = - ETIMEDOUT /\
       List.filter is_wifi_try (trace w') =
         List.filter is_wifi_try (trace w) ++ startup_tries) w.
Proof.
  unfold returns. change (Z.to_nat max_wifi_retries) with 3%nat.
  pose proof etimedout_nonzero as Hnz.
  cbn [main_wifi_loop]. change (0 <? max_wifi_retries) with true. cbn iota.
  eapply wp_returns_bind; [apply (wifi_connect_exhausts env no_link w has_iface)|].
  intros r w1 [-> H1]. rewrite Hnz.
  change (0 + 1 <? max_wifi_retries) with true. cbn iota.
  apply wp_bind, wp_bind, wp_log, wp_k_msleep.
  eapply wp_returns_bind; [apply (wifi_connect_exhausts env no_link _ has_iface)|].
  intros r w2 [-> H2]. rewrite Hnz.
  change (0 + 1 + 1 <? max_wifi_retries) with true. cbn iota.
  apply wp_bind, wp_bind, wp_log, wp_k_msleep.
  eapply wp_returns_bind; [apply (wifi_connect_exhausts env no_link _ has_iface)|].
  intros r w3 [-> H3]. rewrite Hnz.
  change (0 + 1 + 1 + 1 <? max_wifi_retries) with false. cbn iota.
  apply wp_bind, wp_ret, wp_ret. split; [reflexivity|].
  rewrite H3. cbn [trace after]. rewrite !List.filter_app, H2.
  cbn [trace after]. rewrite !List.filter_app, H1.
  unfold startup_tries, wifi_round, wifi_max_retries. simpl.
  rewrite <- !app_assoc. reflexivity.
Qed.

(** With no link, [main] does not return: it makes its three rounds,
    says that it goes on without the link, and reaches the data loop. *)
Lemma main_startup_falls_back (w : world) :
  returns env main_startup
    (fun r w' =>
       r = None /\
       List.filter is_wifi_try (trace w') =
         List.filter is_wifi_try (trace w) ++ startup_tries /\
       exists before, trace w' = before ++ fallback_logs) w.
Proof.
  unfold main_startup, returns.
  apply wp_bind, wp_k_msleep, wp_bind, wp_call_ret.
  pose proof (ready (pos (after env (KSleep 2000) 2000 w))) as Hr.
  apply Z.eqb_neq in Hr. rewrite Hr.
  apply wp_bind, wp_call.
  eapply wp_returns_bind; [apply main_wifi_loop_exhausts|].
  intros r w1 [-> H1]. rewrite etimedout_nonzero. cbn [negb].
  apply wp_bind, wp_bind, wp_log, wp_log, wp_bind, wp_log, wp_ret.
  split; [reflexivity|]. cbn [trace]. split.
  - rewrite !List.filter_app, H1. cbn [trace after].
    rewrite !List.filter_app. simpl. rewrite !app_nil_r. reflexivity.
  - exists (trace w1). rewrite <- !app_assoc. reflexivity.
Qed.

End StartupWithoutLink.

(** ** The shape of a meter transaction *)

Definition is_log (a : action) : bool :=
  match a with
  | Log _ _ => true
  | _ => false
  end.

(** What the receive loop does to the outside: it polls the serial line
    and sleeps 5 ms. *)
Definition rx_io (a : action) : Prop := a = UartPollIn \/ a = KSleep 5.

(** The received bytes as [parse_response] gets them. *)
Definition received (l : rx_locals) : list Z :=
  take (Z.to_nat (rx_len l)) (rx_buf l).

Lemma verdict_log_logs (v : verdict) (frame : list Z) :
  forallb is_log (verdict_log v frame) = true.
Proof. destruct v; reflexivity. Qed.

(** The loop only appends: relative to the locals [l0] it started from,
    the bytes below the old count are kept, and the buffer from the new
    count on still holds what it held. *)
Definition appended (l0 l : rx_locals) : Prop :=
  Z.of_nat (length (rx_buf l)) = MODBUS_RX_BUFFER /\
  rx_len l0 <= rx_len l <= MODBUS_RX_BUFFER /\
  take (Z.to_nat (rx_len l0)) (rx_buf l) = take (Z.to_nat (rx_len l0)) (rx_buf l0) /\
  drop (Z.to_nat (rx_len l)) (rx_buf l) = drop (Z.to_nat (rx_len l)) (rx_buf l0).

(** What the serial line delivers to [k] polls made at every second
    call position from [p] on (the loop polls, sleeps, polls, ...). *)
Fixpoint arrivals (env : oracle) (p : nat) (k : nat) : list Z :=
  match k with
  | O => []
  | S k' =>
      (if x_ret (env p UartPollIn) =? 0 then [u8 (x_out (env p UartPollIn))] else [])
      ++ arrivals env (p + 2) k'
  end.

Section AppendOnly.
Context (env : oracle).

Lemma appended_refl (l0 : rx_locals) :
  Z.of_nat (length (rx_buf l0)) = MODBUS_RX_BUFFER ->
  rx_len l0 <= MODBUS_RX_BUFFER ->
  appended l0 l0.
Proof. intros Hl Hr. repeat split; (assumption || lia). Qed.

Lemma appended_store (l0 l : rx_locals) (c t : Z) :
  0 <= rx_len l0 ->
  appended l0 l ->
  rx_len l < MODBUS_RX_BUFFER ->
  appended l0 {| rx_buf := <[Z.to_nat (rx_len l) := u8 c]> (rx_buf l);
                 rx_len := rx_len l + 1; last_byte := t |}.
Proof.
  intros H0 (Hlen & Hr & Htake & Hdrop) Hlt. unfold appended. cbn [rx_buf rx_len].
  split; [rewrite length_insert; exact Hlen|]. split; [lia|]. split.
  - rewrite take_insert. destruct (decide _); [lia|exact Htake].
  - replace (Z.to_nat (rx_len l + 1)) with (Z.to_nat (rx_len l) + 1)%nat by lia.
    rewrite drop_insert_lt by lia.
    rewrite <- !drop_drop, Hdrop. reflexivity.
Qed.

Lemma rx_loop_appends (fuel : nat) (start : Z) (l0 l : rx_locals) (w : world) :
  0 <= rx_len l0 ->
  appended l0 l ->
  rx_len l < MODBUS_RX_BUFFER ->
  wp env (rx_loop fuel start l)
     (fun l' _ => appended l0 l') (fun _ _ => True) w.
Proof.
  intros H0. revert l w. induction fuel as [|fuel IH]; intros l w Ha Hlt;
    rewrite rx_loop_unfold; apply wp_bind, wp_uptime;
    (destruct (u32 (u32 (now w) - start) <? 2000); [|apply wp_ret; exact Ha]).
  { exact I. }
  assert (Hidle : forall l1 w1,
             appended l0 l1 -> rx_len l1 < MODBUS_RX_BUFFER ->
             wp env
               (t2 ← k_uptime_get_32;
                if (3 <? rx_len l1) && (150 <? u32 (t2 - last_byte l1))
                then mret l1
                else k_msleep 5;; rx_loop fuel start l1)
               (fun l' _ => appended l0 l') (fun _ _ => True) w1).
  { intros l1 w1 H1 H2. apply wp_bind, wp_uptime.
    destruct (_ && _).
    - apply wp_ret. exact H1.
    - apply wp_bind, wp_k_msleep. apply IH; assumption. }
  cbv zeta. apply wp_bind. unfold call. apply wp_outside.
  destruct (x_ret (env (pos w) UartPollIn) =? 0); [|apply Hidle; assumption].
  pose proof Ha as (Hlen & Hr & _).
  rewrite store_in_range by lia.
  apply wp_bind, wp_mem_some, wp_bind, wp_uptime. cbv zeta.
  match goal with
  | |- wp _ (if _ <=? u32 (rx_len ?r) then _ else _) _ _ _ => set (l1 := r)
  end.
  assert (Ha1 : appended l0 l1) by (apply appended_store; assumption).
  assert (Hr' : rx_len l1 = rx_len l + 1) by reflexivity.
  rewrite (u32_id (rx_len l1)) by (unfold is_u32, MODBUS_RX_BUFFER in *; lia).
  destruct (MODBUS_RX_BUFFER <=? rx_len l1) eqn:Hfull.
  - apply wp_ret. exact Ha1.
  - apply Z.leb_gt in Hfull. apply Hidle; (assumption || lia).
Qed.

Lemma received_store (l : rx_locals) (c t : Z) :
  Z.of_nat (length (rx_buf l)) = MODBUS_RX_BUFFER ->
  0 <= rx_len l < MODBUS_RX_BUFFER ->
  received {| rx_buf := <[Z.to_nat (rx_len l) := u8 c]> (rx_buf l);
              rx_len := rx_len l + 1; last_byte := t |} =
  received l ++ [u8 c].
Proof.
  intros Hlen Hr. unfold received. cbn [rx_buf rx_len].
  replace (Z.to_nat (rx_len l + 1)) with (S (Z.to_nat (rx_len l))) by lia.
  rewrite (take_S_r _ _ (u8 c)) by (apply list_lookup_insert_eq; lia).
  rewrite take_insert. destruct (decide _); [lia|reflexivity].
Qed.

(** The received bytes are the bytes the serial line delivered, in the
    order of the polls, none lost and none repeated. *)
Lemma rx_loop_collects (fuel : nat) (start : Z) (l : rx_locals) (w : world) :
  Z.of_nat (length (rx_buf l)) = MODBUS_RX_BUFFER ->
  0 <= rx_len l < MODBUS_RX_BUFFER ->
  wp env (rx_loop fuel start l)
     (fun l' _ => exists k, received l' = received l ++ arrivals env (pos w) k)
     (fun _ _ => True) w.
Proof.
  revert l w. induction fuel as [|fuel IH]; intros l w Hlen Hr;
    rewrite rx_loop_unfold; apply wp_bind, wp_uptime;
    (destruct (u32 (u32 (now w) - start) <? 2000);
     [|apply wp_ret; exists 0%nat; simpl; rewrite app_nil_r; reflexivity]).
  { exact I. }
  cbv zeta. apply wp_bind. unfold call. apply wp_outside.
  assert (Hidle : forall l1,
             Z.of_nat (length (rx_buf l1)) = MODBUS_RX_BUFFER ->
             0 <= rx_len l1 < MODBUS_RX_BUFFER ->
             received l1 = received l ++ arrivals env (pos w) 1 ->
             wp env
               (t2 ← k_uptime_get_32;
                if (3 <? rx_len l1) && (150 <? u32 (t2 - last_byte l1))
                then mret l1
                else k_msleep 5;; rx_loop fuel start l1)
               (fun l' _ => exists k, received l' = received l ++ arrivals env (pos w) k)
               (fun _ _ => True) (after env UartPollIn 0 w)).
  { intros l1 H1 H2 H3. apply wp_bind, wp_uptime.
    destruct (_ && _).
    - apply wp_ret. exists 1%nat. exact H3.
    - apply wp_bind, wp_k_msleep.
      eapply wp_mono; [apply IH; assumption| |auto].
      intros l' w' [k Hk]. exists (S k). rewrite Hk, H3.
      cbn [pos after arrivals]. rewrite app_nil_r, <- !app_assoc.
      replace (S (S (pos w))) with (pos w + 2)%nat by lia. reflexivity. }
  destruct (x_ret (env (pos w) UartPollIn) =? 0) eqn:Hret.
  2:{ apply Hidle; [assumption|assumption|].
      cbn [arrivals]. rewrite Hret. simpl. rewrite app_nil_r. reflexivity. }
  rewrite store_in_range by lia.
  apply wp_bind, wp_mem_some, wp_bind, wp_uptime. cbv zeta.
  match goal with
  | |- wp _ (if _ <=? u32 (rx_len ?r) then _ else _) _ _ _ => set (l1 := r)
  end.
  assert (Hrec : received l1 = received l ++ arrivals env (pos w) 1).
  { unfold l1. rewrite received_store by assumption.
    cbn [arrivals]. rewrite Hret. simpl. reflexivity. }
  assert (Hl1 : Z.of_nat (length (rx_buf l1)) = MODBUS_RX_BUFFER).
  { unfold l1. cbn [rx_buf]. rewrite length_insert. exact Hlen. }
  assert (Hr' : rx_len l1 = rx_len l + 1) by reflexivity.
  rewrite (u32_id (rx_len l1)) by (unfold is_u32, MODBUS_RX_BUFFER in *; lia).
  destruct (MODBUS_RX_BUFFER <=? rx_len l1) eqn:Hfull.
  - apply wp_ret. exists 1%nat. exact Hrec.
  - apply Z.leb_gt in Hfull. apply Hidle; (assumption || lia).
Qed.

Lemma uart_send_pos (tx_buf : list Z) (n : nat) (i : nat) (w : world) :
  (i + n <= length tx_buf)%nat ->
  returns env (uart_send tx_buf (Z.of_nat i) n)
    (fun _ w' => pos w' = (pos w + n)%nat) w.
Proof.
  revert i w. unfold returns. induction n as [|n IH]; intros i w Hn.
  - apply wp_ret. lia.
  - simpl uart_send. rewrite load_lookup.
    destruct (lookup_lt_is_Some_2 tx_buf i) as [b Hb]; [lia|]. rewrite Hb.
    apply wp_bind, wp_mem_some, wp_bind. unfold call. apply wp_outside.
    replace (Z.of_nat i + 1) with (Z.of_nat (S i)) by lia.
    eapply wp_mono; [apply IH; lia| |auto].
    intros [] w' Hp. rewrite Hp. cbn [pos after]. lia.
Qed.

End AppendOnly.

Section TransactionShape.
Context (env : oracle) (D : Z).
Hypothesis env_timely : timely D env.
Hypothesis D_small : 2 * D + 2005 < 4294967296.

Lemma fp_rx_loop_io (fuel : nat) (start : Z) (l : rx_locals) :
  fp false env false rx_io (rx_loop fuel start l).
Proof.
  revert l. induction fuel as [|fuel IH]; intros l; simpl; fp_auto;
    first [apply IH | apply fp_call; left; reflexivity
          | apply fp_k_msleep; right; reflexivity].
Qed.

Lemma deliver_meter_data (evs : list event) (s : state) :
  meter_data (deliver evs s) = meter_data s.
Proof.
  revert s. induction evs as [|e evs IH]; intros s; [reflexivity|].
  simpl. rewrite IH. apply handle_meter_data.
Qed.

(** A whole transaction: the line is configured for the bus, the request
    goes out, the reply is collected, the console configuration is
    restored, and only then one line is logged; the verdict on the
    received bytes decides the result and the new reading. *)
Lemma read_meter_data_transaction (fuel : nat) (tx_stack rx_stack : list Z)
    (w : world) :
  (400 <= fuel)%nat ->
  length tx_stack = 8%nat ->
  Z.of_nat (length rx_stack) = MODBUS_RX_BUFFER ->
  Forall is_u8 rx_stack ->
  returns env (read_meter_data fuel tx_stack rx_stack)
    (fun r w' =>
       exists (l : rx_locals) (rxio : list action),
         (Z.of_nat (length (rx_buf l)) = MODBUS_RX_BUFFER /\
          0 <= rx_len l <= MODBUS_RX_BUFFER) /\
         drop (Z.to_nat (rx_len l)) (rx_buf l) = drop (Z.to_nat (rx_len l)) rx_stack /\
         (exists k, received l = arrivals env (pos w + 10) k) /\
         Forall rx_io rxio /\
         trace w' =
           trace w ++ [UartConfigure ModbusCfg] ++ poll_request ++ [KSleep 100] ++
           rxio ++ [UartConfigure OriginalCfg; KSleep 10] ++
           verdict_log (validate (received l)) (received l) /\
         r = match validate (received l) with Accepted => 0 | _ => -1 end /\
         meter_data (globals w') =
           match validate (received l) with
           | Accepted => decode (drop 3 (rx_buf l))
           | _ => set_valid false (meter_data (globals w))
           end) w.
Proof.
  intros Hfuel Htx Hrx Hu8. unfold read_meter_data, returns, switch_to_modbus.
  pose proof (D_nonneg env D env_timely) as HD0.
  apply wp_bind, wp_bind, wp_call, wp_ret.
  rewrite (request_frame _ Htx).
  apply wp_bind, wp_mem_some.
  eapply wp_returns_bind.
  { unfold returns. eapply wp_mono;
      [apply wp_conj;
       [apply (uart_send_run env _ 8 0); simpl; lia
       |apply (uart_send_pos env _ 8 0); simpl; lia]
      |intros a w' HQ; exact HQ
      |intros e w' [[] _]]. }
  intros [] w2 [[Hg2 Ht2] Hp2]. cbn [trace globals pos after] in Hg2, Ht2, Hp2.
  apply (touch_meter_data env) in Hg2. rewrite deliver_meter_data in Hg2.
  apply wp_bind, wp_k_msleep, wp_bind, wp_uptime.
  set (w3 := after env (KSleep 100) 100 w2).
  assert (H3 : trace w3 =
               trace w ++ [UartConfigure ModbusCfg] ++ poll_request ++ [KSleep 100]).
  { unfold w3. cbn [trace after]. rewrite Ht2, <- !app_assoc. reflexivity. }
  assert (G3 : meter_data (globals w3) = meter_data (globals w)).
  { unfold w3. cbn [globals after]. rewrite deliver_meter_data. exact Hg2. }
  assert (P3 : pos w3 = (pos w + 10)%nat).
  { unfold w3. cbn [pos after]. lia. }
  clearbody w3. clear Ht2 Hg2 Hp2.
  assert (Hb : 0 <= 0 < MODBUS_RX_BUFFER) by (unfold MODBUS_RX_BUFFER; lia).
  assert (Happ0 : appended
                    {| rx_buf := rx_stack; rx_len := 0; last_byte := u32 (now w3) |}
                    {| rx_buf := rx_stack; rx_len := 0; last_byte := u32 (now w3) |}).
  { apply appended_refl; cbn [rx_buf rx_len];
      [exact Hrx|unfold MODBUS_RX_BUFFER; lia]. }
  eapply wp_returns_bind.
  { unfold returns. eapply wp_mono;
      [apply wp_conj;
       [apply (rx_loop_deadline env D env_timely D_small (now w3) fuel (now w3)
                 {| rx_buf := rx_stack; rx_len := 0; last_byte := u32 (now w3) |} w3
                 Hrx Hb ltac:(lia) eq_refl ltac:(cbn [rx_len]; lia)
                 ltac:(lia) ltac:(lia))
       |apply wp_conj;
        [apply (rx_loop_bounds env fuel (u32 (now w3))
                  {| rx_buf := rx_stack; rx_len := 0; last_byte := u32 (now w3) |} w3
                  Hrx Hb Hu8)
        |apply wp_conj;
         [apply fp_rx_loop_io
         |apply wp_conj;
          [apply (rx_loop_appends env fuel (u32 (now w3))
                    {| rx_buf := rx_stack; rx_len := 0; last_byte := u32 (now w3) |}
                    {| rx_buf := rx_stack; rx_len := 0; last_byte := u32 (now w3) |} w3
                    ltac:(cbn [rx_len]; lia) Happ0
                    ltac:(cbn [rx_len]; unfold MODBUS_RX_BUFFER; lia))
          |apply (rx_loop_collects env fuel (u32 (now w3))
                    {| rx_buf := rx_stack; rx_len := 0; last_byte := u32 (now w3) |} w3
                    Hrx Hb)]]]]
      |intros l w' HQ; exact HQ
      |intros e w' [[] _]]. }
  intros l w4 (_ & (Hl1 & Hl2 & Hl3) & (G4 & rxio & T4 & Hio) &
               (_ & _ & _ & Hdrop) & (k & Hk)).
  cbn [rx_buf rx_len] in Hdrop. rewrite P3 in Hk.
  change (received {| rx_buf := rx_stack; rx_len := 0;
                      last_byte := u32 (now w3) |}) with (@nil Z) in Hk.
  cbn [app] in Hk.
  apply (touch_meter_data env) in G4.
  unfold switch_to_console.
  apply wp_bind, wp_bind, wp_call, wp_k_msleep.
  unfold wp. rewrite parse_response_run by assumption.
  exists l, rxio. split; [split; [exact Hl1|exact Hl2]|]. split; [exact Hdrop|].
  split; [exists k; exact Hk|]. split; [exact Hio|].
  cbn [trace globals after meter_data set_meter_data].
  rewrite !deliver_meter_data, G4, G3, T4, H3.
  split; [|split; reflexivity].
  unfold received. rewrite <- !app_assoc. reflexivity.
Qed.

End TransactionShape.

(** ** Link bring-up in any surroundings *)

Definition is_wifi_req (a : action) : bool :=
  match a with
  | NetMgmtWifiConnect => true
  | _ => false
  end.

(** Connect requests issued so far. *)
Definition wifi_reqs (w : world) : nat :=
  length (List.filter is_wifi_req (trace w)).

Definition addr_added (e : event) : bool :=
  match e with
  | Ipv4Evt NET_EVENT_IPV4_ADDR_ADD => true
  | _ => false
  end.

Ltac reqs_snoc :=
  unfold wifi_reqs in *; cbn [trace after];
  rewrite ?List.filter_app, ?length_app; simpl; lia.

Section LinkAnySurroundings.
Context `{Platform} (env : oracle).

Lemma enodev_nonzero : (- ENODEV =? 0) = false.
Proof. pose proof errno_positive. apply Z.eqb_neq. lia. Qed.

Lemma wp_k_sem_take_any (x : sem_id) (t : Z) (Q : Z -> world -> Prop) E (w : world) :
  (forall r w', trace w' = trace w ++ [KSemTake x t] -> Q r w') ->
  wp env (k_sem_take x t) Q E w.
Proof.
  intros HQ. unfold wp, k_sem_take.
  destruct (sem_try_take x (globals w)); [apply HQ; reflexivity|].
  destruct (deliver_waiting x false _ (globals w)). apply HQ. reflexivity.
Qed.

Lemma wifi_reqs_snoc (w w' : world) (a : action) :
  trace w' = trace w ++ [a] ->
  wifi_reqs w' = (wifi_reqs w + if is_wifi_req a then 1 else 0)%nat.
Proof.
  intros Ht. unfold wifi_reqs. rewrite Ht, List.filter_app, length_app.
  simpl. destruct (is_wifi_req a); reflexivity.
Qed.

(** The loop always ends, with success or the time-out error, after at
    most the attempts it has left. *)
Lemma wifi_connect_loop_outcomes (fuel : nat) (retry : Z) (w : world) :
  0 <= retry <= wifi_max_retries ->
  wifi_max_retries - retry <= Z.of_nat fuel ->
  returns env (wifi_connect_loop fuel retry)
    (fun r w' =>
       (r = 0 \/ r = - ETIMEDOUT) /\
       Z.of_nat (wifi_reqs w') <= Z.of_nat (wifi_reqs w) + (wifi_max_retries - retry)) w.
Proof.
  revert retry w. unfold returns.
  induction fuel as [|fuel IH]; intros retry w Hr Hf; simpl wifi_connect_loop;
    (destruct (retry <? wifi_max_retries) eqn:Hlt;
     [apply Z.ltb_lt in Hlt|apply Z.ltb_ge in Hlt]); try lia.
  - apply wp_bind, wp_log, wp_ret. split; [right; reflexivity|].
    reqs_snoc.
  - assert (Hnext : forall w1,
               Z.of_nat (wifi_reqs w1) <= Z.of_nat (wifi_reqs w) + 1 ->
               wp env (k_msleep 5000;; wifi_connect_loop fuel (retry + 1))
                  (fun r w' =>
                     (r = 0 \/ r = - ETIMEDOUT) /\
                     Z.of_nat (wifi_reqs w') <=
                       Z.of_nat (wifi_reqs w) + (wifi_max_retries - retry))
                  (fun _ _ => False) w1).
    { intros w1 H1. apply wp_bind, wp_k_msleep.
      eapply wp_mono; [apply (IH (retry + 1)); lia| |auto].
      intros r w' [Hr' Hc]. split; [exact Hr'|].
      unfold wifi_reqs in *. cbn [trace after] in Hc.
      rewrite List.filter_app, length_app in Hc. simpl in Hc. lia. }
    apply wp_bind, wp_log, wp_bind, wp_modify, wp_bind, wp_modify.
    apply wp_bind, wp_call_ret.
    match goal with |- wp _ _ _ _ ?w1 => set (wr := w1) end.
    assert (Hwr : wifi_reqs wr = (wifi_reqs w + 1)%nat).
    { unfold wr, wifi_reqs. cbn [trace after]. rewrite !List.filter_app, !length_app.
      simpl. lia. }
    clearbody wr.
    destruct (negb (x_ret (env _ NetMgmtWifiConnect) =? 0)).
    + apply wp_bind, wp_log. apply Hnext.
      reqs_snoc.
    + apply wp_bind, wp_k_sem_take_any. intros r1 w1 Ht1.
      pose proof (wifi_reqs_snoc wr w1 _ Ht1) as H1. simpl in H1.
      destruct (negb (r1 =? 0)).
      * apply wp_bind, wp_log. apply Hnext.
        reqs_snoc.
      * apply wp_bind, wp_k_sem_take_any. intros r2 w2 Ht2.
        pose proof (wifi_reqs_snoc w1 w2 _ Ht2) as H2. simpl in H2.
        destruct (negb (r2 =? 0)).
        -- apply wp_bind, wp_log. apply Hnext.
           reqs_snoc.
        -- apply wp_bind, wp_log, wp_ret. split; [left; reflexivity|].
           reqs_snoc.
  - apply wp_bind, wp_log, wp_ret. split; [right; reflexivity|].
    reqs_snoc.
Qed.

Lemma wifi_connect_outcomes (w : world) :
  returns env wifi_connect
    (fun r w' =>
       (r = 0 \/ r = - ENODEV \/ r = - ETIMEDOUT) /\
       (wifi_reqs w' <= wifi_reqs w + 10)%nat) w.
Proof.
  unfold wifi_connect, returns.
  apply wp_bind, wp_log, wp_bind, wp_call.
  destruct (x_out _ =? 0).
  - apply wp_bind, wp_log, wp_ret. split; [right; left; reflexivity|].
    unfold wifi_reqs. cbn [trace after]. rewrite !List.filter_app, !length_app.
    simpl. lia.
  - apply wp_bind, wp_call.
    eapply wp_mono; [apply (wifi_connect_loop_outcomes _ 0);
                     unfold wifi_max_retries; lia| |auto].
    intros r w' [Hr Hc]. split; [destruct Hr as [-> | ->]; auto|].
    unfold wifi_reqs in *. cbn [trace after] in Hc.
    rewrite !List.filter_app, !length_app in Hc. simpl in Hc.
    unfold wifi_max_retries in Hc. lia.
Qed.

(** The link result alone is not enough. *)
Lemma handle_no_addr (e : event) (s : state) :
  addr_added e = false -> ipv4_obtained s = 0 -> ipv4_obtained (handle e s) = 0.
Proof.
  destruct e as [[status| |]|[|]|[result| |id|]]; simpl; intros He Hs;
    try assumption; try reflexivity; try discriminate.
  - destruct (status =? 0); exact Hs.
  - destruct (negb (result =? 0)); exact Hs.
Qed.

Lemma deliver_no_addr (evs : list event) (s : state) :
  (forall e, In e evs -> addr_added e = false) ->
  ipv4_obtained s = 0 -> ipv4_obtained (deliver evs s) = 0.
Proof.
  revert s. induction evs as [|e evs IH]; intros s He Hs; [exact Hs|].
  simpl. apply IH; [intros e' H'; apply He; right; exact H'|].
  apply handle_no_addr; [apply He; left; reflexivity|exact Hs].
Qed.

Lemma deliver_waiting_wifi_no_addr (taken : bool) (evs : list event) (s : state) :
  (forall e, In e evs -> addr_added e = false) ->
  ipv4_obtained s = 0 ->
  ipv4_obtained (snd (deliver_waiting SemWifi taken evs s)) = 0.
Proof.
  revert taken s. induction evs as [|e evs IH]; intros taken s He Hs; [exact Hs|].
  assert (H0 : ipv4_obtained (handle e s) = 0).
  { apply handle_no_addr; [apply He; left; reflexivity|exact Hs]. }
  assert (He' : forall e', In e' evs -> addr_added e' = false).
  { intros e' H'. apply He. right. exact H'. }
  simpl. destruct taken; [apply IH; assumption|].
  unfold sem_try_take. cbn [sem_count set_sem_count].
  destruct (0 <? wifi_connected (handle e s)); apply IH; assumption.
Qed.

Lemma deliver_waiting_ipv4_no_addr (evs : list event) (s : state) :
  (forall e, In e evs -> addr_added e = false) ->
  ipv4_obtained s = 0 ->
  fst (deliver_waiting SemIpv4 false evs s) = false.
Proof.
  revert s. induction evs as [|e evs IH]; intros s He Hs; [reflexivity|].
  assert (H0 : ipv4_obtained (handle e s) = 0).
  { apply handle_no_addr; [apply He; left; reflexivity|exact Hs]. }
  simpl. unfold sem_try_take. cbn [sem_count]. rewrite H0. cbn [Z.ltb Z.compare].
  apply IH; [intros e' H'; apply He; right; exact H'|exact H0].
Qed.

Hypothesis no_addr : never addr_added env.

Lemma wp_k_sem_take_wifi_no_addr (t : Z) (Q : Z -> world -> Prop) E (w : world) :
  ipv4_obtained (globals w) = 0 ->
  (forall r w', ipv4_obtained (globals w') = 0 -> Q r w') ->
  wp env (k_sem_take SemWifi t) Q E w.
Proof.
  intros Hs HQ. unfold wp, k_sem_take, sem_try_take. cbn [sem_count set_sem_count].
  destruct (0 <? wifi_connected (globals w)); [apply HQ; exact Hs|].
  pose proof (deliver_waiting_wifi_no_addr false
                (x_evs (env (pos w) (KSemTake SemWifi t))) (globals w)
                (fun e He => no_addr _ _ _ He) Hs) as H1.
  destruct (deliver_waiting SemWifi false _ (globals w)) as [taken s'].
  apply HQ. exact H1.
Qed.

Lemma wp_k_sem_take_ipv4_timeout (t : Z) (Q : Z -> world -> Prop) E (w : world) :
  ipv4_obtained (globals w) = 0 ->
  (forall w', Q (- EAGAIN) w') ->
  wp env (k_sem_take SemIpv4 t) Q E w.
Proof.
  intros Hs HQ. unfold wp, k_sem_take, sem_try_take. cbn [sem_count].
  rewrite Hs. cbn [Z.ltb Z.compare].
  pose proof (deliver_waiting_ipv4_no_addr
                (x_evs (env (pos w) (KSemTake SemIpv4 t))) (globals w)
                (fun e He => no_addr _ _ _ He) Hs) as H1.
  destruct (deliver_waiting SemIpv4 false _ (globals w)) as [taken s'].
  simpl in H1. subst taken. apply HQ.
Qed.

Lemma wifi_connect_loop_needs_address (fuel : nat) (retry : Z) (w : world) :
  0 <= retry <= wifi_max_retries ->
  wifi_max_retries - retry <= Z.of_nat fuel ->
  returns env (wifi_connect_loop fuel retry) (fun r _ => r = - ETIMEDOUT) w.
Proof.
  revert retry w. unfold returns.
  induction fuel as [|fuel IH]; intros retry w Hr Hf; simpl wifi_connect_loop;
    (destruct (retry <? wifi_max_retries) eqn:Hlt;
     [apply Z.ltb_lt in Hlt|apply Z.ltb_ge in Hlt]); try lia.
  - apply wp_bind, wp_log, wp_ret. reflexivity.
  - assert (Hnext : forall w1,
               wp env (k_msleep 5000;; wifi_connect_loop fuel (retry + 1))
                  (fun r _ => r = - ETIMEDOUT) (fun _ _ => False) w1).
    { intros w1. apply wp_bind, wp_k_msleep. apply (IH (retry + 1)); lia. }
    apply wp_bind, wp_log, wp_bind, wp_modify, wp_bind, wp_modify.
    apply wp_bind, wp_call_ret.
    match goal with |- wp _ _ _ _ ?w1 => set (wr := w1) end.
    assert (Hs : ipv4_obtained (globals wr) = 0).
    { unfold wr. cbn [globals after]. apply deliver_no_addr; [|reflexivity].
      intros e He. exact (no_addr _ _ _ He). }
    clearbody wr.
    destruct (negb (x_ret (env _ NetMgmtWifiConnect) =? 0)).
    + apply wp_bind, wp_log. apply Hnext.
    + apply wp_bind, wp_k_sem_take_wifi_no_addr; [exact Hs|].
      intros r1 w1 Hs1. destruct (negb (r1 =? 0)).
      * apply wp_bind, wp_log. apply Hnext.
      * apply wp_bind, wp_k_sem_take_ipv4_timeout; [exact Hs1|].
        intros w2. rewrite eagain_nonzero. cbn [negb].
        apply wp_bind, wp_log. apply Hnext.
  - apply wp_bind, wp_log, wp_ret. reflexivity.
Qed.

End LinkAnySurroundings.

Section LinkNeedsBoth.
Context `{Platform} (env : oracle).

Lemma neg_errno_nonzero (e r : Z) : 0 < e -> r = - e -> r <> 0.
Proof. lia. Qed.

Lemma wifi_connect_needs_link (w : world) :
  never link_up env ->
  returns env wifi_connect (fun r _ => r <> 0) w.
Proof.
  intros Hn. unfold wifi_connect, returns. pose proof errno_positive as Hp.
  apply wp_bind, wp_log, wp_bind, wp_call.
  destruct (x_out _ =? 0).
  - apply wp_bind, wp_log, wp_ret. lia.
  - apply wp_bind, wp_call.
    eapply wp_mono; [apply (wifi_connect_loop_exhausts env Hn _ 0);
                     unfold wifi_max_retries; lia| |auto].
    intros r w' [-> _]. lia.
Qed.

Lemma wifi_connect_needs_address (w : world) :
  never addr_added env ->
  returns env wifi_connect (fun r _ => r <> 0) w.
Proof.
  intros Hn. unfold wifi_connect, returns. pose proof errno_positive as Hp.
  apply wp_bind, wp_log, wp_bind, wp_call.
  destruct (x_out _ =? 0).
  - apply wp_bind, wp_log, wp_ret. lia.
  - apply wp_bind, wp_call.
    eapply wp_mono; [apply (wifi_connect_loop_needs_address env Hn _ 0);
                     unfold wifi_max_retries; lia| |auto].
    intros r w' ->. lia.
Qed.

End LinkNeedsBoth.

(** ** Session bring-up in any surroundings *)

Definition is_session_req (a : action) : bool :=
  match a with
  | MqttConnect => true
  | _ => false
  end.

(** Session connect requests issued so far. *)
Definition session_reqs (w : world) : nat :=
  length (List.filter is_session_req (trace w)).

Ltac sess_snoc :=
  unfold session_reqs in *; cbn [trace after] in *;
  rewrite ?List.filter_app, ?length_app in *; simpl in *; lia.

Section SessionAnySurroundings.
Context `{Platform} (env : oracle).

(** The wait ends after the slices its budget pays for; it reports
    success only on seeing the readiness flag set. *)
Lemma tb_poll_loop_outcomes (n fuel : nat) (timeout : Z) (w : world) :
  timeout = 500 * Z.of_nat n ->
  (n <= fuel)%nat ->
  returns env (tb_poll_loop fuel timeout)
    (fun r w' =>
       (r = true -> mqtt_connected (globals w') = true) /\
       session_reqs w' = session_reqs w) w.
Proof.
  revert fuel timeout w. unfold returns.
  induction n as [|n IH]; intros fuel timeout w Ht Hf.
  - subst timeout. destruct fuel; simpl tb_poll_loop; apply wp_ret;
      (split; [discriminate|reflexivity]).
  - destruct fuel as [|fuel]; [lia|]. simpl tb_poll_loop.
    destruct (0 <? timeout) eqn:Hlt; [|apply Z.ltb_ge in Hlt; lia].
    apply wp_bind, wp_call.
    assert (Hrest : forall w2,
               session_reqs w2 = session_reqs w ->
               wp env
                 (s ← get_state;
                  if mqtt_connected s
                  then log "ThingsBoard connected successfully" [];; mret true
                  else k_msleep 500;; tb_poll_loop fuel (timeout - 500))
                 (fun r w' =>
                    (r = true -> mqtt_connected (globals w') = true) /\
                    session_reqs w' = session_reqs w)
                 (fun _ _ => False) w2).
    { intros w2 H2. apply wp_bind, wp_get_state.
      destruct (mqtt_connected (globals w2)) eqn:Hc.
      - apply wp_bind, wp_log, wp_ret. split; [intros _; exact Hc|]. sess_snoc.
      - apply wp_bind, wp_k_msleep.
        eapply wp_mono; [apply (IH fuel (timeout - 500)); lia| |auto].
        intros r w' [Hr Hs]. split; [exact Hr|]. sess_snoc. }
    destruct ((0 <? x_ret _) && negb (Z.land (x_out _) ZSOCK_POLLIN =? 0)).
    + apply wp_bind, wp_bind, wp_call, wp_ret. apply Hrest. sess_snoc.
    + apply wp_bind, wp_ret. apply Hrest. sess_snoc.
Qed.

Lemma tb_connect_loop_outcomes (fuel : nat) (retry : Z) (w : world) :
  0 <= retry <= 5 ->
  5 - retry <= Z.of_nat fuel ->
  returns env (tb_connect_loop fuel retry)
    (fun r w' =>
       ((r = 0 /\ mqtt_connected (globals w') = true) \/ r = - ECONNREFUSED) /\
       Z.of_nat (session_reqs w') <= Z.of_nat (session_reqs w) + (5 - retry)) w.
Proof.
  revert retry w. unfold returns.
  induction fuel as [|fuel IH]; intros retry w Hr Hf; simpl tb_connect_loop;
    (destruct (retry <? 5) eqn:Hlt;
     [apply Z.ltb_lt in Hlt|apply Z.ltb_ge in Hlt]); try lia.
  - apply wp_bind, wp_log, wp_ret. split; [right; reflexivity|]. sess_snoc.
  - assert (Hclean : forall w1,
               Z.of_nat (session_reqs w1) <= Z.of_nat (session_reqs w) + 1 ->
               wp env
                 (s ← get_state;
                  (if 0 <=? mqtt_sock s
                   then '(_, sock) ← call MqttDisconnect; modify (set_mqtt_sock sock)
                   else mret tt);;
                  log "Connection attempt %d failed, retrying..." [LZ (retry + 1)];;
                  k_msleep 2000;;
                  tb_connect_loop fuel (retry + 1))
                 (fun r w' =>
                    ((r = 0 /\ mqtt_connected (globals w') = true) \/
                     r = - ECONNREFUSED) /\
                    Z.of_nat (session_reqs w') <=
                      Z.of_nat (session_reqs w) + (5 - retry))
                 (fun _ _ => False) w1).
    { intros w1 H1. apply wp_bind, wp_get_state.
      assert (Hgo : forall w2,
                 Z.of_nat (session_reqs w2) <= Z.of_nat (session_reqs w) + 1 ->
                 wp env
                   (log "Connection attempt %d failed, retrying..." [LZ (retry + 1)];;
                    k_msleep 2000;;
                    tb_connect_loop fuel (retry + 1))
                   (fun r w' =>
                      ((r = 0 /\ mqtt_connected (globals w') = true) \/
                       r = - ECONNREFUSED) /\
                      Z.of_nat (session_reqs w') <=
                        Z.of_nat (session_reqs w) + (5 - retry))
                   (fun _ _ => False) w2).
      { intros w2 H2. apply wp_bind, wp_log, wp_bind, wp_k_msleep.
        eapply wp_mono; [apply (IH (retry + 1)); lia| |auto].
        intros r w' [Hr' Hc]. split; [exact Hr'|]. sess_snoc. }
      destruct (0 <=? mqtt_sock (globals w1)).
      - apply wp_bind, wp_bind, wp_call, wp_modify. apply Hgo. sess_snoc.
      - apply wp_bind, wp_ret. apply Hgo. exact H1. }
    apply wp_bind, wp_call, wp_bind, wp_modify.
    destruct (negb (x_ret _ =? 0)).
    + apply wp_bind, wp_log. apply Hclean. sess_snoc.
    + eapply wp_returns_bind;
        [apply (tb_poll_loop_outcomes 10 10 5000); [reflexivity|lia]|].
      intros r w1 [Hr1 Hs1]. destruct r.
      * apply wp_ret. split; [left; split; [reflexivity|apply Hr1; reflexivity]|].
        sess_snoc.
      * apply Hclean. sess_snoc.
  - apply wp_bind, wp_log, wp_ret. split; [right; reflexivity|]. sess_snoc.
Qed.

Lemma thingsboard_connect_outcomes (w : world) :
  returns env thingsboard_connect
    (fun r w' =>
       ((r = 0 /\ mqtt_connected (globals w') = true) \/ r = - ECONNREFUSED) /\
       (session_reqs w' <= session_reqs w + 5)%nat) w.
Proof.
  unfold thingsboard_connect, prepare_mqtt_client, returns.
  apply wp_bind, wp_log, wp_bind, wp_bind, wp_call, wp_bind, wp_call, wp_modify.
  eapply wp_mono; [apply (tb_connect_loop_outcomes 5 0); lia| |auto].
  intros r w' [Hr Hc]. split; [exact Hr|]. sess_snoc.
Qed.

End SessionAnySurroundings.

(** ** What a pass publishes *)

(** A published message carries the reading [m]: it is the telemetry
    text or the attributes text of [m] on its topic. *)
Definition pub_ok (m : meter_data_t) (a : action) : Prop :=
  match a with
  | MqttPublish topic payload _ =>
      (topic = TELEMETRY_TOPIC /\ payload = telemetry_payload m) \/
      (topic = ATTRIBUTES_TOPIC /\ payload = attributes_payload m)
  | _ => True
  end.

(** The trace [t'] extends [t] by actions that satisfy [P]. *)
Definition grows (P : action -> Prop) (t t' : list action) : Prop :=
  exists added, t' = t ++ added /\ Forall P added.

(** The reading is [m] and the trace has grown from [t] within [P]. *)
Definition carries (P : action -> Prop) (m : meter_data_t) (t : list action)
    (w : world) : Prop :=
  meter_data (globals w) = m /\ grows P t (trace w).

Lemma grows_refl P (t : list action) : grows P t t.
Proof. exists []. split; [symmetry; apply app_nil_r|constructor]. Qed.

Lemma grows_snoc P (t t1 : list action) (a : action) :
  grows P t t1 -> P a -> grows P t (t1 ++ [a]).
Proof.
  intros (added & -> & Hf) Ha. exists (added ++ [a]).
  split; [rewrite app_assoc; reflexivity|].
  apply Forall_app. split; [exact Hf|]. constructor; [exact Ha|constructor].
Qed.

Lemma grows_trans P (t1 t2 t3 : list action) :
  grows P t1 t2 -> grows P t2 t3 -> grows P t1 t3.
Proof.
  intros (a1 & -> & H1) (a2 & -> & H2). exists (a1 ++ a2).
  split; [rewrite app_assoc; reflexivity|]. apply Forall_app. split; assumption.
Qed.

Lemma grows_mono (P P' : action -> Prop) (t t' : list action) :
  (forall a, P a -> P' a) -> grows P t t' -> grows P' t t'.
Proof.
  intros HP (added & -> & Hf). exists added. split; [reflexivity|].
  eapply Forall_impl; eassumption.
Qed.

Lemma no_pub_ok (m : meter_data_t) (a : action) : no_pub a -> pub_ok m a.
Proof. destruct a; unfold no_pub; simpl; intros Ha; try exact I. discriminate. Qed.

Lemma no_pub_filter (added : list action) :
  Forall no_pub added -> List.filter is_publish added = [].
Proof.
  induction 1 as [|a l Ha _ IH]; [reflexivity|].
  simpl. unfold no_pub in Ha. rewrite Ha. exact IH.
Qed.

Section PassPublishes.
Context `{Platform} (env : oracle) (D : Z).
Hypothesis env_timely : timely D env.
Hypothesis D_small : 2 * D + 2005 < 4294967296.

Lemma carries_log P m t fmt args (w : world) :
  P (Log fmt args) -> carries P m t w ->
  carries P m t {| globals := globals w; now := now w; pos := pos w;
                   trace := trace w ++ [Log fmt args] |}.
Proof. intros Hl [Hm Hg]. split; [exact Hm|]. apply grows_snoc; assumption. Qed.

Lemma carries_after P m t (a : action) (least : Z) (w : world) :
  P a -> carries P m t w -> carries P m t (after env a least w).
Proof.
  intros Ha [Hm Hg]. split.
  - cbn [globals after]. rewrite deliver_meter_data. exact Hm.
  - cbn [trace after]. apply grows_snoc; assumption.
Qed.

Lemma carries_footprint (P P' : action -> Prop) m t (w w' : world) :
  (forall a, P' a -> P a) ->
  footprint false env P' w w' -> carries P m t w -> carries P m t w'.
Proof.
  intros HP [Hs Hg] [Hm Ht]. split.
  - rewrite (touch_meter_data env _ _ Hs). exact Hm.
  - eapply grows_trans; [exact Ht|]. eapply grows_mono; [exact HP|exact Hg].
Qed.

Lemma send_attributes_carries m t (w : world) :
  carries (pub_ok m) m t w ->
  returns env send_attributes (fun _ w' => carries (pub_ok m) m t w') w.
Proof.
  intros Hc. unfold returns, wp. rewrite send_attributes_run.
  destruct (negb (mqtt_connected (globals w))); [exact Hc|].
  cbv zeta. unfold published.
  apply carries_after.
  { right. split; [reflexivity|]. cbn [logged globals]. rewrite (proj1 Hc). reflexivity. }
  apply carries_after; [exact I|]. apply carries_log; [exact I|exact Hc].
Qed.

Lemma send_telemetry_carries m t (w : world) :
  carries (pub_ok m) m t w ->
  returns env send_telemetry (fun _ w' => carries (pub_ok m) m t w') w.
Proof.
  intros Hc. unfold returns, wp. rewrite send_telemetry_run.
  destruct (negb (mqtt_connected (globals w))); [apply carries_log; [exact I|exact Hc]|].
  destruct (negb (valid (meter_data (globals w))));
    [apply carries_log; [exact I|exact Hc]|].
  cbv zeta.
  assert (Hp : carries (pub_ok m) m t
                 (published env TELEMETRY_TOPIC
                    (telemetry_payload (meter_data (globals w)))
                    (logged "Telemetry: %s"
                       [LS (telemetry_payload (meter_data (globals w)))] w))).
  { unfold published. apply carries_after.
    { left. split; [reflexivity|]. rewrite (proj1 Hc). reflexivity. }
    apply carries_after; [exact I|]. apply carries_log; [exact I|exact Hc]. }
  destruct (negb (publish_rc env TELEMETRY_TOPIC _ _ =? 0));
    apply carries_log; (exact I || exact Hp).
Qed.

(** The end of every pass: maintenance, the log line and the 30 s wait. *)
Lemma pass_end_carries P m t (w : world) :
  (forall a, no_pub a -> P a) ->
  carries P m t w ->
  returns env
    (s ← get_state;
     (if mqtt_connected s then mqtt_maintenance else mret tt);;
     log "Waiting %d seconds..." [LZ MODBUS_READ_INTERVAL_SEC];;
     k_msleep (MODBUS_READ_INTERVAL_SEC * 1000))
    (fun _ w' => carries P m t w') w.
Proof.
  intros HP Hc. unfold returns. apply wp_bind, wp_get_state.
  assert (Hend : forall w1, carries P m t w1 ->
            wp env (log "Waiting %d seconds..." [LZ MODBUS_READ_INTERVAL_SEC];;
                    k_msleep (MODBUS_READ_INTERVAL_SEC * 1000))
               (fun _ w' => carries P m t w') (fun _ _ => False) w1).
  { intros w1 H1. apply wp_bind, wp_log, wp_k_msleep.
    apply carries_after; [apply HP; reflexivity|].
    apply carries_log; [apply HP; reflexivity|exact H1]. }
  destruct (mqtt_connected (globals w)).
  - eapply wp_fp_strict_bind; [apply (fp_mqtt_maintenance false env true)|].
    intros [] w1 F1. apply Hend.
    eapply carries_footprint; [|exact F1|exact Hc].
    intros a Ha. apply HP, background_no_pub, Ha.
  - apply wp_bind, wp_ret. apply Hend, Hc.
Qed.

(** One pass: either it leaves the reading invalid and has published
    nothing, or it leaves it valid and whatever it published carries
    that reading. *)
Lemma main_iter_carries (it : iter_in) (w : world) :
  good_iter it ->
  returns env (main_iter (it_fuel it) (it_tx_stack it) (it_rx_stack it))
    (fun _ w' =>
       (valid (meter_data (globals w')) = false /\
        grows no_pub (trace w) (trace w')) \/
       (valid (meter_data (globals w')) = true /\
        grows (pub_ok (meter_data (globals w'))) (trace w) (trace w'))) w.
Proof.
  intros (Hfuel & Htx & Hrx & Hu8). unfold main_iter, returns.
  apply wp_bind, wp_modify.
  eapply wp_fp_strict_bind; [apply (fp_reconnect_if_needed false env true)|].
  intros [] w1 F1. cbn [trace] in F1.
  assert (G1 : grows no_pub (trace w) (trace w1)).
  { eapply grows_mono; [apply background_no_pub|exact (proj2 F1)]. }
  clear F1. apply wp_bind, wp_log.
  eapply wp_returns_bind.
  { unfold returns. eapply wp_mono;
      [apply wp_conj;
       [apply (read_meter_data_transaction env D env_timely D_small
                 (it_fuel it) (it_tx_stack it) (it_rx_stack it) _ Hfuel Htx Hrx Hu8)
       |apply (fp_read_meter_data env (it_fuel it) (it_tx_stack it) (it_rx_stack it))]
      |intros r w' HQ; exact HQ
      |intros e w' [[] _]]. }
  intros ret w2 [(l & rxio & _ & _ & _ & _ & _ & Hret & Hmd) F2].
  cbn [trace globals] in Hmd, F2.
  assert (G2 : grows no_pub (trace w) (trace w2)).
  { eapply grows_trans; [|exact (proj2 F2)]. cbn [trace].
    apply grows_snoc; [exact G1|reflexivity]. }
  clear F2 G1.
  apply wp_bind, wp_get_state, wp_bind.
  destruct (validate (received l)) eqn:Hv.
  4:{ (* accepted *)
    subst ret. rewrite Hmd. cbn [Z.eqb decode valid andb].
    set (m := decode (drop 3 (rx_buf l))) in *.
    assert (C2 : carries (pub_ok m) m (trace w) w2).
    { split; [exact Hmd|]. eapply grows_mono; [apply no_pub_ok|exact G2]. }
    assert (Hvalid : valid m = true) by reflexivity.
    clearbody m. clear Hmd G2.
    apply wp_bind, wp_log, wp_bind, wp_get_state.
    match goal with |- wp _ _ _ _ ?wl => set (w3 := wl) end.
    assert (C3 : carries (pub_ok m) m (trace w) w3).
    { apply carries_log; [exact I|exact C2]. }
    clearbody w3. clear C2.
    assert (Htele : forall w4, carries (pub_ok m) m (trace w) w4 ->
              wp env
                (s ← get_state;
                 if mqtt_connected s then
                   rc ← send_telemetry;
                   if negb (rc =? 0)
                   then log "Telemetry transmission failed, will retry on next cycle" []
                   else mret tt
                 else log "MQTT not connected - data logged locally only" [])
                (fun _ w' => carries (pub_ok m) m (trace w) w')
                (fun _ _ => False) w4).
    { intros w4 C4. apply wp_bind, wp_get_state.
      destruct (mqtt_connected (globals w4)).
      - eapply wp_returns_bind; [apply (send_telemetry_carries m _ w4 C4)|].
        intros rc w5 C5. destruct (negb (rc =? 0)).
        + apply wp_log, carries_log; [exact I|exact C5].
        + apply wp_ret, C5.
      - apply wp_log, carries_log; [exact I|exact C4]. }
    assert (Hblock : wp env
              ((if negb (attrs_sent (globals w3)) && mqtt_connected (globals w3)
                then send_attributes;; modify (set_attrs_sent true)
                else mret tt);;
               s ← get_state;
               if mqtt_connected s then
                 rc ← send_telemetry;
                 if negb (rc =? 0)
                 then log "Telemetry transmission failed, will retry on next cycle" []
                 else mret tt
               else log "MQTT not connected - data logged locally only" [])
              (fun _ w' => carries (pub_ok m) m (trace w) w')
              (fun _ _ => False) w3).
    { apply wp_bind.
      destruct (negb (attrs_sent (globals w3)) && mqtt_connected (globals w3)).
      - eapply wp_returns_bind; [apply (send_attributes_carries m _ w3 C3)|].
        intros rc w4 C4. apply wp_modify. apply Htele.
        split; [exact (proj1 C4)|exact (proj2 C4)].
      - apply wp_ret. apply Htele, C3. }
    eapply wp_mono; [exact Hblock| |auto].
    intros [] w5 C5.
    eapply wp_mono; [apply (pass_end_carries (pub_ok m) m (trace w) w5);
                     [apply no_pub_ok|exact C5]| |auto].
    intros [] w' [Hm' Hg']. right. rewrite Hm'.
    split; [exact Hvalid|exact Hg']. }
  all: subst ret; cbn [Z.eqb andb];
    apply wp_log;
    (eapply wp_mono;
     [apply (pass_end_carries no_pub (meter_data (globals w2)) (trace w));
      [auto|split; [reflexivity|apply grows_snoc; [exact G2|reflexivity]]]
     | |auto]);
    intros [] w' [Hm' Hg']; left; rewrite Hm', Hmd; split; [reflexivity|exact Hg'].
Qed.

End PassPublishes.

(** ** When a pass tries to reconnect *)

(** The calls of the link and session bring-up. *)
Definition is_bringup (a : action) : bool :=
  match a with
  | NetIfGetFirstWifi | NetMgmtAddCallbacks | NetMgmtWifiConnect
  | KSemTake _ _ | Getaddrinfo | MqttClientInit | MqttConnect
  | MqttDisconnect | ZsockPoll _ => true
  | _ => false
  end.

Definition no_bringup (a : action) : Prop := is_bringup a = false.

Section Schedule.
Context `{Platform} (env : oracle).

Lemma fp_uart_send_nb (tx_buf : list Z) (i : Z) (n : nat) :
  fp true env false no_bringup (uart_send tx_buf i n).
Proof.
  revert i. induction n as [|n IH]; intros i; simpl; fp_auto; apply IH.
Qed.

Lemma fp_rx_loop_nb (fuel : nat) (start : Z) (l : rx_locals) :
  fp true env false no_bringup (rx_loop fuel start l).
Proof.
  revert l. induction fuel as [|fuel IH]; intros l; simpl; fp_auto; apply IH.
Qed.

Lemma fp_parse_response_nb (rx_buf : list Z) (rx_len : Z) :
  fp true env false no_bringup (parse_response rx_buf rx_len).
Proof. unfold parse_response, invalidate. fp_auto. Qed.

Lemma fp_read_meter_data_nb (fuel : nat) (tx_stack rx_stack : list Z) :
  fp true env false no_bringup (read_meter_data fuel tx_stack rx_stack).
Proof.
  unfold read_meter_data, switch_to_modbus, switch_to_console. fp_auto;
    first [apply fp_uart_send_nb | apply fp_rx_loop_nb | apply fp_parse_response_nb].
Qed.

Lemma fp_send_telemetry_nb : fp true env false no_bringup send_telemetry.
Proof. unfold send_telemetry, publish. fp_auto. Qed.

Lemma fp_send_attributes_nb : fp true env false no_bringup send_attributes.
Proof. unfold send_attributes, publish. fp_auto. Qed.

Lemma fp_mqtt_maintenance_nb : fp true env false no_bringup mqtt_maintenance.
Proof. unfold mqtt_maintenance. fp_auto. Qed.

(** Trace-only footprints: the run extends the trace within [P],
    whatever it does to the globals. *)
Definition tfp {A} (P : action -> Prop) (m : prog A) : Prop :=
  forall w,
    wp env m (fun _ w' => grows P (trace w) (trace w'))
       (fun _ w' => grows P (trace w) (trace w')) w.

Lemma tfp_of_fp {A} md strict (P : action -> Prop) (m : prog A) :
  fp md env strict P m -> tfp P m.
Proof.
  intros F w. eapply wp_mono; [exact (F w)| |].
  - intros a w' Hf. exact (proj2 Hf).
  - intros e w' [_ Hf]. exact (proj2 Hf).
Qed.

Lemma tfp_bind {A B} (P : action -> Prop) (m : prog A) (k : A -> prog B) :
  tfp P m -> (forall a, tfp P (k a)) -> tfp P (m ≫= k).
Proof.
  intros Hm Hk w. apply wp_bind. specialize (Hm w). unfold wp in *.
  destruct (m env w) as [a w1|e w1]; [|exact Hm].
  pose proof (Hk a w1) as Hk1. unfold wp in Hk1.
  destruct (k a env w1) as [b w2|e w2]; eapply grows_trans; eassumption.
Qed.

Lemma tfp_modify (P : action -> Prop) (f : state -> state) : tfp P (modify f).
Proof. intros w. apply grows_refl. Qed.

Lemma tfp_wp {A} (P : action -> Prop) (keep : action -> bool) (m : prog A)
    (w0 w : world) :
  (forall a, P a -> keep a = false) ->
  tfp P m ->
  List.filter keep (trace w) = List.filter keep (trace w0) ->
  wp env m
     (fun _ w' => List.filter keep (trace w') = List.filter keep (trace w0))
     (fun _ w' => List.filter keep (trace w') = List.filter keep (trace w0)) w.
Proof.
  intros HP F H0.
  assert (Hg : forall w', grows P (trace w) (trace w') ->
                 List.filter keep (trace w') = List.filter keep (trace w0)).
  { intros w' (added & -> & Hf). rewrite List.filter_app, H0.
    replace (List.filter keep added) with (@nil action); [apply app_nil_r|].
    symmetry. induction Hf as [|a l Ha _ IH]; [reflexivity|].
    simpl. rewrite (HP a Ha). exact IH. }
  eapply wp_mono; [exact (F w)| |]; intros ? w' Hgw; apply Hg, Hgw.
Qed.

Ltac tfp_step :=
  lazymatch goal with
  | |- tfp _ (_ ≫= _) => apply tfp_bind; [|intros]
  | |- tfp _ (if ?b then _ else _) => destruct b eqn:?
  | |- tfp _ _ =>
      first [ apply tfp_modify
            | eapply (tfp_of_fp true false);
              first [ fp_leaf | apply fp_read_meter_data_nb
                    | apply fp_send_telemetry_nb | apply fp_send_attributes_nb
                    | apply fp_mqtt_maintenance_nb ] ]
  end.

Ltac pass_rest := repeat tfp_step.

(** A pass that is not a tenth one, or that finds the session ready,
    makes no bring-up call. *)
Lemma main_iter_no_bringup (fuel : nat) (tx_stack rx_stack : list Z) (w : world) :
  Z.rem (loop_count (globals w) + 1) 10 <> 0 \/ mqtt_connected (globals w) = true ->
  wp env (main_iter fuel tx_stack rx_stack)
     (fun _ w' => List.filter is_bringup (trace w') = List.filter is_bringup (trace w))
     (fun _ w' => List.filter is_bringup (trace w') = List.filter is_bringup (trace w))
     w.
Proof.
  intros Hcond. unfold main_iter, reconnect_if_needed.
  apply wp_bind, wp_modify, wp_bind, wp_bind, wp_get_state.
  cbn [globals loop_count set_loop_count mqtt_connected].
  assert (Hrest : forall X w1,
             trace w1 = trace w ->
             tfp no_bringup X ->
             wp env (X : prog unit)
                (fun _ w' => List.filter is_bringup (trace w') =
                             List.filter is_bringup (trace w))
                (fun _ w' => List.filter is_bringup (trace w') =
                             List.filter is_bringup (trace w)) w1).
  { intros X w1 Ht F. apply (tfp_wp no_bringup is_bringup X w w1 (fun a Ha => Ha) F).
    rewrite Ht. reflexivity. }
  destruct (Z.rem (loop_count (globals w) + 1) 10 =? 0) eqn:Hr.
  - destruct (mqtt_connected (globals w)) eqn:Hc.
    + cbn [negb]. apply wp_ret. apply Hrest; [reflexivity|pass_rest].
    + exfalso. apply Z.eqb_eq in Hr. destruct Hcond; [contradiction|discriminate].
  - apply wp_ret. apply Hrest; [reflexivity|pass_rest].
Qed.

(** The bring-up calls made since the trace had [t] of them start with
    the look-up of the interface. *)
Definition tried_bringup (t : list action) (w : world) : Prop :=
  exists rest, List.filter is_bringup (trace w) = t ++ NetIfGetFirstWifi :: rest.

Lemma tried_grows P (t : list action) (w1 w' : world) :
  tried_bringup t w1 -> grows P (trace w1) (trace w') -> tried_bringup t w'.
Proof.
  intros [rest Hr] (added & Ht & _). exists (rest ++ List.filter is_bringup added).
  rewrite Ht, List.filter_app, Hr, <- app_assoc. reflexivity.
Qed.

Lemma wifi_connect_tried (w : world) :
  returns env wifi_connect
    (fun _ w' => tried_bringup (List.filter is_bringup (trace w)) w') w.
Proof.
  unfold wifi_connect, returns. apply wp_bind, wp_log, wp_bind, wp_call.
  match goal with |- wp _ _ _ _ ?w1 => set (wr := w1) end.
  assert (Hwr : tried_bringup (List.filter is_bringup (trace w)) wr).
  { exists []. unfold wr. cbn [trace after]. rewrite !List.filter_app. simpl.
    rewrite app_nil_r. reflexivity. }
  clearbody wr.
  match goal with
  | |- wp _ ?X _ _ _ =>
      assert (F : fp true env true (fun _ => True) X)
  end.
  { destruct (x_out _ =? 0); fp_auto.
    eapply fp_mono; [|apply fp_wifi_connect_loop; unfold wifi_max_retries; lia].
    auto. }
  eapply wp_mono; [exact (F wr)| |intros e w' [[=] _]].
  intros r w' Hf. exact (tried_grows _ _ wr w' Hwr (proj2 Hf)).
Qed.

Lemma reconnect_tried (w : world) :
  Z.rem (loop_count (globals w)) 10 = 0 ->
  mqtt_connected (globals w) = false ->
  returns env reconnect_if_needed
    (fun _ w' => tried_bringup (List.filter is_bringup (trace w)) w') w.
Proof.
  intros Hr Hc. unfold reconnect_if_needed, returns.
  apply wp_bind, wp_get_state. rewrite Hr, Hc. cbn [Z.eqb negb].
  apply wp_bind, wp_log.
  eapply wp_returns_bind; [apply wifi_connect_tried|].
  intros ret w1 T1. cbn [trace] in T1.
  rewrite List.filter_app in T1. simpl in T1. rewrite app_nil_r in T1.
  match goal with
  | |- wp _ ?X _ _ _ =>
      assert (F : fp true env true (fun _ => True) X)
  end.
  { fp_auto; (eapply fp_mono; [|first [apply fp_broker_init | apply fp_thingsboard_connect]]);
      auto. }
  eapply wp_mono; [exact (F w1)| |intros e w' [[=] _]].
  intros r w' Hf. exact (tried_grows _ _ w1 w' T1 (proj2 Hf)).
Qed.

(** A tenth pass that finds the session not ready starts the bring-up. *)
Lemma main_iter_tries_bringup (fuel : nat) (tx_stack rx_stack : list Z) (w : world) :
  Z.rem (loop_count (globals w) + 1) 10 = 0 ->
  mqtt_connected (globals w) = false ->
  wp env (main_iter fuel tx_stack rx_stack)
     (fun _ w' => tried_bringup (List.filter is_bringup (trace w)) w')
     (fun _ w' => tried_bringup (List.filter is_bringup (trace w)) w') w.
Proof.
  intros Hr Hc. unfold main_iter. apply wp_bind, wp_modify.
  eapply wp_returns_bind; [apply reconnect_tried; [exact Hr|exact Hc]|].
  intros [] w1 T1. cbn [trace] in T1.
  match goal with
  | |- wp _ ?X _ _ _ => assert (F : tfp no_bringup X) by pass_rest
  end.
  eapply wp_mono; [exact (F w1)| |];
    intros ? w' Hg; exact (tried_grows _ _ w1 w' T1 Hg).
Qed.

(** Whatever the rest of a pass does, it makes no bring-up call: a
    filter that keeps bring-up calls only sees what the health check at
    the head of the pass did. *)
Lemma main_iter_filter (keep : action -> bool) (fuel : nat)
    (tx_stack rx_stack : list Z) (w : world) :
  (forall a, no_bringup a -> keep a = false) ->
  (forall w1,
     wp env reconnect_if_needed
        (fun _ w' => List.filter keep (trace w') = List.filter keep (trace w1))
        (fun _ w' => List.filter keep (trace w') = List.filter keep (trace w1)) w1) ->
  wp env (main_iter fuel tx_stack rx_stack)
     (fun _ w' => List.filter keep (trace w') = List.filter keep (trace w))
     (fun _ w' => List.filter keep (trace w') = List.filter keep (trace w)) w.
Proof.
  intros Hkeep Hrec. unfold main_iter. apply wp_bind, wp_modify, wp_bind.
  eapply wp_mono; [apply Hrec| |auto].
  intros [] w1 H1. cbn [trace] in H1.
  match goal with
  | |- wp _ ?X _ _ _ => assert (F : tfp no_bringup X) by pass_rest
  end.
  apply (tfp_wp no_bringup keep _ w w1 Hkeep F H1).
Qed.

End Schedule.

(** ** The stand-alone reader

    [HW_interfacing/bove/Master_MCU_interface/src/main.c] polls the same
    meter without the network side.  Its [modbus_crc16], [build_read_cmd],
    [read_u32], [switch_to_modbus], [switch_to_console] and its receive
    loop are, statement for statement, those of the integrated firmware
    and are not modelled a second time; what differs is what [main] does
    with the received bytes, which it reports on the console. *)

Module Reader.

(** The numbers printed for an accepted reply. *)
Record printed := {
  flow_int : Z; flow_dec : Z;
  forward_int : Z; forward_dec : Z;
  reverse_int : Z; reverse_dec : Z;
  pressure_int : Z; pressure_dec : Z;
  temp_int : Z; temp_dec : Z;
  status : Z;
  serial : Z;
  modbus_id : Z;
  baud_code : Z
}.

(** The four reports of a pass: the block after OK, CRC Error,
    Incomplete (n bytes), No response. *)
Inductive report :=
| ROk (p : printed)
| RCrcError
| RIncomplete (n : Z)
| RNoResponse.

(** The [if (rx_len > 70) ... else if (rx_len > 0) ... else ...] of
    [main]; the [&&] of its inner condition evaluates left to right and
    stops at the first false operand. *)
Definition report_of (rx_buf : list Z) (rx_len : Z) : option report :=
  if 70 <? rx_len then
    lo ← load rx_buf (rx_len - 2);
    hi ← load rx_buf (rx_len - 1);
    let recv_crc := u16 (Z.lor lo (Z.shiftl hi 8)) in
    calc_crc ← modbus_crc16 rx_buf (u16 (rx_len - 2));
    good ← (if recv_crc =? calc_crc then
              b0 ← load rx_buf 0;
              if b0 =? 1 then b1 ← load rx_buf 1; Some (b1 =? 0x03)
              else Some false
            else Some false);
    if good : bool then
      let d := drop 3 rx_buf in
      flow_raw ← read_u32 d 0;
      forward_raw ← read_u32 d 12;
      reverse_raw ← read_u32 d 18;
      pressure_raw ← read_u16 d 36;
      status ← read_u16 d 38;
      temp_raw ← read_u16 d 58;
      serial ← read_be32 d 64;
      id ← load d 69;
      baud ← read_u16 d 72;
      Some (ROk {| flow_int := u32 (flow_raw / 100);
                   flow_dec := u32 (flow_raw mod 100);
                   forward_int := u32 (forward_raw / 1000);
                   forward_dec := u32 (forward_raw mod 1000);
                   reverse_int := u32 (reverse_raw / 1000);
                   reverse_dec := u32 (reverse_raw mod 1000);
                   pressure_int := u32 (pressure_raw / 1000);
                   pressure_dec := u32 (pressure_raw mod 1000);
                   temp_int := u32 (temp_raw / 100);
                   temp_dec := u32 (temp_raw mod 100);
                   status := status;
                   serial := serial;
                   modbus_id := u8 id;
                   baud_code := baud |})
    else Some RCrcError
  else if 0 <? rx_len then Some (RIncomplete rx_len)
  else Some RNoResponse.

End Reader.

(** What the stand-alone reader prints for the reading [m]. *)
Definition printed_of (m : meter_data_t) : Reader.printed :=
  {| Reader.flow_int := flow_rate m / 100;
     Reader.flow_dec := flow_rate m mod 100;
     Reader.forward_int := forward_total m / 1000;
     Reader.forward_dec := forward_total m mod 1000;
     Reader.reverse_int := reverse_total m / 1000;
     Reader.reverse_dec := reverse_total m mod 1000;
     Reader.pressure_int := pressure m / 1000;
     Reader.pressure_dec := pressure m mod 1000;
     Reader.temp_int := temperature m / 100;
     Reader.temp_dec := temperature m mod 100;
     Reader.status := status m;
     Reader.serial := serial_number m;
     Reader.modbus_id := modbus_id m;
     Reader.baud_code := baud_code m |}.

Section ReaderRuns.

Lemma u32_div (x k : Z) : is_u32 x -> 0 < k -> u32 (x / k) = x / k.
Proof.
  intros Hx Hk. apply u32_id. unfold is_u32 in *.
  split; [apply Z.div_pos; lia|].
  apply Z.div_lt_upper_bound; [lia|]. nia.
Qed.

Lemma u32_mod (x k : Z) : 0 < k < 4294967296 -> u32 (x mod k) = x mod k.
Proof.
  intros Hk. apply u32_id. unfold is_u32.
  pose proof (Z.mod_pos_bound x k ltac:(lia)). lia.
Qed.

Lemma pair_low_first_range (d : list Z) (i : nat) :
  Forall is_u8 d -> (i + 3 < length d)%nat -> is_u32 (pair_low_first d i).
Proof.
  intros Hd Hi. unfold pair_low_first.
  pose proof (be16_range d i Hd ltac:(lia)) as H0.
  pose proof (be16_range d (i + 2) Hd ltac:(lia)) as H1.
  unfold is_u16, is_u32 in *. lia.
Qed.

Lemma be16_u32 (d : list Z) (i : nat) :
  Forall is_u8 d -> (i + 1 < length d)%nat -> is_u32 (be16 d i).
Proof.
  intros Hd Hi. pose proof (be16_range d i Hd Hi) as H0.
  unfold is_u16, is_u32 in *. lia.
Qed.

(** The report in one equation, over the verdict of the integrated
    firmware's validation. *)
Lemma report_of_run (rx_buf : list Z) (rx_len : Z) :
  Forall is_u8 rx_buf ->
  Z.of_nat (length rx_buf) = MODBUS_RX_BUFFER ->
  0 <= rx_len <= MODBUS_RX_BUFFER ->
  let frame := take (Z.to_nat rx_len) rx_buf in
  Reader.report_of rx_buf rx_len =
  Some (if 70 <? rx_len then
          match validate frame with
          | Accepted => Reader.ROk (printed_of (decode (drop 3 rx_buf)))
          | _ => Reader.RCrcError
          end
        else if 0 <? rx_len then Reader.RIncomplete rx_len
        else Reader.RNoResponse).
Proof.
  intros Hu8 H256 Hlen frame. unfold MODBUS_RX_BUFFER in *.
  pose proof (frame_length rx_buf rx_len ltac:(lia)) as Hfl. fold frame in Hfl.
  unfold Reader.report_of, validate. rewrite Hfl.
  destruct (70 <? rx_len) eqn:Hlong; [|destruct (0 <? rx_len); reflexivity].
  apply Z.ltb_lt in Hlong.
  destruct (rx_len <? 70) eqn:Hshort; [apply Z.ltb_lt in Hshort; lia|].
  set (n := Z.to_nat rx_len).
  assert (Hn : rx_len = Z.of_nat n) by (unfold n; lia).
  replace (rx_len - 2) with (Z.of_nat (n - 2)) by lia.
  replace (rx_len - 1) with (Z.of_nat (n - 1)) by lia.
  rewrite (load_total rx_buf (n - 2)), opt_bind_some by lia.
  rewrite (load_total rx_buf (n - 1)), opt_bind_some by lia.
  assert (Hlo : is_u8 (rx_buf !!! (n - 2)%nat)) by (apply total_is_u8; [assumption|lia]).
  assert (Hhi : is_u8 (rx_buf !!! (n - 1)%nat)) by (apply total_is_u8; [assumption|lia]).
  rewrite Z.lor_comm, word_of_bytes by assumption.
  rewrite (u16_id (256 * _ + _)) by (unfold is_u16, is_u8 in *; lia).
  rewrite (u16_id (Z.of_nat (n - 2))) by (unfold is_u16; lia).
  rewrite modbus_crc16_fold by lia. rewrite Nat2Z.id, opt_bind_some.
  assert (Hfn : length frame = n) by lia.
  assert (Htr : trailer frame =
                256 * rx_buf !!! (n - 1)%nat + rx_buf !!! (n - 2)%nat).
  { unfold trailer. rewrite Hfn. unfold frame. fold n.
    rewrite !frame_total by lia. lia. }
  assert (Htk : take (length frame - 2) frame = take (n - 2) rx_buf).
  { rewrite Hfn. unfold frame. fold n. rewrite take_take. f_equal. lia. }
  rewrite Htr, Htk.
  destruct (_ =? crc16 _) eqn:Hcrc; cbn [negb]; [|reflexivity].
  change (load rx_buf 0) with (load rx_buf (Z.of_nat 0)).
  rewrite (load_total rx_buf 0), opt_bind_some by lia.
  unfold frame. fold n. rewrite !frame_total by lia.
  change MODBUS_SLAVE_ID with 1.
  destruct (rx_buf !!! 0%nat =? 1) eqn:Hid; cbn [negb orb]; [|reflexivity].
  change (load rx_buf 1) with (load rx_buf (Z.of_nat 1)).
  rewrite (load_total rx_buf 1), !opt_bind_some by lia.
  destruct (rx_buf !!! 1%nat =? 3) eqn:Hfc; cbn [negb]; [|reflexivity].
  cbv zeta.
  set (d := drop 3 rx_buf).
  assert (Hd8 : Forall is_u8 d) by (apply Forall_drop; assumption).
  assert (Hdl : (74 <= length d)%nat) by (unfold d; rewrite length_drop; lia).
  change (read_u32 d 0) with (read_u32 d (Z.of_nat 0)).
  rewrite (read_u32_spec d 0), opt_bind_some by (assumption || lia).
  change (read_u32 d 12) with (read_u32 d (Z.of_nat 12)).
  rewrite (read_u32_spec d 12), opt_bind_some by (assumption || lia).
  change (read_u32 d 18) with (read_u32 d (Z.of_nat 18)).
  rewrite (read_u32_spec d 18), opt_bind_some by (assumption || lia).
  change (read_u16 d 36) with (read_u16 d (Z.of_nat 36)).
  rewrite (read_u16_spec d 36), opt_bind_some by (assumption || lia).
  change (read_u16 d 38) with (read_u16 d (Z.of_nat 38)).
  rewrite (read_u16_spec d 38), opt_bind_some by (assumption || lia).
  change (read_u16 d 58) with (read_u16 d (Z.of_nat 58)).
  rewrite (read_u16_spec d 58), opt_bind_some by (assumption || lia).
  change (read_be32 d 64) with (read_be32 d (Z.of_nat 64)).
  rewrite (read_be32_spec d 64), opt_bind_some by (assumption || lia).
  change (load d 69) with (load d (Z.of_nat 69)).
  rewrite (load_total d 69), opt_bind_some by lia.
  change (read_u16 d 72) with (read_u16 d (Z.of_nat 72)).
  rewrite (read_u16_spec d 72), opt_bind_some by (assumption || lia).
  rewrite (u8_id (d !!! 69%nat)) by (apply total_is_u8; [assumption|lia]).
  rewrite !u32_div by
    (first [apply pair_low_first_range | apply be16_u32 | idtac]; (assumption || lia)).
  rewrite !u32_mod by lia.
  reflexivity.
Qed.

End ReaderRuns.

(** ** How long a meter transaction takes *)

Section TransactionTime.
Context (env : oracle) (D : Z).
Hypothesis env_timely : timely D env.
Hypothesis D_small : 2 * D + 2005 < 4294967296.

Lemma after_time (a : action) (least : Z) (w : world) :
  now w + least <= now (after env a least w) <= now w + least + D.
Proof. cbn [now after]. pose proof (env_timely (pos w) a). lia. Qed.

Lemma uart_send_time (tx_buf : list Z) (n : nat) (i : nat) (w : world) :
  (i + n <= length tx_buf)%nat ->
  returns env (uart_send tx_buf (Z.of_nat i) n)
    (fun _ w' => now w <= now w' <= now w + Z.of_nat n * D) w.
Proof.
  revert i w. unfold returns. induction n as [|n IH]; intros i w Hn.
  - apply wp_ret. lia.
  - simpl uart_send. rewrite load_lookup.
    destruct (lookup_lt_is_Some_2 tx_buf i) as [b Hb]; [lia|]. rewrite Hb.
    apply wp_bind, wp_mem_some, wp_bind. unfold call. apply wp_outside.
    replace (Z.of_nat i + 1) with (Z.of_nat (S i)) by lia.
    eapply wp_mono; [apply IH; lia| |auto].
    intros [] w' Hp.
    pose proof (after_time (UartPollOut b) 0 w). lia.
Qed.

(** From the first reconfiguration of the line to the verdict. *)
Lemma read_meter_data_time (fuel : nat) (tx_stack rx_stack : list Z) (w : world) :
  (400 <= fuel)%nat ->
  length tx_stack = 8%nat ->
  Z.of_nat (length rx_stack) = MODBUS_RX_BUFFER ->
  Forall is_u8 rx_stack ->
  returns env (read_meter_data fuel tx_stack rx_stack)
    (fun _ w' => now w + 110 <= now w' < now w + 2115 + 14 * D) w.
Proof.
  intros Hfuel Htx Hrx Hu8. unfold read_meter_data, returns, switch_to_modbus.
  pose proof (D_nonneg env D env_timely) as HD0.
  apply wp_bind, wp_bind, wp_call, wp_ret.
  pose proof (after_time (UartConfigure ModbusCfg) 0 w) as T1.
  set (w1 := after env (UartConfigure ModbusCfg) 0 w) in *. clearbody w1.
  rewrite (request_frame _ Htx).
  apply wp_bind, wp_mem_some.
  eapply wp_returns_bind; [apply (uart_send_time _ 8 0); simpl; lia|].
  intros [] w2 T2.
  apply wp_bind, wp_k_msleep, wp_bind, wp_uptime.
  pose proof (after_time (KSleep 100) 100 w2) as T3.
  set (w3 := after env (KSleep 100) 100 w2) in *. clearbody w3.
  assert (Hb : 0 <= 0 < MODBUS_RX_BUFFER) by (unfold MODBUS_RX_BUFFER; lia).
  eapply wp_returns_bind.
  { unfold returns. eapply wp_mono;
      [apply wp_conj;
       [apply (rx_loop_deadline env D env_timely D_small (now w3) fuel (now w3)
                 {| rx_buf := rx_stack; rx_len := 0; last_byte := u32 (now w3) |} w3
                 Hrx Hb ltac:(lia) eq_refl ltac:(cbn [rx_len]; lia)
                 ltac:(lia) ltac:(lia))
       |apply (rx_loop_bounds env fuel (u32 (now w3))
                 {| rx_buf := rx_stack; rx_len := 0; last_byte := u32 (now w3) |} w3
                 Hrx Hb Hu8)]
      |intros l w' HQ; exact HQ
      |intros e w' [[] _]]. }
  intros l w4 ((T4a & T4b & _) & (Hl1 & Hl2 & Hl3)).
  unfold switch_to_console.
  apply wp_bind, wp_bind, wp_call, wp_k_msleep.
  pose proof (after_time (UartConfigure OriginalCfg) 0 w4) as T5.
  set (w5 := after env (UartConfigure OriginalCfg) 0 w4) in *.
  pose proof (after_time (KSleep 10) 10 w5) as T6.
  set (w6 := after env (KSleep 10) 10 w5) in *. clearbody w6. clearbody w5.
  unfold wp. rewrite parse_response_run by assumption. cbn [now]. lia.
Qed.

End TransactionTime.

(** ** The session is attempted over an established link only *)

(** Name resolution and the calls of the session bring-up. *)
Definition is_session_call (a : action) : bool :=
  match a with
  | Getaddrinfo | MqttClientInit | MqttConnect | MqttDisconnect | ZsockPoll _ => true
  | _ => false
  end.

Definition no_session (a : action) : Prop := is_session_call a = false.

Lemma no_bringup_no_session (a : action) : no_bringup a -> is_session_call a = false.
Proof. destruct a; unfold no_bringup; simpl; congruence. Qed.

Section LinkFirst.
Context `{Platform} (env : oracle).

Lemma fp_wifi_connect_loop_ns (fuel : nat) (retry : Z) :
  wifi_max_retries - retry <= Z.of_nat fuel ->
  fp true env true no_session (wifi_connect_loop fuel retry).
Proof.
  revert retry. induction fuel as [|fuel IH]; intros retry Hf; simpl.
  - destruct (retry <? wifi_max_retries) eqn:Hr; [lia|]. fp_auto.
  - fp_auto; apply IH; lia.
Qed.

Lemma fp_wifi_connect_ns : fp true env true no_session wifi_connect.
Proof.
  unfold wifi_connect. fp_auto.
  apply fp_wifi_connect_loop_ns. unfold wifi_max_retries. lia.
Qed.

Hypothesis no_link : never link_up env.

Lemma wifi_connect_fails_quietly (w : world) :
  returns env wifi_connect
    (fun r w' =>
       r <> 0 /\
       List.filter is_session_call (trace w') = List.filter is_session_call (trace w)) w.
Proof.
  unfold returns. eapply wp_mono;
    [apply wp_conj;
     [apply (wifi_connect_needs_link env w no_link)|apply (fp_wifi_connect_ns w)]
    | |intros e w' [[] _]].
  intros r w' [Hr Hf]. split; [exact Hr|].
  apply (footprint_filter env true no_session is_session_call w w' (fun a Ha => Ha) Hf).
Qed.

Lemma reconnect_without_link (w : world) :
  returns env reconnect_if_needed
    (fun _ w' =>
       List.filter is_session_call (trace w') = List.filter is_session_call (trace w)) w.
Proof.
  unfold reconnect_if_needed, returns. apply wp_bind, wp_get_state.
  destruct (Z.rem (loop_count (globals w)) 10 =? 0); [|apply wp_ret; reflexivity].
  destruct (negb (mqtt_connected (globals w))); [|apply wp_ret; reflexivity].
  apply wp_bind, wp_log.
  eapply wp_returns_bind; [apply wifi_connect_fails_quietly|].
  intros ret w1 [Hr Hf]. apply Z.eqb_neq in Hr. rewrite Hr.
  apply wp_ret. rewrite Hf. cbn [trace]. rewrite List.filter_app. simpl.
  apply app_nil_r.
Qed.

Lemma main_wifi_loop_without_link (fuel : nat) (count ret : Z) (w : world) :
  max_wifi_retries - count <= Z.of_nat fuel ->
  count < max_wifi_retries ->
  returns env (main_wifi_loop fuel count ret)
    (fun r w' =>
       r <> 0 /\
       List.filter is_session_call (trace w') = List.filter is_session_call (trace w)) w.
Proof.
  revert count ret w. unfold returns.
  induction fuel as [|fuel IH]; intros count ret w Hf Hc; simpl main_wifi_loop;
    (destruct (count <? max_wifi_retries) eqn:Hlt;
     [|apply Z.ltb_ge in Hlt; lia]); [lia|].
  eapply wp_returns_bind; [apply wifi_connect_fails_quietly|].
  intros r w1 [Hr Hf1]. pose proof Hr as Hr'. apply Z.eqb_neq in Hr'. rewrite Hr'.
  cbv zeta. apply wp_bind.
  destruct (count + 1 <? max_wifi_retries) eqn:Hmore.
  - apply wp_bind, wp_log, wp_k_msleep. apply Z.ltb_lt in Hmore.
    eapply wp_mono; [apply (IH (count + 1)); lia| |auto].
    intros r' w' [Hr2 Hf2]. split; [exact Hr2|].
    rewrite Hf2. cbn [trace after]. rewrite !List.filter_app, Hf1. simpl.
    rewrite !app_nil_r. reflexivity.
  - apply wp_ret. apply Z.ltb_ge in Hmore.
    destruct fuel as [|fuel']; simpl main_wifi_loop;
      (destruct (count + 1 <? max_wifi_retries) eqn:Hlt2;
       [apply Z.ltb_lt in Hlt2; lia|]);
      apply wp_ret; split; assumption.
Qed.

Lemma main_startup_without_link (w : world) :
  returns env main_startup
    (fun _ w' =>
       List.filter is_session_call (trace w') = List.filter is_session_call (trace w)) w.
Proof.
  unfold main_startup, returns.
  apply wp_bind, wp_k_msleep, wp_bind, wp_call_ret.
  destruct (x_ret _ =? 0).
  - apply wp_bind, wp_log, wp_ret. cbn [trace after].
    rewrite !List.filter_app. simpl. rewrite !app_nil_r. reflexivity.
  - apply wp_bind, wp_call.
    eapply wp_returns_bind;
      [apply (main_wifi_loop_without_link _ 0 0); unfold max_wifi_retries; lia|].
    intros r w1 [Hr Hf1]. apply Z.eqb_neq in Hr. rewrite Hr. cbn [negb].
    apply wp_bind, wp_bind, wp_log, wp_log, wp_bind, wp_log, wp_ret.
    cbn [trace]. rewrite !List.filter_app, Hf1. cbn [trace after].
    rewrite !List.filter_app. simpl. rewrite !app_nil_r. reflexivity.
Qed.

Lemma main_loop_without_link (its : list iter_in) (w : world) :
  wp env (main_loop its)
     (fun _ w' =>
        List.filter is_session_call (trace w') = List.filter is_session_call (trace w))
     (fun _ w' =>
        List.filter is_session_call (trace w') = List.filter is_session_call (trace w))
     w.
Proof.
  revert w. induction its as [|it its IH]; intros w; [reflexivity|].
  cbn [main_loop]. apply wp_bind.
  eapply wp_mono;
    [apply (main_iter_filter env is_session_call _ _ _ w no_bringup_no_session)| |auto].
  - intros w1. eapply wp_mono; [apply (reconnect_without_link w1)|auto|intros e w' []].
  - intros [] w1 H1. eapply wp_mono; [apply IH| |];
      intros ? w' Hw'; rewrite Hw'; exact H1.
Qed.

End LinkFirst.

(** * The claims *)

(** C5: for every device address, build_read_cmd writes exactly the
    eight bytes address, 0x03, 0x00, 0x01, 0x00, 0x26, CRC low byte, CRC
    high byte, whatever the buffer held before, where the CRC is taken
    over the first six bytes; and modbus_crc16 computes, on every byte
    sequence, the CRC as the specification words it (preset 0xFFFF,
    reflected polynomial 0xA001, one iteration per input bit, eight per
    byte), a 16-bit value. *)
Theorem build_read_cmd_frame (tx_stack bytes : list Z) (id : Z) :
  length tx_stack = 8%nat -> is_u8 id -> Forall is_u8 bytes ->
  let crc := crc16_spec [id; 0x03; 0x00; 0x01; 0x00; 0x26] in
  build_read_cmd tx_stack id =
    Some [id; 0x03; 0x00; 0x01; 0x00; 0x26; crc mod 256; crc / 256] /\
  modbus_crc16 bytes (Z.of_nat (length bytes)) = Some (crc16_spec bytes) /\
  is_u16 (crc16_spec bytes).
Proof.
  intros Hlen Hid Hbytes crc.
  assert (Hhdr : Forall is_u8 [id; 0x03; 0x00; 0x01; 0x00; 0x26]).
  { repeat constructor; unfold is_u8 in *; lia. }
  split; [|split].
  - rewrite (build_read_cmd_run _ _ Hlen Hid).
    rewrite (crc16_refines_spec _ Hhdr). reflexivity.
  - rewrite modbus_crc16_fold by lia.
    rewrite Nat2Z.id, firstn_all. f_equal. apply crc16_refines_spec, Hbytes.
  - rewrite <- crc16_refines_spec by exact Hbytes. apply crc16_range, Hbytes.
Qed.

Lemma build_read_cmd_frame_witness :
  build_read_cmd [0; 0; 0; 0; 0; 0; 0; 0] MODBUS_SLAVE_ID =
    Some [1; 0x03; 0x00; 0x01; 0x00; 0x26; 0x95; 0xD0] /\
  modbus_crc16 [49; 50; 51; 52; 53; 54; 55; 56; 57] 9 = Some 0x4B37.
Proof.
  assert (H8 : Forall is_u8 [49; 50; 51; 52; 53; 54; 55; 56; 57]).
  { apply bytes_by_check. vm_compute. reflexivity. }
  assert (H1 : is_u8 MODBUS_SLAVE_ID) by (unfold is_u8, MODBUS_SLAVE_ID; lia).
  destruct (build_read_cmd_frame [0; 0; 0; 0; 0; 0; 0; 0] _ MODBUS_SLAVE_ID
              eq_refl H1 H8) as (Hf & Hc & _).
  split; [exact Hf | exact Hc].
Defined.

(** C1, as stated, fails: a 69-byte frame whose trailing two bytes
    differ from the CRC of the bytes before them is not reported as a
    CRC error (it is reported as incomplete), and the threshold 70 is
    not 3 + 2 * 38 + 2. *)
Lemma validation_claim_counterexample :
  let rx_buf := repeat 0 256 in
  let frame := take 69 rx_buf in
  ~ (last_log (parse_response rx_buf 69 env_silent world_init) =
       Some "CRC error (recv: 0x%04X, calc: 0x%04X)"
     <-> trailer frame <> crc16 (take 67 frame))
  /\ 3 + 2 * 38 + 2 <> 70.
Proof.
  split; [|discriminate].
  intros [_ Hcrc].
  assert (Hne : trailer (take 69 (repeat 0 256)) <>
                crc16 (take 67 (take 69 (repeat 0 256)))).
  { vm_compute. discriminate. }
  specialize (Hcrc Hne). vm_compute in Hcrc. discriminate.
Qed.

(** C1, amended: validation makes its checks in order and the first one
    that fails decides.  The response is rejected as incomplete iff its
    length is below 70; otherwise with a CRC error iff the trailing two
    bytes, low byte first, differ from crc16 of the bytes before them;
    otherwise with the one header error iff byte 0 is not the device
    address or byte 1 is not 0x03.  Each rejection returns -1 and logs
    its own line; an accepted response returns 0 and is decoded from
    byte 3 of the frame on. *)
Theorem validation_order (env : oracle) (rx_buf : list Z) (rx_len : Z) (w : world) :
  Forall is_u8 rx_buf ->
  Z.of_nat (length rx_buf) = MODBUS_RX_BUFFER ->
  0 <= rx_len <= MODBUS_RX_BUFFER ->
  let frame := take (Z.to_nat rx_len) rx_buf in
  let crc := crc16 (take (length frame - 2) frame) in
  exists r w',
    parse_response rx_buf rx_len env w = Ok r w' /\
    trace w' = trace w ++ verdict_log (validate frame) frame /\
    (validate frame = Incomplete <-> rx_len < 70) /\
    (validate frame = CrcError <-> 70 <= rx_len /\ trailer frame <> crc) /\
    (validate frame = InvalidHeader <->
       70 <= rx_len /\ trailer frame = crc /\
       (frame !!! 0%nat <> MODBUS_SLAVE_ID \/ frame !!! 1%nat <> 0x03)) /\
    (validate frame = Accepted <-> r = 0) /\
    (validate frame <> Accepted <-> r = -1) /\
    (r = 0 ->
       meter_data (globals w') = decode (drop 3 rx_buf) /\
       forall i, (3 + i < Z.to_nat rx_len)%nat ->
                 drop 3 rx_buf !!! i = frame !!! (3 + i)%nat).
Proof.
  intros Hu8 Hlen Hrx frame crc.
  pose proof (parse_response_run env rx_buf rx_len w Hu8 Hlen Hrx) as Hrun.
  cbv zeta in Hrun. fold frame in Hrun.
  rewrite Hrun. clear Hrun. unfold MODBUS_RX_BUFFER in *.
  pose proof (frame_length rx_buf rx_len) as Hfl. fold frame in Hfl.
  specialize (Hfl ltac:(lia)).
  eexists _, _. split; [reflexivity|]. cbn [trace globals meter_data set_meter_data].
  split; [reflexivity|].
  unfold validate. fold crc. rewrite Hfl.
  destruct (rx_len <? 70) eqn:H70;
    [apply Z.ltb_lt in H70|apply Z.ltb_ge in H70].
  { repeat split; intros; try lia; try discriminate; try tauto. }
  destruct (trailer frame =? crc) eqn:Hc;
    [apply Z.eqb_eq in Hc|apply Z.eqb_neq in Hc]; cbn [negb].
  2:{ repeat split; intros; try lia; try discriminate; try tauto. }
  destruct (frame !!! 0%nat =? MODBUS_SLAVE_ID) eqn:Hid;
    [apply Z.eqb_eq in Hid|apply Z.eqb_neq in Hid]; cbn [negb orb].
  2:{ repeat split; intros; try lia; try discriminate; try tauto. }
  destruct (frame !!! 1%nat =? 3) eqn:Hfc;
    [apply Z.eqb_eq in Hfc|apply Z.eqb_neq in Hfc]; cbn [negb orb].
  2:{ repeat split; intros; try lia; try discriminate; try tauto. }
  repeat split; intros; try lia; try discriminate; try tauto.
  unfold frame. rewrite frame_total by lia.
  rewrite !list_lookup_total_alt, lookup_drop. reflexivity.
Qed.

Lemma validation_order_witness :
  exists r w',
    parse_response reply_low_word_one 81 env_silent world_init = Ok r w' /\
    r = 0 /\
    trace w' = [Log "Meter data read successfully" []].
Proof.
  assert (Hu8 : Forall is_u8 reply_low_word_one).
  { apply bytes_by_check. vm_compute. reflexivity. }
  destruct (validation_order env_silent reply_low_word_one 81 world_init Hu8
              eq_refl ltac:(unfold MODBUS_RX_BUFFER; lia))
    as (r & w' & Hrun & Htr & _ & _ & _ & Hacc & _).
  exists r, w'. split; [exact Hrun|]. split.
  - apply Hacc. vm_compute. reflexivity.
  - rewrite Htr. vm_compute. reflexivity.
Defined.

(** C2, as stated, fails for the three register pairs read through
    read_u32: on an accepted reply whose first pair is the words 0x0001,
    0x0000 the decoded flow is 1, not (0x0001 << 16) | 0x0000 = 65536;
    the first word of the pair holds the low 16 bits. *)
Lemma decoder_claim_counterexample :
  let d := drop 3 reply_low_word_one in
  exists w',
    parse_response reply_low_word_one 81 env_silent world_init = Ok 0 w' /\
    flow_rate (meter_data (globals w')) = 1 /\
    pair_high_first d 0 = 65536 /\
    flow_rate (meter_data (globals w')) <> pair_high_first d 0.
Proof.
  eexists. split; [vm_compute; reflexivity|].
  split; [vm_compute; reflexivity|].
  split; [vm_compute; reflexivity|].
  vm_compute. discriminate.
Qed.

(** C2, amended: on an accepted response the decoder fills every field
    from fixed offsets of the payload (the buffer from byte 3 on), each
    16-bit register high byte first: flow, forward total and reverse
    total from the pairs at 0, 12 and 18 with the FIRST register of the
    pair as the low 16 bits and the second as the high 16 bits; the
    serial number from the pair at 64 with the first register as the high
    16 bits; pressure at 36, status at 38, temperature at 58, bus address
    at byte 69, baud code at 72.  The decoder has no failure path, and
    when at least 77 bytes were received every byte it reads is a received
    one. *)
Theorem decoder_fields (env : oracle) (rx_buf : list Z) (rx_len : Z) (w : world) :
  Forall is_u8 rx_buf ->
  Z.of_nat (length rx_buf) = MODBUS_RX_BUFFER ->
  0 <= rx_len <= MODBUS_RX_BUFFER ->
  validate (take (Z.to_nat rx_len) rx_buf) = Accepted ->
  let d := drop 3 rx_buf in
  exists w',
    parse_response rx_buf rx_len env w = Ok 0 w' /\
    let m := meter_data (globals w') in
    flow_rate m = 65536 * be16 d 2 + be16 d 0 /\
    forward_total m = 65536 * be16 d 14 + be16 d 12 /\
    reverse_total m = 65536 * be16 d 20 + be16 d 18 /\
    pressure m = be16 d 36 /\
    status m = be16 d 38 /\
    temperature m = be16 d 58 /\
    serial_number m = 65536 * be16 d 64 + be16 d 66 /\
    modbus_id m = d !!! 69%nat /\
    baud_code m = be16 d 72 /\
    valid m = true /\
    (77 <= rx_len ->
     forall i, (i < 74)%nat ->
               d !!! i = take (Z.to_nat rx_len) rx_buf !!! (3 + i)%nat).
Proof.
  intros Hu8 Hlen Hrx Hacc d.
  pose proof (parse_response_run env rx_buf rx_len w Hu8 Hlen Hrx) as Hrun.
  cbv zeta in Hrun. rewrite Hacc in Hrun.
  eexists. split; [exact Hrun|].
  cbn [globals meter_data set_meter_data]. fold d.
  repeat split; try reflexivity.
  intros H77 i Hi. rewrite frame_total by lia.
  unfold d. rewrite !list_lookup_total_alt, lookup_drop. reflexivity.
Qed.

Lemma decoder_fields_witness :
  exists w',
    parse_response reply_low_word_one 81 env_silent world_init = Ok 0 w' /\
    flow_rate (meter_data (globals w')) = 1 /\
    valid (meter_data (globals w')) = true.
Proof.
  assert (Hu8 : Forall is_u8 reply_low_word_one).
  { apply bytes_by_check. vm_compute. reflexivity. }
  assert (Hacc : validate (take (Z.to_nat 81) reply_low_word_one) = Accepted).
  { vm_compute. reflexivity. }
  destruct (decoder_fields env_silent reply_low_word_one 81 world_init Hu8
              eq_refl ltac:(unfold MODBUS_RX_BUFFER; lia) Hacc)
    as (w' & Hrun & Hflow & _ & _ & _ & _ & _ & _ & _ & _ & Hvalid & _).
  exists w'. split; [exact Hrun|]. split; [|exact Hvalid].
  rewrite Hflow. vm_compute. reflexivity.
Defined.

(** C9: whenever read_meter_data returns a failure, the only thing it
    has changed in the global reading is the valid flag, now false; every
    numeric field still holds what the last successful poll left. *)
Theorem failed_poll_keeps_reading (env : oracle) (fuel : nat)
    (tx_stack rx_stack : list Z) (w w' : world) (r : Z) :
  read_meter_data fuel tx_stack rx_stack env w = Ok r w' ->
  r <> 0 ->
  let m := meter_data (globals w) in
  let m' := meter_data (globals w') in
  r = -1 /\
  m' = set_valid false m /\
  valid m' = false /\
  flow_rate m' = flow_rate m /\
  forward_total m' = forward_total m /\
  reverse_total m' = reverse_total m /\
  pressure m' = pressure m /\
  temperature m' = temperature m /\
  status m' = status m /\
  serial_number m' = serial_number m /\
  modbus_id m' = modbus_id m /\
  baud_code m' = baud_code m.
Proof.
  intros Hrun Hr m m'.
  pose proof (read_meter_data_rejects env fuel tx_stack rx_stack w) as H.
  unfold wp in H. rewrite Hrun in H. destruct (H Hr) as [-> Hm].
  unfold m'. rewrite Hm. repeat split; reflexivity.
Qed.

Lemma failed_poll_keeps_reading_witness :
  exists w',
    read_meter_data 400 (repeat 0 8) (repeat 0 256) env_silent
      (world_with sample_reading false) = Ok (-1) w' /\
    meter_data (globals w') = set_valid false sample_reading.
Proof.
  destruct (read_meter_data 400 (repeat 0 8) (repeat 0 256) env_silent
              (world_with sample_reading false)) as [r w'|e w'] eqn:Hrun.
  - assert (Hr : r = -1) by (vm_compute in Hrun; congruence).
    subst r. exists w'. split; [reflexivity|].
    exact (proj1 (proj2 (failed_poll_keeps_reading env_silent 400 _ _ _ w' (-1)
                           Hrun ltac:(discriminate)))).
  - vm_compute in Hrun. discriminate.
Defined.

(** C10: the receive loop never writes outside the 256-byte receive
    buffer.  For every arrival sequence and every timing, a whole meter
    transaction never stops at a memory fault (a store or load outside an
    array is one in this model); at loop exit the buffer still has 256
    bytes and the count is between 0 and 256, so that after the length
    check the reads at count-2 and count-1 are inside the buffer. *)
Theorem rx_buffer_in_bounds (env : oracle) (fuel : nat)
    (tx_stack rx_stack : list Z) (start : Z) (w : world) :
  length tx_stack = 8%nat ->
  Z.of_nat (length rx_stack) = MODBUS_RX_BUFFER ->
  Forall is_u8 rx_stack ->
  wp env (read_meter_data fuel tx_stack rx_stack)
     (fun _ _ => True) (fun e _ => e = OutOfFuel) w /\
  wp env (rx_loop fuel start
            {| rx_buf := rx_stack; rx_len := 0; last_byte := start |})
     (fun l' _ =>
        Z.of_nat (length (rx_buf l')) = MODBUS_RX_BUFFER /\
        0 <= rx_len l' <= MODBUS_RX_BUFFER /\
        (70 <= rx_len l' ->
         exists lo hi,
           load (rx_buf l') (rx_len l' - 2) = Some lo /\
           load (rx_buf l') (rx_len l' - 1) = Some hi))
     (fun e _ => e = OutOfFuel) w.
Proof.
  intros Htx Hrx Hu8. split.
  - apply read_meter_data_no_fault; assumption.
  - eapply wp_mono;
      [apply rx_loop_bounds; cbn [rx_buf rx_len];
       (assumption || (unfold MODBUS_RX_BUFFER; lia))| |auto].
    intros l' _ (Hl & Hr & _). split; [exact Hl|]. split; [exact Hr|].
    intros H70.
    destruct (load_in_range (rx_buf l') (rx_len l' - 2)) as [lo Hlo]; [lia|].
    destruct (load_in_range (rx_buf l') (rx_len l' - 1)) as [hi Hhi]; [lia|].
    exists lo, hi. split; assumption.
Qed.

Lemma rx_buffer_in_bounds_witness :
  wp env_silent (read_meter_data 400 (repeat 0 8) (repeat 0 256))
     (fun _ _ => True) (fun e _ => e = OutOfFuel) world_init.
Proof.
  assert (Hu8 : Forall is_u8 (repeat 0 256)).
  { apply bytes_by_check. vm_compute. reflexivity. }
  exact (proj1 (rx_buffer_in_bounds env_silent 400 (repeat 0 8) (repeat 0 256) 0
                  world_init eq_refl eq_refl Hu8)).
Defined.

(** C6: the receive loop terminates for every sequence of byte arrivals,
    provided every outside call overruns by at most D ms (k_msleep by
    its nature lasting at least the time asked): 400 iterations suffice.
    The time spent in the loop stays below 2000 ms plus one iteration
    (5 + 2 D); once more than 3 bytes are held, the silence seen at exit
    is at most 150 ms plus one iteration; the loop stops because the
    2000 ms have elapsed, because the 256-byte buffer is full, or because
    with at least 4 bytes held no byte came for more than 150 ms.  Any
    count from 0 to 256 is a normal result. *)
Theorem rx_loop_terminates (env : oracle) (D : Z) (fuel : nat)
    (rx_stack : list Z) (w : world) :
  timely D env ->
  2 * D + 2005 < 4294967296 ->
  Z.of_nat (length rx_stack) = MODBUS_RX_BUFFER ->
  Forall is_u8 rx_stack ->
  (400 <= fuel)%nat ->
  let start := u32 (now w) in
  exists l' w',
    rx_loop fuel start
      {| rx_buf := rx_stack; rx_len := 0; last_byte := start |} env w
      = Ok l' w' /\
    now w <= now w' /\
    now w' - now w < 2005 + 2 * D /\
    0 <= rx_len l' <= MODBUS_RX_BUFFER /\
    (3 < rx_len l' -> u32 (u32 (now w') - last_byte l') <= 155 + 2 * D) /\
    rx_exit_reason (now w) l' w'.
Proof.
  intros Ht HD Hlen Hu8 Hfuel start.
  pose proof (D_nonneg env D Ht) as HD0.
  assert (Hb : 0 <= 0 < MODBUS_RX_BUFFER) by (unfold MODBUS_RX_BUFFER; lia).
  pose proof (rx_loop_deadline env D Ht HD (now w) fuel (now w)
                {| rx_buf := rx_stack; rx_len := 0; last_byte := start |} w
                Hlen Hb ltac:(lia) eq_refl ltac:(cbn [rx_len]; lia)
                ltac:(lia) ltac:(lia)) as H1.
  pose proof (rx_loop_bounds env fuel start
                {| rx_buf := rx_stack; rx_len := 0; last_byte := start |} w
                Hlen Hb Hu8) as H2.
  fold start in H1. unfold returns, wp in H1, H2.
  destruct (rx_loop fuel start _ env w) as [l' w'|e w']; [|contradiction].
  exists l', w'. split; [reflexivity|].
  destruct H1 as (Ha & Hb' & Hc & Hd). destruct H2 as (_ & Hr & _).
  repeat split; (assumption || lia).
Qed.

Lemma rx_loop_terminates_witness :
  exists l' w',
    rx_loop 400 0 {| rx_buf := repeat 0 256; rx_len := 0; last_byte := 0 |}
      env_silent world_init = Ok l' w' /\
    now w' - 0 < 2005 /\
    0 <= rx_len l' <= MODBUS_RX_BUFFER.
Proof.
  assert (Hu8 : Forall is_u8 (repeat 0 256)).
  { apply bytes_by_check. vm_compute. reflexivity. }
  assert (Ht : timely 0 env_silent).
  { intros n a. destruct a; simpl; lia. }
  destruct (rx_loop_terminates env_silent 0 400 (repeat 0 256) world_init
              Ht ltac:(lia) eq_refl Hu8 ltac:(lia))
    as (l' & w' & Hrun & _ & Hb & Hr & _).
  exists l', w'. split; [exact Hrun|]. split; [exact Hb|exact Hr].
Defined.

(** C3, as stated, fails: after the link came up and was lost again, a
    successful session acknowledgment sets mqtt_connected although no
    link-established signal was seen since the loss; the handlers do not
    look at the link.  The firmware itself accepts that order of events:
    thingsboard_connect returns 0 with mqtt_connected set when the link
    is lost during one poll slice and the acknowledgment is read in the
    next. *)
Lemma readiness_claim_counterexample :
  mqtt_connected (deliver link_lost_before_ack state_init) = true /\
  ready_as_stated link_lost_before_ack = false /\
  exists w',
    @thingsboard_connect sample_platform env_link_lost world_init = Ok 0 w' /\
    mqtt_connected (globals w') = true.
Proof.
  split; [reflexivity|]. split; [reflexivity|].
  eexists. split; vm_compute; reflexivity.
Qed.

(** C3, amended: mqtt_connected is written by the event handlers only.
    An event leaves it true exactly when it is a successful session
    acknowledgment (CONNACK with result 0), or it was true and the event
    is neither a link loss, a session disconnect nor a refused
    acknowledgment; each of those three forces it to false at once.
    Hence in every state reached from the initial one where it is true, a
    successful acknowledgment was seen and no such event after it.  It is
    never set on sending the connect request: while no successful
    acknowledgment is delivered, thingsboard_connect leaves it false.
    Whether a link-established signal was seen plays no part. *)
Theorem readiness_follows_ack `{Platform} (env : oracle) (w : world)
    (evs : list event) (e : event) (s : state) :
  (mqtt_connected (handle e s) = true <->
     session_ack e = true \/ (mqtt_connected s = true /\ drops e = false)) /\
  (drops e = true -> mqtt_connected (handle e s) = false) /\
  (mqtt_connected (deliver evs state_init) = true ->
     exists pre post,
       evs = pre ++ [MqttEvt (MQTT_EVT_CONNACK 0)] ++ post /\
       forallb (fun e => negb (drops e)) post = true) /\
  (never session_ack env ->
   mqtt_connected (globals w) = false ->
   returns env thingsboard_connect
     (fun _ w' => mqtt_connected (globals w') = false) w).
Proof.
  split; [|split; [|split]].
  - rewrite handle_ready. destruct (session_ack e), (mqtt_connected s), (drops e);
      simpl; intuition congruence.
  - intros Hd. rewrite handle_ready, Hd.
    destruct e as [[?| |]|[|]|[result| |?|]]; try discriminate; simpl.
    + apply andb_false_r.
    + simpl in Hd. apply negb_true_iff in Hd. rewrite Hd. apply andb_false_r.
    + apply andb_false_r.
  - intros Hr. destruct (ready_has_ack evs state_init eq_refl Hr)
      as (pre & result & post & -> & -> & Hpost).
    exists pre, post. split; [reflexivity|exact Hpost].
  - apply request_leaves_unready.
Qed.

Lemma readiness_follows_ack_witness :
  (exists pre post,
     [WifiEvt (NET_EVENT_WIFI_CONNECT_RESULT 0); MqttEvt (MQTT_EVT_CONNACK 0);
      MqttEvt (MQTT_EVT_PUBACK 7)]
     = pre ++ [MqttEvt (MQTT_EVT_CONNACK 0)] ++ post /\
     forallb (fun e => negb (drops e)) post = true) /\
  mqtt_connected (handle (WifiEvt NET_EVENT_WIFI_DISCONNECT_RESULT)
                    (set_mqtt_connected true state_init)) = false /\
  returns env_silent (@thingsboard_connect sample_platform)
    (fun _ w' => mqtt_connected (globals w') = false) world_init.
Proof.
  assert (Hn : never session_ack env_silent).
  { intros n a e Hin. destruct a; simpl in Hin; contradiction. }
  destruct (@readiness_follows_ack sample_platform env_silent world_init
              [WifiEvt (NET_EVENT_WIFI_CONNECT_RESULT 0);
               MqttEvt (MQTT_EVT_CONNACK 0); MqttEvt (MQTT_EVT_PUBACK 7)]
              (WifiEvt NET_EVENT_WIFI_DISCONNECT_RESULT)
              (set_mqtt_connected true state_init))
    as (_ & Hdrop & Hack & Hreq).
  split; [exact (Hack eq_refl)|].
  split; [exact (Hdrop eq_refl)|exact (Hreq Hn eq_refl)].
Defined.





(** Every poll finds nothing and uses up its whole timeout; otherwise as
    [env_silent]. *)
Definition env_poll_blocks : oracle := fun n a =>
  match a with
  | ZsockPoll ms => {| x_ret := 0; x_out := 0; x_evs := []; x_dt := ms |}
  | _ => env_silent n a
  end.




(** * Further properties of the firmware *)

(** ** The CRC of a frame that carries its own CRC *)

Section CrcResidue.

(** Feeding the register its own low byte cancels that byte: all 65536
    register values are checked. *)
Lemma crc_byte_low_checked :
  forallb (fun hi =>
     forallb (fun lo =>
        crc_byte (256 * Z.of_nat hi + Z.of_nat lo) (Z.of_nat lo) =? Z.of_nat hi)
       (seq 0 256))
    (seq 0 256) = true.
Proof. vm_compute. reflexivity. Qed.

Lemma crc_byte_low (c : Z) : is_u16 c -> crc_byte c (c mod 256) = c / 256.
Proof.
  intros Hc. unfold is_u16 in Hc.
  assert (Hh : 0 <= c / 256 < 256).
  { split; [apply Z.div_pos; lia|apply Z.div_lt_upper_bound; lia]. }
  pose proof (Z.mod_pos_bound c 256 ltac:(lia)) as Hl.
  pose proof (proj1 (forallb_forall _ _) crc_byte_low_checked
                (Z.to_nat (c / 256))) as Hhi.
  cbv beta in Hhi.
  assert (Hin : forall n, (n < 256)%nat -> In n (seq 0 256)).
  { intros n Hn. apply in_seq. lia. }
  specialize (Hhi (Hin (Z.to_nat (c / 256)) ltac:(lia))).
  pose proof (proj1 (forallb_forall _ _) Hhi (Z.to_nat (c mod 256))
                (Hin (Z.to_nat (c mod 256)) ltac:(lia))) as Hlo.
  cbv beta in Hlo. rewrite !Z2Nat.id in Hlo by lia.
  apply Z.eqb_eq in Hlo. rewrite <- Z.div_mod in Hlo by lia. exact Hlo.
Qed.

Lemma crc16_app (bytes more : list Z) :
  crc16 (bytes ++ more) = fold_left crc_byte more (crc16 bytes).
Proof. unfold crc16. apply fold_left_app. Qed.

Lemma crc16_own_trailer (bytes : list Z) :
  Forall is_u8 bytes ->
  crc16 (bytes ++ [Z.land (crc16 bytes) 0xFF;
                   Z.land (Z.shiftr (crc16 bytes) 8) 0xFF]) = 0.
Proof.
  intros Hb. pose proof (crc16_range bytes Hb) as Hc.
  rewrite crc16_app. remember (crc16 bytes) as c eqn:Ec. clear Ec.
  unfold is_u16 in Hc.
  rewrite !land_255, Z.shiftr_div_pow2 by lia. change (2 ^ 8) with 256.
  assert (Hh : 0 <= c / 256 < 256).
  { split; [apply Z.div_pos; lia|apply Z.div_lt_upper_bound; lia]. }
  rewrite (Z.mod_small (c / 256)) by lia.
  cbn [fold_left]. rewrite crc_byte_low by (unfold is_u16; lia).
  rewrite <- (Z.mod_small (c / 256) 256) at 2 by lia.
  rewrite crc_byte_low by (unfold is_u16; lia).
  apply Z.div_small. lia.
Qed.

End CrcResidue.

(** X1: a byte sequence followed by its own CRC, low byte first as
    build_read_cmd appends it, has CRC 0: modbus_crc16 over the whole
    returns 0.  In particular the CRC of all eight bytes of the request
    that build_read_cmd writes is 0, for every device address. *)
Theorem crc16_residue (bytes tx_stack : list Z) (id : Z) :
  Forall is_u8 bytes ->
  length tx_stack = 8%nat ->
  is_u8 id ->
  let crc := crc16 bytes in
  modbus_crc16 (bytes ++ [Z.land crc 0xFF; Z.land (Z.shiftr crc 8) 0xFF])
               (Z.of_nat (length bytes) + 2) = Some 0 /\
  exists frame,
    build_read_cmd tx_stack id = Some frame /\
    modbus_crc16 frame 8 = Some 0.
Proof.
  intros Hb Htx Hid crc. split.
  - rewrite modbus_crc16_fold by (rewrite length_app; simpl; lia).
    replace (Z.to_nat (Z.of_nat (length bytes) + 2))
      with (length (bytes ++ [Z.land crc 255; Z.land (Z.shiftr crc 8) 255]))
      by (rewrite length_app; simpl; lia).
    rewrite firstn_all. f_equal. apply crc16_own_trailer, Hb.
  - rewrite (build_read_cmd_run _ _ Htx Hid). eexists. split; [reflexivity|].
    assert (Hhdr : Forall is_u8 [id; 0x03; 0x00; 0x01; 0x00; 0x26]).
    { repeat constructor; unfold is_u8 in *; lia. }
    pose proof (crc16_own_trailer _ Hhdr) as Hres.
    pose proof (crc16_range _ Hhdr) as Hr. unfold is_u16 in Hr.
    rewrite !land_255, Z.shiftr_div_pow2 in Hres by lia. change (2 ^ 8) with 256 in Hres.
    rewrite (Z.mod_small (_ / 256)) in Hres
      by (split; [apply Z.div_pos; lia|apply Z.div_lt_upper_bound; lia]).
    rewrite modbus_crc16_fold by (simpl; lia).
    change (Z.to_nat 8) with 8%nat. cbn [take]. f_equal. exact Hres.
Qed.

Lemma crc16_residue_witness :
  modbus_crc16 [49; 50; 51; 52; 53; 54; 55; 56; 57; 0x37; 0x4B] 11 = Some 0.
Proof.
  assert (H9 : Forall is_u8 [49; 50; 51; 52; 53; 54; 55; 56; 57]).
  { apply bytes_by_check. vm_compute. reflexivity. }
  assert (H1 : is_u8 MODBUS_SLAVE_ID) by (unfold is_u8, MODBUS_SLAVE_ID; lia).
  exact (proj1 (crc16_residue [49; 50; 51; 52; 53; 54; 55; 56; 57]
                  [0; 0; 0; 0; 0; 0; 0; 0] MODBUS_SLAVE_ID H9 eq_refl H1)).
Defined.

(** ** Meter transactions *)

(** X2: a meter transaction always ends, and its result agrees with the
    valid flag it leaves behind: it returns 0 with the flag set, or -1
    with the flag clear; there is no other outcome.  (The test
    [ret == 0 && meter_data.valid] of main is decided by [ret] alone.) *)
Theorem read_result_is_valid_flag (env : oracle) (D : Z) (fuel : nat)
    (tx_stack rx_stack : list Z) (w : world) :
  timely D env ->
  2 * D + 2005 < 4294967296 ->
  (400 <= fuel)%nat ->
  length tx_stack = 8%nat ->
  Z.of_nat (length rx_stack) = MODBUS_RX_BUFFER ->
  Forall is_u8 rx_stack ->
  returns env (read_meter_data fuel tx_stack rx_stack)
    (fun r w' =>
       (r = 0 /\ valid (meter_data (globals w')) = true) \/
       (r = -1 /\ valid (meter_data (globals w')) = false)) w.
Proof.
  intros Ht HD Hfuel Htx Hrx Hu8. unfold returns. eapply wp_mono;
    [apply (read_meter_data_transaction env D Ht HD fuel tx_stack rx_stack w
              Hfuel Htx Hrx Hu8)| |auto].
  intros r w' (l & rxio & _ & _ & _ & _ & _ & -> & ->).
  destruct (validate (received l)); [right|right|right|left];
    split; reflexivity.
Qed.

Lemma read_result_is_valid_flag_witness :
  returns env_silent (read_meter_data 400 (repeat 0 8) (repeat 0 256))
    (fun r w' =>
       (r = 0 /\ valid (meter_data (globals w')) = true) \/
       (r = -1 /\ valid (meter_data (globals w')) = false)) world_init.
Proof.
  assert (Hu8 : Forall is_u8 (repeat 0 256)).
  { apply bytes_by_check. vm_compute. reflexivity. }
  assert (Ht : timely 0 env_silent).
  { intros n a. destruct a; simpl; lia. }
  exact (read_result_is_valid_flag env_silent 0 400 (repeat 0 8) (repeat 0 256)
           world_init Ht ltac:(lia) ltac:(lia) eq_refl eq_refl Hu8).
Defined.



(** ** Bring-up in any surroundings *)

(** X4: whatever the network does, wifi_connect returns: with 0, with
    -ENODEV or with -ETIMEDOUT, after at most 10 connect requests.  It
    returns 0 only if a successful connect result was delivered and only
    if an address event was delivered: with either of them missing from
    the surroundings every attempt times out. *)
Theorem wifi_connect_always_returns `{Platform} (env : oracle) (w : world) :
  returns env wifi_connect
    (fun r w' =>
       (r = 0 \/ r = - ENODEV \/ r = - ETIMEDOUT) /\
       (wifi_reqs w' <= wifi_reqs w + 10)%nat /\
       (never link_up env -> r <> 0) /\
       (never addr_added env -> r <> 0)) w.
Proof.
  pose proof (wifi_connect_outcomes env w) as H1.
  pose proof (fun Hn => wifi_connect_needs_link env w Hn) as H2.
  pose proof (fun Hn => wifi_connect_needs_address env w Hn) as H3.
  unfold returns, wp in *.
  destruct (wifi_connect env w) as [r w'|e w']; [|exact H1].
  destruct H1 as [Hr Hc]. repeat split; assumption.
Qed.

(** X5: whatever the broker does, thingsboard_connect returns, after at
    most 5 connect requests, and it reports success only on what the
    event handler recorded: it returns 0 with mqtt_connected set at that
    moment, or -ECONNREFUSED; entered with the flag clear, it cannot
    return 0 unless a successful acknowledgment is delivered. *)
Theorem thingsboard_connect_always_returns `{Platform} (env : oracle) (w : world) :
  returns env thingsboard_connect
    (fun r w' =>
       ((r = 0 /\ mqtt_connected (globals w') = true) \/ r = - ECONNREFUSED) /\
       (session_reqs w' <= session_reqs w + 5)%nat /\
       (never session_ack env -> mqtt_connected (globals w) = false -> r <> 0)) w.
Proof.
  pose proof (thingsboard_connect_outcomes env w) as H1.
  pose proof (fun Hn Hc => request_leaves_unready env w Hn Hc) as H2.
  unfold returns, wp in *.
  destruct (thingsboard_connect env w) as [r w'|e w']; [|exact H1].
  destruct H1 as [Hr Hc]. repeat split; try assumption.
  intros Hn Hc0 ->. specialize (H2 Hn Hc0).
  destruct Hr as [[_ Ht]|Hr]; [congruence|].
  pose proof errno_positive. lia.
Qed.

(** ** Callbacks *)

Lemma handle_frame (e : event) (s : state) :
  meter_data (handle e s) = meter_data s /\
  attrs_sent (handle e s) = attrs_sent s /\
  mqtt_sock (handle e s) = mqtt_sock s /\
  loop_count (handle e s) = loop_count s /\
  (0 <= wifi_connected s <= 1 -> 0 <= wifi_connected (handle e s) <= 1) /\
  (0 <= ipv4_obtained s <= 1 -> 0 <= ipv4_obtained (handle e s) <= 1).
Proof.
  destruct e as [[status| |]|[|]|[result| |id|]]; simpl;
    try (repeat split; (reflexivity || tauto || (unfold k_sem_reset; lia))).
  - destruct (status =? 0); simpl; repeat split; try reflexivity; try tauto;
      unfold k_sem_give; destruct (wifi_connected s <? 1) eqn:E; lia.
  - repeat split; try reflexivity; try tauto;
      unfold k_sem_give; destruct (ipv4_obtained s <? 1) eqn:E; lia.
  - destruct (negb (result =? 0)); simpl; repeat split; (reflexivity || tauto).
Qed.

(** X6: the three callbacks (wifi_event_handler, ipv4_event_handler,
    mqtt_evt_handler) write nothing but the readiness flag and the two
    semaphores: however many events are delivered, the meter reading, the
    attributes-sent flag, the socket field and the pass counter are left
    as they were, and a semaphore that was within its limit of 1 stays
    within it. *)
Theorem callbacks_frame (evs : list event) (s : state) :
  meter_data (deliver evs s) = meter_data s /\
  attrs_sent (deliver evs s) = attrs_sent s /\
  mqtt_sock (deliver evs s) = mqtt_sock s /\
  loop_count (deliver evs s) = loop_count s /\
  (0 <= wifi_connected s <= 1 -> 0 <= wifi_connected (deliver evs s) <= 1) /\
  (0 <= ipv4_obtained s <= 1 -> 0 <= ipv4_obtained (deliver evs s) <= 1).
Proof.
  revert s. induction evs as [|e evs IH]; intros s; [repeat split; tauto|].
  change (deliver (e :: evs) s) with (deliver evs (handle e s)).
  destruct (IH (handle e s)) as (I1 & I2 & I3 & I4 & I5 & I6).
  destruct (handle_frame e s) as (F1 & F2 & F3 & F4 & F5 & F6).
  rewrite I1, I2, I3, I4, F1, F2, F3, F4.
  do 4 (split; [reflexivity|]).
  split; intros Hs; [apply I5, F5, Hs|apply I6, F6, Hs].
Qed.

(** ** The one way out of main *)

Lemma wp_trivial {A} (env : oracle) (m : prog A) (w : world) :
  wp env m (fun _ _ => True) (fun _ _ => True) w.
Proof. unfold wp. destruct (m env w); exact I. Qed.


(** ** Passes of the data loop *)

(** X8: a pass of the data loop never publishes a stale reading.  Every
    pass ends; if it leaves the reading invalid (its transaction was
    rejected) it has published nothing, and every message it did publish
    is the telemetry text or the attributes text of the reading it leaves
    in meter_data, which by the valid flag is the one decoded in this very
    pass. *)
Theorem pass_publishes_fresh_reading `{Platform} (env : oracle) (D : Z)
    (it : iter_in) (w : world) :
  timely D env ->
  2 * D + 2005 < 4294967296 ->
  good_iter it ->
  returns env (main_iter (it_fuel it) (it_tx_stack it) (it_rx_stack it))
    (fun _ w' =>
       exists added,
         trace w' = trace w ++ added /\
         (valid (meter_data (globals w')) = false ->
          List.filter is_publish added = []) /\
         Forall (pub_ok (meter_data (globals w'))) added) w.
Proof.
  intros Ht HD Hit. unfold returns. eapply wp_mono;
    [apply (main_iter_carries env D Ht HD it w Hit)| |auto].
  intros [] w' [[Hv (added & Ha & Hf)]|[Hv (added & Ha & Hf)]];
    exists added; (split; [exact Ha|]); split.
  - intros _. apply no_pub_filter, Hf.
  - eapply Forall_impl; [exact Hf|]. intros a. apply no_pub_ok.
  - intros Hv'. congruence.
  - exact Hf.
Qed.

Lemma pass_publishes_fresh_reading_witness :
  returns env_silent
    (@main_iter sample_platform 400 (repeat 0 8) (repeat 0 256))
    (fun _ w' =>
       exists added,
         trace w' = added /\
         (valid (meter_data (globals w')) = false ->
          List.filter is_publish added = []) /\
         Forall (pub_ok (meter_data (globals w'))) added) world_init.
Proof.
  assert (Hu8 : Forall is_u8 (repeat 0 256)).
  { apply bytes_by_check. vm_compute. reflexivity. }
  assert (Ht : timely 0 env_silent).
  { intros n a. destruct a; simpl; lia. }
  assert (Hit : good_iter {| it_fuel := 400; it_tx_stack := repeat 0 8;
                             it_rx_stack := repeat 0 256 |}).
  { unfold good_iter. cbn [it_fuel it_tx_stack it_rx_stack].
    split; [lia|]. split; [reflexivity|]. split; [reflexivity|exact Hu8]. }
  exact (@pass_publishes_fresh_reading sample_platform env_silent 0 _ world_init
           Ht ltac:(lia) Hit).
Defined.

(** X9: the bring-up is retried from the data loop on a fixed schedule.
    A pass makes bring-up calls (interface look-up, connect requests,
    semaphore waits, name resolution, session connect, poll, teardown)
    exactly when it is a tenth pass (the pass counter, bumped on entry,
    is a multiple of 10) and mqtt_connected is false on entry: then it
    starts with the look-up of the interface, otherwise it makes none. *)
Theorem reconnect_every_tenth_pass `{Platform} (env : oracle) (fuel : nat)
    (tx_stack rx_stack : list Z) (w : world) :
  let due := (Z.rem (loop_count (globals w) + 1) 10 =? 0)
             && negb (mqtt_connected (globals w)) in
  let outcome (w' : world) :=
    if due then tried_bringup (List.filter is_bringup (trace w)) w'
    else List.filter is_bringup (trace w') = List.filter is_bringup (trace w) in
  wp env (main_iter fuel tx_stack rx_stack)
     (fun _ w' => outcome w') (fun _ w' => outcome w') w.
Proof.
  intros due outcome. subst outcome. destruct due eqn:Hdue; subst due.
  - apply andb_true_iff in Hdue. destruct Hdue as [Hr Hc].
    apply Z.eqb_eq in Hr. apply negb_true_iff in Hc.
    apply main_iter_tries_bringup; assumption.
  - apply main_iter_no_bringup.
    apply andb_false_iff in Hdue. destruct Hdue as [Hr|Hc].
    + left. apply Z.eqb_neq, Hr.
    + right. apply negb_false_iff, Hc.
Qed.

(** ** Message buffers *)

Lemma fmt_bit_length (x n : Z) : String.length (fmt_u (bit x n)) = 1%nat.
Proof. destruct (bit_cases x n) as [-> | ->]; reflexivity. Qed.

(** X10: the message buffers are large enough.  Whatever the reading
    holds, the telemetry text that snprintf builds has at most 176
    characters and the attributes text at most 130, far below the 512
    and 256 bytes of the buffers; the texts are the complete JSON
    objects, never cut short. *)
Theorem payloads_fit (m : meter_data_t) :
  (String.length (telemetry_payload m) <= 176)%nat /\
  (String.length (attributes_payload m) <= 130)%nat /\
  telemetry_payload m = json_object (telemetry_fields m) /\
  attributes_payload m = json_object (attributes_fields m).
Proof.
  pose proof (fmt_u_length (flow_rate m)).
  pose proof (fmt_u_length (forward_total m)).
  pose proof (fmt_u_length (reverse_total m)).
  pose proof (fmt_u_length (pressure m)).
  pose proof (fmt_u_length (temperature m)).
  pose proof (fmt_u_length (status m)).
  pose proof (fmt_bit_length (status m) 2).
  pose proof (fmt_bit_length (status m) 5).
  pose proof (fmt_u_length (modbus_id m)).
  pose proof (baud_name_length (baud_code m)).
  assert (Hx : String.length (fmt_08X (serial_number m)) = 8%nat) by reflexivity.
  split; [|split; [|split; [apply telemetry_payload_json|apply attributes_payload_json]]].
  - rewrite telemetry_payload_json.
    unfold json_object, telemetry_fields, json_members, json_value.
    rewrite !string_length_app. unfold key, dq.
    rewrite ?string_length_app. cbn [String.length]. lia.
  - rewrite attributes_payload_json.
    unfold json_object, attributes_fields, json_members, json_value.
    rewrite !string_length_app. unfold key, dq.
    rewrite ?string_length_app. cbn [String.length]. lia.
Qed.

(** ** What the receive buffer holds *)

Lemma received_length (l : rx_locals) :
  Z.of_nat (length (rx_buf l)) = MODBUS_RX_BUFFER ->
  0 <= rx_len l <= MODBUS_RX_BUFFER ->
  Z.of_nat (length (received l)) = rx_len l.
Proof. intros Hl Hr. unfold received. rewrite length_take. lia. Qed.



(** A reply of 70 bytes with a good CRC, one byte per poll from call
    position 10 on, then silence. *)
Definition short_frame : list Z :=
  let body := [1; 3; 64] ++ repeat 0 65 in
  body ++ [crc16 body mod 256; crc16 body / 256].

Definition env_short_reply : oracle := fun n a =>
  match a with
  | UartPollIn =>
      if (10 <=? n)%nat && Nat.even n && ((n - 10) / 2 <? 70)%nat
      then {| x_ret := 0; x_out := nth ((n - 10) / 2) short_frame 0;
              x_evs := []; x_dt := 0 |}
      else {| x_ret := -1; x_out := 0; x_evs := []; x_dt := 0 |}
  | _ => env_silent n a
  end.



(** ** The two firmware variants *)

(** X13: the stand-alone reader and the integrated firmware judge and
    decode a reply alike, except at the edges.  For every buffer and
    count, the reader prints OK exactly when the integrated validation
    accepts and more than 70 bytes were received, and the numbers it
    prints are those of the reading the integrated firmware stores
    (integer and fraction parts of flow/100, totals/1000, pressure/1000,
    temperature/100; status, serial, bus address and baud code as they
    are).  They differ in three places: a valid reply of exactly 70
    bytes is accepted by the integrated firmware and reported Incomplete
    by the reader; the reader reports a header mismatch as CRC Error; and
    it tells no bytes at all (No response) from too few. *)
Theorem reader_agrees_with_integrated (env : oracle) (rx_buf : list Z)
    (rx_len : Z) (w : world) :
  Forall is_u8 rx_buf ->
  Z.of_nat (length rx_buf) = MODBUS_RX_BUFFER ->
  0 <= rx_len <= MODBUS_RX_BUFFER ->
  exists rep r w',
    Reader.report_of rx_buf rx_len = Some rep /\
    parse_response rx_buf rx_len env w = Ok r w' /\
    ((exists p, rep = Reader.ROk p) <-> r = 0 /\ rx_len <> 70) /\
    (forall p, rep = Reader.ROk p -> p = printed_of (meter_data (globals w'))) /\
    (rep = Reader.RCrcError <-> r = -1 /\ 70 < rx_len) /\
    (rep = Reader.RIncomplete rx_len <-> 0 < rx_len <= 70) /\
    (rep = Reader.RNoResponse <-> rx_len = 0).
Proof.
  intros Hu8 H256 Hlen.
  pose proof (report_of_run rx_buf rx_len Hu8 H256 Hlen) as Hrep.
  pose proof (parse_response_run env rx_buf rx_len w Hu8 H256 Hlen) as Hrun.
  cbv zeta in Hrep, Hrun.
  pose proof (frame_length rx_buf rx_len) as Hfl.
  unfold MODBUS_RX_BUFFER in *. specialize (Hfl ltac:(lia)).
  assert (Hshort : rx_len < 70 -> validate (take (Z.to_nat rx_len) rx_buf) = Incomplete).
  { intros Hs. unfold validate. rewrite Hfl.
    destruct (rx_len <? 70) eqn:E; [reflexivity|apply Z.ltb_ge in E; lia]. }
  assert (Hacc : validate (take (Z.to_nat rx_len) rx_buf) = Accepted -> 70 <= rx_len).
  { intros Ha. destruct (Z_lt_ge_dec rx_len 70) as [Hs|Hs]; [|lia].
    rewrite (Hshort Hs) in Ha. discriminate. }
  eexists _, _, _. split; [exact Hrep|]. split; [exact Hrun|].
  cbn [globals meter_data set_meter_data].
  destruct (70 <? rx_len) eqn:Hlong;
    [apply Z.ltb_lt in Hlong|apply Z.ltb_ge in Hlong].
  - destruct (validate (take (Z.to_nat rx_len) rx_buf)) eqn:Hv;
      repeat split; intros;
      repeat match goal with
             | H : exists _, _ |- _ => destruct H
             | H : _ /\ _ |- _ => destruct H
             end;
      try discriminate; try lia; try congruence; eauto.
  - destruct (0 <? rx_len) eqn:Hpos;
      [apply Z.ltb_lt in Hpos|apply Z.ltb_ge in Hpos];
      (destruct (validate (take (Z.to_nat rx_len) rx_buf)) eqn:Hv;
       repeat split; intros;
       repeat match goal with
              | H : exists _, _ |- _ => destruct H
              | H : _ /\ _ |- _ => destruct H
              end;
       try discriminate; try lia; try congruence;
       try (specialize (Hacc eq_refl); lia)).
Qed.

Lemma reader_agrees_with_integrated_witness :
  exists p,
    Reader.report_of reply_low_word_one 81 = Some (Reader.ROk p) /\
    Reader.flow_int p = 0 /\ Reader.flow_dec p = 1.
Proof.
  assert (Hu8 : Forall is_u8 reply_low_word_one).
  { apply bytes_by_check. vm_compute. reflexivity. }
  destruct (reader_agrees_with_integrated env_silent reply_low_word_one 81 world_init
              Hu8 eq_refl ltac:(unfold MODBUS_RX_BUFFER; lia))
    as (rep & r & w' & Hrep & Hrun & Hok & Hval & _).
  assert (Hr : r = 0).
  { vm_compute in Hrun. injection Hrun as <- _. reflexivity. }
  assert (H81 : 81 <> 70) by lia.
  destruct (proj2 Hok (conj Hr H81)) as [p ->].
  exists p. split; [exact Hrep|].
  rewrite (Hval p eq_refl).
  assert (Hw : meter_data (globals w') = decode (drop 3 reply_low_word_one)).
  { vm_compute in Hrun. injection Hrun as _ <-. vm_compute. reflexivity. }
  rewrite Hw. split; vm_compute; reflexivity.
Defined.

(** ** Duration of a transaction *)

(** X14: a meter transaction is bounded in time.  If no outside call
    overruns by more than D ms, read_meter_data returns at least 110 ms
    and less than 2115 ms + 14 D after it was entered (100 ms settle time,
    the 2000 ms receive window with its last 5 ms iteration, 10 ms after
    switching back), whatever the meter sends or fails to send. *)
Theorem transaction_time_bound (env : oracle) (D : Z) (fuel : nat)
    (tx_stack rx_stack : list Z) (w : world) :
  timely D env ->
  2 * D + 2005 < 4294967296 ->
  (400 <= fuel)%nat ->
  length tx_stack = 8%nat ->
  Z.of_nat (length rx_stack) = MODBUS_RX_BUFFER ->
  Forall is_u8 rx_stack ->
  returns env (read_meter_data fuel tx_stack rx_stack)
    (fun _ w' => now w + 110 <= now w' < now w + 2115 + 14 * D) w.
Proof.
  intros Ht HD Hfuel Htx Hrx Hu8.
  exact (read_meter_data_time env D Ht HD fuel tx_stack rx_stack w Hfuel Htx Hrx Hu8).
Qed.

Lemma transaction_time_bound_witness :
  returns env_silent (read_meter_data 400 (repeat 0 8) (repeat 0 256))
    (fun _ w' => 0 + 110 <= now w' < 0 + 2115 + 14 * 0) world_init.
Proof.
  assert (Hu8 : Forall is_u8 (repeat 0 256)).
  { apply bytes_by_check. vm_compute. reflexivity. }
  assert (Ht : timely 0 env_silent).
  { intros n a. destruct a; simpl; lia. }
  exact (transaction_time_bound env_silent 0 400 (repeat 0 8) (repeat 0 256)
           world_init Ht ltac:(lia) ltac:(lia) eq_refl eq_refl Hu8).
Defined.

(** ** Layering of the bring-up *)

(** X15: the session is attempted over an established link only.  While
    no successful connect result is delivered, main makes no name
    resolution and no session call (client initialisation, connect,
    poll, teardown) at all: neither at start-up, where broker_init and
    thingsboard_connect come after a successful wifi_connect only, nor in
    any pass of the data loop, where the health check gives up as soon as
    wifi_connect has failed. *)
Theorem session_only_over_link `{Platform} (env : oracle) (its : list iter_in)
    (w : world) :
  never link_up env ->
  wp env (main its)
     (fun _ w' =>
        List.filter is_session_call (trace w') = List.filter is_session_call (trace w))
     (fun _ w' =>
        List.filter is_session_call (trace w') = List.filter is_session_call (trace w))
     w.
Proof.
  intros Hn. unfold main. apply wp_bind.
  eapply wp_mono; [apply (main_startup_without_link env Hn w)| |intros e w' []].
  intros r w1 H1. destruct r as [v|]; [apply wp_ret; exact H1|].
  apply wp_bind.
  eapply wp_mono; [apply (main_loop_without_link env Hn its w1)| |];
    [intros [] w' Hw'; apply wp_ret|intros e w' Hw']; rewrite Hw'; exact H1.
Qed.

Lemma session_only_over_link_witness :
  wp env_silent
     (@main sample_platform
        [{| it_fuel := 400; it_tx_stack := repeat 0 8; it_rx_stack := repeat 0 256 |}])
     (fun _ w' => List.filter is_session_call (trace w') = [])
     (fun _ w' => List.filter is_session_call (trace w') = []) world_init.
Proof.
  assert (Hn : never link_up env_silent).
  { intros n a e He. destruct a; simpl in He; contradiction. }
  exact (@session_only_over_link sample_platform env_silent _ world_init Hn).
Defined.
